(** * Monthly performance ledger: a shallow embedding of
      [src/pages/monthly-performance.tsx]

    The page computes, for the selected year, twelve table rows from the
    trade list, the capital-change list, the monthly capital records of the
    [useCapitalChanges] hook and the portfolio-size lookup, and it lets the
    user edit a month's net added/withdrawn figure.

    Numbers.  JavaScript numbers are modelled exactly: currency amounts are
    integers ([Z]), that is, whole currency units, on which the arithmetic
    of doubles is exact below 2^53; ratios shown in the table are rationals
    ([Q]).  Rounding of binary floating point on other amounts is outside
    the model.  A table cell that holds either a number or the string '-'
    is a [cell].

    Dates.  A JavaScript [Date] is an instant; it is modelled in local time
    as year / zero-based month / day / milliseconds since local midnight.
    [getTime] stands for the millisecond time stamp: it orders instants as
    the time stamp does, to the millisecond. *)

From Stdlib Require Import ZArith QArith List Bool String Lia Arith.
From Stdlib Require Import Reals Lra.
From Stdlib Require Import Sorted Permutation.
Import ListNotations.
Local Open Scope Z_scope.

Set Implicit Arguments.

(* ------------------------------------------------------------------ *)
(** ** Dates *)

Record Date := mkInstant {
  getFullYear : Z;
  getMonth : Z;
  getDate : Z;
  msOfDay : Z       (* milliseconds since local midnight, 0 .. 86399999 *)
}.

(** [new Date(year, monthIndex, day)]: local midnight of that day. *)
Definition mkDate (year monthIndex day : Z) : Date :=
  mkInstant year monthIndex day 0.

(** [new Date(year, monthIndex, 1)]: a month index outside 0..11 carries
    into the year, as in JavaScript. *)
Definition firstOfMonth (year monthIndex : Z) : Date :=
  mkDate (year + monthIndex / 12) (monthIndex mod 12) 1.

Definition msPerDay : Z := 86400000.

Definition getTime (d : Date) : Z :=
  ((getFullYear d * 12 + getMonth d) * 32 + getDate d) * msPerDay + msOfDay d.

Definition date_leb (a b : Date) : bool := getTime a <=? getTime b.

(* ------------------------------------------------------------------ *)
(** ** Collaborator data *)

Inductive PositionStatus := Open | Closed | Partial.

(** A trade as the page reads it.  [date] is [None] when the field is empty
    (the first filter drops such trades).  [stockMove], [rewardRisk] and
    [holdingDays] are read through [x || 0], so a missing value is [0]. *)
Record Trade := mkTrade {
  t_date : option Date;
  positionStatus : PositionStatus;
  plRs : Z;
  stockMove : Q;
  rewardRisk : Q;
  holdingDays : Q
}.

Inductive ChangeType := deposit | withdrawal.

Record CapitalChange := mkChange {
  c_id : nat;
  c_date : Date;
  c_amount : Z;
  c_type : ChangeType;
  c_description : string
}.

(** [change.type === 'deposit' ? change.amount : -change.amount] *)
Definition signedAmount (c : CapitalChange) : Z :=
  match c_type c with deposit => c_amount c | withdrawal => - c_amount c end.

(** One element of the hook's [monthlyCapital] array. *)
Record MonthlyCapital := mkMonthlyCapital {
  mc_month : string;
  mc_year : Z;
  mc_startingCapital : Z;
  mc_deposits : Z;
  mc_withdrawals : Z;
  mc_pl : Z;
  mc_finalCapital : Z
}.

(* ------------------------------------------------------------------ *)
(** ** Portfolio sizes *)

Record PortfolioSizeEntry := mkSize { ps_month : string; ps_year : Z; ps_size : Z }.

(** Modelled from the spec: the portfolio-size collaborator
    ([usePortfolio], not among the sources).  A size set for a (month, year)
    key is returned for that key; an absent key falls back to a default size. *)
Record Portfolio := mkPortfolio {
  monthlyPortfolioSizes : list PortfolioSizeEntry;
  portfolioSize : Z
}.

(** The key test of the lookup: same month name, same year. *)
Definition sizeKeyb (month : string) (year : Z) (e : PortfolioSizeEntry) : bool :=
  String.eqb (ps_month e) month && (ps_year e =? year).

(** Modelled from the spec: [getPortfolioSize(month, year)] of
    [usePortfolio] (not among the sources): the size set for the key, else
    the default size. *)
Definition getPortfolioSize (p : Portfolio) (month : string) (year : Z) : Z :=
  match find (sizeKeyb month year) (monthlyPortfolioSizes p) with
  | Some e => ps_size e
  | None => portfolioSize p
  end.

(** Modelled from the spec: the write behind [setPortfolioSize] (not among
    the sources): the entry of the key is replaced, or added when absent. *)
Fixpoint putSize (value : Z) (month : string) (year : Z)
    (l : list PortfolioSizeEntry) : list PortfolioSizeEntry :=
  match l with
  | [] => [mkSize month year value]
  | e :: rest =>
      if sizeKeyb month year e then mkSize month year value :: rest
      else e :: putSize value month year rest
  end.

(** Modelled from the spec: [setPortfolioSize(value, month, year)] of
    [usePortfolio] (not among the sources). *)
Definition setPortfolioSize (value : Z) (month : string) (year : Z)
    (p : Portfolio) : Portfolio :=
  mkPortfolio (putSize value month year (monthlyPortfolioSizes p)) (portfolioSize p).

(* ------------------------------------------------------------------ *)
(** ** Capital-change store *)

(** Modelled from the spec: the identifier [useCapitalChanges] (not among
    the sources) gives a new record; the spec only asks for it to be
    unique. *)
Definition freshId (l : list CapitalChange) : nat :=
  S (fold_right (fun c m => Nat.max (c_id c) m) O l).

(** Modelled from the spec: [addCapitalChange] of [useCapitalChanges] (not
    among the sources): appends a new record, whatever the month holds. *)
Definition addCapitalChange (amount : Z) (type : ChangeType) (date : Date)
    (description : string) (l : list CapitalChange) : list CapitalChange :=
  l ++ [mkChange (freshId l) date amount type description].

(** Modelled from the spec: [updateCapitalChange] of [useCapitalChanges]
    (not among the sources): replaces the record matching [id], and does
    nothing when the [id] is absent. *)
Definition updateCapitalChange (c : CapitalChange) (l : list CapitalChange)
    : list CapitalChange :=
  map (fun x => if Nat.eqb (c_id x) (c_id c) then c else x) l.

(** Modelled from the spec: [deleteCapitalChange] of [useCapitalChanges]
    (not among the sources): deletes the record matching [id], and does
    nothing when the [id] is absent. *)
Definition deleteCapitalChange (id : nat) (l : list CapitalChange)
    : list CapitalChange :=
  filter (fun x => negb (Nat.eqb (c_id x) id)) l.

(* ------------------------------------------------------------------ *)
(** ** Table rows *)

(** A cell that is a number or the marker '-'. *)
Inductive cell (A : Type) := Val (a : A) | Dash.
Arguments Dash {A}.

(** [typeof x === 'number'] *)
Definition isNumber {A} (c : cell A) : bool :=
  match c with Val _ => true | Dash => false end.

(** The five arguments of one [calcXIRR] call. *)
Record XirrArgs := mkXirrArgs {
  x_startDate : Date;
  x_startingCapital : Z;
  x_endDate : Date;
  x_endingCapital : Z;
  x_capitalChanges : list (Date * Z)
}.

Module MRow.
Record MonthlyData := mkMonthlyData {
  month : string;
  addedWithdrawn : Z;
  startingCapital : Z;
  pl : cell Z;
  plPercentage : cell Q;
  finalCapital : Z;
  yearPlPercentage : string;
  trades : cell nat;
  winPercentage : cell Q;
  avgGain : cell Q;
  avgLoss : cell Q;
  avgRR : cell Q;
  biggestImpact : Z;
  smallestLoss : Z;
  avgHoldingDays : cell Q;
  cagr : Q;
  rollingReturn1M : Q;
  rollingReturn3M : Q;
  rollingReturn6M : Q;
  rollingReturn12M : Q
}.
End MRow.
Definition MonthlyData := MRow.MonthlyData.

Definition monthOrder : list string :=
  ["Jan"; "Feb"; "Mar"; "Apr"; "May"; "Jun";
   "Jul"; "Aug"; "Sep"; "Oct"; "Nov"; "Dec"]%string.

(** [monthOrder.indexOf(month)], -1 when the name is not a month. *)
Fixpoint indexOfFrom (l : list string) (month : string) (i : Z) : Z :=
  match l with
  | [] => -1
  | s :: rest => if String.eqb s month then i else indexOfFrom rest month (i + 1)
  end.

Definition indexOf (month : string) : Z := indexOfFrom monthOrder month 0.

(** [arr[z]] for an index that may be negative or past the end. *)
Definition at_index {A} (l : list A) (z : Z) : option A :=
  if z <? 0 then None else nth_error l (Z.to_nat z).

(** Sum of a list of rationals, as [reduce((sum, t) => sum + f(t), 0)]. *)
Definition sumQ {A} (f : A -> Q) (l : list A) : Q :=
  fold_left (fun sum t => (sum + f t)%Q) l 0%Q.

Definition lengthQ {A} (l : list A) : Q := inject_Z (Z.of_nat (List.length l)).

(* ------------------------------------------------------------------ *)
(** ** Grouping the year's trades by month *)

(** A value of [monthlyMap]; [b_date] is [None] for an invalid date. *)
Record MonthBucket := mkBucket { b_trades : list Trade; b_date : option Date }.

Definition monthlyMapT := list (string * MonthBucket).

Fixpoint lookupBucket (m : monthlyMapT) (key : string) : option MonthBucket :=
  match m with
  | [] => None
  | (k, b) :: rest => if String.eqb k key then Some b else lookupBucket rest key
  end.

(** [if (!monthlyMap[month]) monthlyMap[month] = {trades: [], date: d};
     monthlyMap[month].trades.push(trade)] *)
Fixpoint pushTrade (key : string) (d : option Date) (t : Trade) (m : monthlyMapT)
    : monthlyMapT :=
  match m with
  | [] => [(key, mkBucket [t] d)]
  | (k, b) :: rest =>
      if String.eqb k key then (k, mkBucket (b_trades b ++ [t]) (b_date b)) :: rest
      else (k, b) :: pushTrade key d t rest
  end.

(** Stable insertion sort on the trade date, standing for
    [trades.sort((a, b) => getTime(a.date) - getTime(b.date))]. *)
Definition tradeTime (t : Trade) : Z :=
  match t_date t with Some d => getTime d | None => 0 end.

Fixpoint insertByDate (t : Trade) (l : list Trade) : list Trade :=
  match l with
  | [] => [t]
  | u :: rest =>
      if tradeTime t <? tradeTime u then t :: l else u :: insertByDate t rest
  end.

Definition sortByDate (l : list Trade) : list Trade :=
  fold_left (fun acc t => insertByDate t acc) l [].

(** [arr.map((x, i) => f(i, x))], counting from [i]. *)
Fixpoint mapi {A B} (f : nat -> A -> B) (i : nat) (l : list A) : list B :=
  match l with
  | [] => []
  | a :: rest => f i a :: mapi f (S i) rest
  end.

(* ------------------------------------------------------------------ *)
(** ** The page *)

(** What the component reads from outside its own state:
    [d.toLocaleString('default', {month: 'short'})], the imported
    [calcXIRR], the clock behind [new Date()], and the two derived values
    the hooks hand back after every state change. *)
Record Env := mkEnv {
  toLocaleMonth : Date -> string;
  calcXIRR : XirrArgs -> Q;
  now : Date;
  useMonthlyCapital : list Trade -> Z -> list CapitalChange -> list MonthlyCapital;
  getLatestPortfolioSize : Portfolio -> Z
}.

(** The values one render pass works on. *)
Record Inputs := mkInputs {
  trades : list Trade;
  monthlyCapital : list MonthlyCapital;
  capitalChanges : list CapitalChange;
  portfolio : Portfolio;
  selectedYear : Z;
  yearlyStartingCapital : Z
}.

Section Render.
Variable E : Env.
Variable I : Inputs.

(** [trades.filter(trade => trade.date && year(trade.date) === selectedYear)] *)
Definition inSelectedYear (t : Trade) : bool :=
  match t_date t with
  | None => false
  | Some d => getFullYear d =? selectedYear I
  end.

Definition filteredTrades : list Trade := filter inSelectedYear (trades I).

(** [new Date(trade.date).toLocaleString('default', {month: 'short'})];
    an invalid date prints as "Invalid Date". *)
Definition monthKey (t : Trade) : string :=
  match t_date t with
  | Some d => toLocaleMonth E d
  | None => "Invalid Date"%string
  end.

(** The [forEach] that fills [monthlyMap], then the sort of every bucket. *)
Definition groupedTrades : monthlyMapT :=
  fold_left (fun m t => pushTrade (monthKey t) (t_date t) t m) filteredTrades [].

Definition monthlyMap : monthlyMapT :=
  map (fun kb => (fst kb, mkBucket (sortByDate (b_trades (snd kb))) (b_date (snd kb))))
      groupedTrades.

Definition filteredMonthlyCapital : list MonthlyCapital :=
  filter (fun mc => mc_year mc =? selectedYear I) (monthlyCapital I).

(** [capitalChanges.filter(change => month and year of change.date match)] *)
Definition changeInMonth (year monthIndex : Z) (c : CapitalChange) : bool :=
  (getMonth (c_date c) =? monthIndex) && (getFullYear (c_date c) =? year).

Definition netOfChanges (l : list CapitalChange) : Z :=
  fold_left (fun net c => net + signedAmount c) l 0.

(** The body of [monthOrder.map((month, i) => ...)]. *)
Definition initialRow (month : string) : MonthlyData :=
  let monthData :=
    match lookupBucket monthlyMap month with
    | Some b => b
    | None => mkBucket [] (Some (now E))
    end in
  let monthTrades := b_trades monthData in
  let tradesCount := List.length monthTrades in
  let winTrades := filter (fun t => 0 <? plRs t) monthTrades in
  let lossTrades := filter (fun t => plRs t <? 0) monthTrades in
  let winPercentage :=
    if (0 <? tradesCount)%nat
    then ((lengthQ winTrades / lengthQ monthTrades) * 100)%Q else 0%Q in
  let avgGain :=
    if (0 <? List.length winTrades)%nat
    then (sumQ stockMove winTrades / lengthQ winTrades)%Q else 0%Q in
  let avgLoss :=
    if (0 <? List.length lossTrades)%nat
    then (sumQ stockMove lossTrades / lengthQ lossTrades)%Q else 0%Q in
  let avgRR :=
    if (0 <? tradesCount)%nat
    then (sumQ rewardRisk monthTrades / lengthQ monthTrades)%Q else 0%Q in
  let avgHoldingDays :=
    if (0 <? tradesCount)%nat
    then (sumQ holdingDays monthTrades / lengthQ monthTrades)%Q else 0%Q in
  let monthCapital :=
    match find (fun mc => String.eqb (mc_month mc) month) filteredMonthlyCapital with
    | Some mc => mc
    | None => mkMonthlyCapital month (selectedYear I) 0 0 0 0 0
    end in
  let monthCapitalChanges :=
    filter (changeInMonth (selectedYear I) (indexOf month)) (capitalChanges I) in
  let netAddedWithdrawn :=
    if (List.length monthCapitalChanges =? 0)%nat
    then mc_deposits monthCapital - mc_withdrawals monthCapital
    else netOfChanges monthCapitalChanges in
  let adjustedStartingCapital :=
    if mc_startingCapital monthCapital =? 0
    then getPortfolioSize (portfolio I) month (selectedYear I)
    else mc_startingCapital monthCapital in
  let hasTrades := (0 <? tradesCount)%nat in
  MRow.mkMonthlyData
    month
    netAddedWithdrawn
    adjustedStartingCapital
    (if hasTrades then Val (mc_pl monthCapital) else Dash)
    (if hasTrades then Val 0%Q else Dash)
    (if hasTrades then mc_finalCapital monthCapital else 0)
    ""
    (if hasTrades then Val tradesCount else Dash)
    (if hasTrades then Val winPercentage else Dash)
    (if hasTrades then Val avgGain else Dash)
    (if hasTrades then Val avgLoss else Dash)
    (if hasTrades then Val avgRR else Dash)
    0
    0
    (if hasTrades then Val avgHoldingDays else Dash)
    0%Q 0%Q 0%Q 0%Q 0%Q.

Definition initialMonthlyData : list MonthlyData := map initialRow monthOrder.

(** [capitalChanges.filter(c => new Date(c.date) <= currentDate)
      .map(c => ({date, amount: signed}))] *)
Definition relevantChanges (currentDate : Date) : list (Date * Z) :=
  map (fun c => (c_date c, signedAmount c))
      (filter (fun c => date_leb (c_date c) currentDate) (capitalChanges I)).

(** The year-to-date call, [None] when the guard fails. *)
Definition ytdArgs (row : MonthlyData) : option XirrArgs :=
  let monthIndex := indexOf (MRow.month row) in
  let currentDate := firstOfMonth (selectedYear I) monthIndex in
  let startOfYear := firstOfMonth (selectedYear I) 0 in
  if negb (MRow.startingCapital row =? 0)
  then Some (mkXirrArgs startOfYear (yearlyStartingCapital I) currentDate
                        (MRow.finalCapital row) (relevantChanges currentDate))
  else None.

(** One rolling-window block.  [guard] is the block's first test on [i]
    ([i > 0], [i >= 2], [i >= 5], [i >= 11]); the second test is the
    truthiness of [initialMonthlyData[i-k]]. *)
Definition rollingArgs (guard : bool) (k : Z) (i : nat) (row : MonthlyData)
    : option XirrArgs :=
  let monthIndex := indexOf (MRow.month row) in
  let currentDate := firstOfMonth (selectedYear I) monthIndex in
  if guard then
    match at_index initialMonthlyData (Z.of_nat i - k) with
    | Some prevRow =>
        let prevMonth := firstOfMonth (selectedYear I) (monthIndex - k) in
        Some (mkXirrArgs prevMonth (MRow.finalCapital prevRow) currentDate
                (MRow.finalCapital row)
                (filter (fun c => date_leb prevMonth (fst c))
                        (relevantChanges currentDate)))
    | None => None
    end
  else None.

Definition args1M (i : nat) := rollingArgs (0 <? i)%nat 1 i.
Definition args3M (i : nat) := rollingArgs (2 <=? i)%nat 3 i.
Definition args6M (i : nat) := rollingArgs (5 <=? i)%nat 6 i.
Definition args12M (i : nat) := rollingArgs (11 <=? i)%nat 12 i.

(** The variable starts at 0 and is overwritten by the call when made. *)
Definition xirrOf (call : option XirrArgs) : Q :=
  match call with Some a => calcXIRR E a | None => 0%Q end.

(** The body of [initialMonthlyData.map((row, i) => ...)].  Both
    [startingCapital] and [finalCapital] of a row are numbers, so the
    [typeof] tests on them hold; [pl] may be the marker. *)
Definition computedRow (i : nat) (row : MonthlyData) : MonthlyData :=
  let startingCapital := MRow.startingCapital row in
  let pl := MRow.pl row in
  MRow.mkMonthlyData
    (MRow.month row)
    (MRow.addedWithdrawn row)
    (MRow.startingCapital row)
    (MRow.pl row)
    (match pl with
     | Val p =>
         if negb (startingCapital =? 0)
         then Val ((inject_Z p / inject_Z startingCapital) * 100)%Q
         else Dash
     | Dash => Dash
     end)
    (MRow.finalCapital row)
    (MRow.yearPlPercentage row)
    (MRow.trades row)
    (MRow.winPercentage row)
    (MRow.avgGain row)
    (MRow.avgLoss row)
    (MRow.avgRR row)
    (MRow.biggestImpact row)
    (MRow.smallestLoss row)
    (MRow.avgHoldingDays row)
    (xirrOf (ytdArgs row))
    (xirrOf (args1M i row))
    (xirrOf (args3M i row))
    (xirrOf (args6M i row))
    (xirrOf (args12M i row)).

Definition computedData : list MonthlyData := mapi computedRow O initialMonthlyData.

End Render.

(* ------------------------------------------------------------------ *)
(** ** Editing a month's net added/withdrawn figure *)

Inductive Outcome :=
| Ignored                      (* silent [return] before any check on the row *)
| Thrown                       (* [computedData[rowIndex]] is undefined *)
| Alerted (message : string)   (* [alert(...)] then [return] *)
| Saved.                       (* ran to the end of the handler *)

Record EditResult := mkEditResult {
  outcome : Outcome;
  editingCell : option (nat * string);
  newCapitalChanges : list CapitalChange;
  newPortfolio : Portfolio
}.

Definition newline : string := String (Ascii.ascii_of_nat 10) EmptyString.

Definition startingCapitalAlert : string :=
  ("Please set the Starting Capital before adding/withdrawing funds."
   ++ newline ++ newline
   ++ "Click on the Starting Capital field first to set it.")%string.

Definition manualEdit : string := "Manual edit from performance table".

Definition isSome {A} (o : option A) : bool :=
  match o with Some _ => true | None => false end.

(** [handleSaveAddedWithdrawn(rowIndex, month, year)].  [value] is
    [Number(editingValue)], [None] standing for NaN; [cell] is the editing
    cell before the call.  The three branches on [existingChange] are kept
    in the order of the source. *)
Definition handleSaveAddedWithdrawn (E : Env) (I : Inputs)
    (cell : option (nat * string)) (value : option Z)
    (rowIndex : nat) (month : string) (year : Z) : EditResult :=
  let unchanged o c := mkEditResult o c (capitalChanges I) (portfolio I) in
  match value with
  | None => unchanged Ignored cell
  | Some value =>
      let monthIndex := indexOf month in
      if monthIndex =? -1 then unchanged Ignored cell
      else
        let year := selectedYear I in
        match nth_error (computedData E I) rowIndex with
        | None => unchanged Thrown cell
        | Some monthData =>
            let startingCapital := MRow.startingCapital monthData in
            if startingCapital <=? 0
            then unchanged (Alerted startingCapitalAlert)
                           (Some (rowIndex, "startingCapital"%string))
            else
              let monthDate := firstOfMonth year monthIndex in
              let existingChange :=
                find (changeInMonth year monthIndex) (capitalChanges I) in
              let currentPortfolioSize := getPortfolioSize (portfolio I) month year in
              let type := if 0 <=? value then deposit else withdrawal in
              if isSome existingChange then
                match existingChange with
                | Some existing =>
                    let oldAmount := signedAmount existing in
                    let difference := value - oldAmount in
                    let newPortfolioSize := currentPortfolioSize + difference in
                    mkEditResult Saved None
                      (updateCapitalChange
                         (mkChange (c_id existing) monthDate (Z.abs value) type manualEdit)
                         (capitalChanges I))
                      (setPortfolioSize newPortfolioSize month year (portfolio I))
                | None => unchanged Saved None
                end
              else if negb (value =? 0) then
                let newPortfolioSize := currentPortfolioSize + value in
                mkEditResult Saved None
                  (addCapitalChange (Z.abs value) type monthDate manualEdit
                                    (capitalChanges I))
                  (setPortfolioSize newPortfolioSize month year (portfolio I))
              else if (value =? 0) && isSome existingChange then
                match existingChange with
                | Some existing =>
                    let oldAmount := signedAmount existing in
                    let newPortfolioSize := currentPortfolioSize - oldAmount in
                    mkEditResult Saved None
                      (deleteCapitalChange (c_id existing) (capitalChanges I))
                      (setPortfolioSize newPortfolioSize month year (portfolio I))
                | None => unchanged Saved None
                end
              else unchanged Saved None
        end
  end.

(** The state that survives between two user actions. *)
Record AppState := mkAppState {
  a_trades : list Trade;
  a_capitalChanges : list CapitalChange;
  a_portfolio : Portfolio;
  a_selectedYear : Z
}.

(** One render pass: the hooks recompute their derived values from the
    state, and the effect has copied [getLatestPortfolioSize()] into
    [yearlyStartingCapital]. *)
Definition render (E : Env) (st : AppState) : Inputs :=
  let latest := getLatestPortfolioSize E (a_portfolio st) in
  mkInputs (a_trades st)
           (useMonthlyCapital E (a_trades st) latest (a_capitalChanges st))
           (a_capitalChanges st)
           (a_portfolio st)
           (a_selectedYear st)
           latest.

(** The spec's [setNetChange(month, year, newValue)]: the user types
    [newValue] into the row of [month] and saves. *)
Definition setNetChangeResult (E : Env) (st : AppState)
    (rowIndex : nat) (month : string) (year newValue : Z) : EditResult :=
  handleSaveAddedWithdrawn E (render E st)
    (Some (rowIndex, "addedWithdrawn"%string)) (Some newValue) rowIndex month year.

Definition setNetChange (E : Env) (st : AppState)
    (rowIndex : nat) (month : string) (year newValue : Z) : AppState :=
  let r := setNetChangeResult E st rowIndex month year newValue in
  mkAppState (a_trades st) (newCapitalChanges r) (newPortfolio r) (a_selectedYear st).

(* ------------------------------------------------------------------ *)
(** ** The XIRR solver *)

Module XIRRSolver.
Local Open Scope R_scope.

(** A cash-flow event: signed day offset from the start of the series,
    signed amount. *)
Definition CashFlowEvent : Type := (R * R)%type.

Definition days (e : CashFlowEvent) : R := fst e.
Definition amount (e : CashFlowEvent) : R := snd e.

Section Solver.
(** The tolerance accepted when the iteration cap is reached and the
    bound under which the derivative counts as degenerate; the spec
    names both without giving a value. *)
Variables relaxedTolerance derivativeFloor : R.

(** Modelled from the spec: the values the spec gives as its examples for
    the solver's initial guess (10%), absolute tolerance (1e-6) and
    iteration cap (100). *)
Definition initialGuess : R := 1 / 10.
Definition tolerance : R := 1 / 1000000.
Definition maxIterations : nat := 100.

(** Modelled from the spec: the net present value of the solver
    ([calcXIRR] of [utils/tradeCalculations], not among the sources),
    the sum of [amount_i / (1 + r)^(days_i / 365)], over the reals. *)
Definition npv (cf : list CashFlowEvent) (r : R) : R :=
  fold_right (fun e acc => amount e / Rpower (1 + r) (days e / 365) + acc) 0 cf.

(** Modelled from the spec: the analytic derivative of [npv] in [r]. *)
Definition dnpv (cf : list CashFlowEvent) (r : R) : R :=
  fold_right
    (fun e acc =>
       - (days e / 365) * amount e / Rpower (1 + r) (days e / 365 + 1) + acc)
    0 cf.

(** Order and equality tests on reals, as booleans. *)
Definition Rltb (a b : R) : bool := if Rlt_dec a b then true else false.
Definition Rleb (a b : R) : bool := if Rle_dec a b then true else false.
Definition Reqb (a b : R) : bool := if Req_dec_T a b then true else false.

(** Modelled from the spec: Newton-Raphson on [npv].  Each round stops
    with [r] when [|f(r)|] is under the tolerance, gives up with 0 when
    the derivative is degenerate or the next rate is at or below -1, and
    otherwise moves to [r - f(r)/f'(r)]; when the rounds are used up the
    estimate is kept only under the relaxed tolerance. *)
Fixpoint newton (rounds : nat) (cf : list CashFlowEvent) (r : R) : R :=
  if Rltb (Rabs (npv cf r)) tolerance then r
  else
    match rounds with
    | O => if Rltb (Rabs (npv cf r)) relaxedTolerance then r else 0
    | S rounds' =>
        let d := dnpv cf r in
        if Rltb (Rabs d) derivativeFloor then 0
        else
          let r' := r - npv cf r / d in
          if Rleb r' (-1) then 0 else newton rounds' cf r'
    end.

(** The Newton iterate of a rate, and the estimate reached from [r] after
    [n] rounds none of which stops or gives up. *)
Definition newtonStep (cf : list CashFlowEvent) (r : R) : R :=
  r - npv cf r / dnpv cf r.

Definition estimateAfter (n : nat) (cf : list CashFlowEvent) (r : R) : R :=
  Nat.iter n (newtonStep cf) r.

(** Modelled from the spec: the series has an inflow and an outflow. *)
Definition hasSignChange (cf : list CashFlowEvent) : bool :=
  existsb (fun e => Rltb 0 (amount e)) cf
  && existsb (fun e => Rltb (amount e) 0) cf.

(** Modelled from the spec: the first or the last event of the series (its
    boundary valuations) has amount 0. *)
Definition zeroBoundary (cf : list CashFlowEvent) : bool :=
  match cf with
  | [] => true
  | first :: _ => Reqb (amount first) 0 || Reqb (amount (last cf first)) 0
  end.

(** Modelled from the spec: the solver ([calcXIRR], not among the
    sources).  A series without a sign change or with a zero boundary
    value has no computable rate and yields 0; the result is a decimal
    rate, not a percentage. *)
Definition calcXIRR (cf : list CashFlowEvent) : R :=
  if negb (hasSignChange cf) then 0
  else if zeroBoundary cf then 0
  else newton maxIterations cf initialGuess.
End Solver.

(** Outflow of 1000 on day 0, inflow of 1100 on day 365. *)
Definition twoEventSeries : list CashFlowEvent := [(0, -1000); (365, 1100)].

(** An outflow of [P] on day 0 and an inflow of [Q] a year later. *)
Definition outflowInflow (P Q : R) : list CashFlowEvent := [(0, - P); (365, Q)].

(** An outflow of 1000 and, a year later, an inflow of 500: half the
    stake is lost. *)
Definition halvedSeries : list CashFlowEvent := outflowInflow 1000 500.

(** A starting value of 0, an outflow of 1000 on day 180 and an inflow of
    1100 on day 365. *)
Definition zeroStartSeries : list CashFlowEvent :=
  [(0, 0); (180, -1000); (365, 1100)].

(** Three events a year apart on which the iteration started at 10% moves
    to 0% and back. *)
Definition cyclingSeries : list CashFlowEvent :=
  [(0, -380 / 10000); (365, 784 / 10000); (730, -407 / 10000)].

(** Two inflows: no sign change. *)
Definition allPositiveSeries : list CashFlowEvent := [(0, 1000); (365, 1100)].
End XIRRSolver.

(* ------------------------------------------------------------------ *)
(** ** Vocabulary of the properties *)

(** The trades of the selected year that fall in [month]. *)
Definition tradesOfMonth (E : Env) (I : Inputs) (month : string) : list Trade :=
  filter (fun t => String.eqb (monthKey E t) month) (filteredTrades I).

(** The trades held under [key] in a month map. *)
Definition bucketTrades (m : monthlyMapT) (key : string) : list Trade :=
  match lookupBucket m key with Some b => b_trades b | None => [] end.

(** The hook's record the row of [month] is built from. *)
Definition monthCapitalOf (I : Inputs) (month : string) : MonthlyCapital :=
  match find (fun mc => String.eqb (mc_month mc) month) (filteredMonthlyCapital I) with
  | Some mc => mc
  | None => mkMonthlyCapital month (selectedYear I) 0 0 0 0 0
  end.

(** The capital changes dated in [month] of the selected year. *)
Definition changesOfMonth (I : Inputs) (month : string) : list CapitalChange :=
  filter (changeInMonth (selectedYear I) (indexOf month)) (capitalChanges I).




(** The rolling return of window [k] stored in a row, and the call the
    page builds for it. *)
Definition rollingReturn (k : Z) (row : MonthlyData) : Q :=
  if k =? 1 then MRow.rollingReturn1M row
  else if k =? 3 then MRow.rollingReturn3M row
  else if k =? 6 then MRow.rollingReturn6M row
  else MRow.rollingReturn12M row.

Definition signedEvent (c : CapitalChange) : Date * Z := (c_date c, signedAmount c).

(** The rolling series as the spec words it: nothing when [i - k < 0];
    otherwise from the first day of month [i-k] to the first day of month
    [i], valued at the final capital of those two records, with every
    capital change dated on or after the start as interim events. *)
Definition specRollingArgs (E : Env) (I : Inputs) (k : Z) (i : nat)
    : option XirrArgs :=
  let L := computedData E I in
  if Z.of_nat i - k <? 0 then None
  else
    match at_index L (Z.of_nat i - k), nth_error L i with
    | Some prev, Some cur =>
        let start := mkDate (selectedYear I) (Z.of_nat i - k) 1 in
        Some (mkXirrArgs start (MRow.finalCapital prev)
                (mkDate (selectedYear I) (Z.of_nat i) 1) (MRow.finalCapital cur)
                (map signedEvent
                     (filter (fun c => date_leb start (c_date c)) (capitalChanges I))))
    | _, _ => None
    end.

(** The same with the interim events the page passes: the capital changes
    whose instant is at or after the start and at or before the end of the
    window, both local midnights. *)
Definition windowRollingArgs (E : Env) (I : Inputs) (k : Z) (i : nat)
    : option XirrArgs :=
  let L := computedData E I in
  if Z.of_nat i - k <? 0 then None
  else
    match at_index L (Z.of_nat i - k), nth_error L i with
    | Some prev, Some cur =>
        let start := mkDate (selectedYear I) (Z.of_nat i - k) 1 in
        let stop := mkDate (selectedYear I) (Z.of_nat i) 1 in
        Some (mkXirrArgs start (MRow.finalCapital prev) stop (MRow.finalCapital cur)
                (map signedEvent
                     (filter (fun c => date_leb start (c_date c)
                                       && date_leb (c_date c) stop)
                             (capitalChanges I))))
    | _, _ => None
    end.

(** The year-to-date series of one render pass: it starts on 1 January of
    the selected year at the pass's [yearlyStartingCapital], ends at local
    midnight of the first day of month [i], and has as interim events the
    capital changes whose instant is at or before that end. *)
Definition passYtdArgs (I : Inputs) (i : nat) (row : MonthlyData) : XirrArgs :=
  let stop := mkDate (selectedYear I) (Z.of_nat i) 1 in
  mkXirrArgs (mkDate (selectedYear I) 0 1) (yearlyStartingCapital I)
             stop (MRow.finalCapital row)
             (map signedEvent
                  (filter (fun c => date_leb (c_date c) stop) (capitalChanges I))).

(** What an accepted edit does to the two stores; the handler is shown
    below to agree with it. *)
Definition acceptedEdit (year : Z) (month : string) (value : Z)
    (changes : list CapitalChange) (p : Portfolio)
    : list CapitalChange * Portfolio :=
  let monthDate := firstOfMonth year (indexOf month) in
  let type := if 0 <=? value then deposit else withdrawal in
  match find (changeInMonth year (indexOf month)) changes with
  | Some existing =>
      (updateCapitalChange
         (mkChange (c_id existing) monthDate (Z.abs value) type manualEdit) changes,
       setPortfolioSize (getPortfolioSize p month year + (value - signedAmount existing))
                        month year p)
  | None =>
      if value =? 0 then (changes, p)
      else (addCapitalChange (Z.abs value) type monthDate manualEdit changes,
            setPortfolioSize (getPortfolioSize p month year + value) month year p)
  end.

(* ------------------------------------------------------------------ *)
(** ** Sample data *)

Module Sample.
(** English short month names. *)
Definition englishMonth (d : Date) : string :=
  nth (Z.to_nat (getMonth d)) monthOrder ""%string.

(** A stand-in solver for running the page on samples: the gain over the
    window, net of the capital changes passed in, in percent of the
    starting capital.  The general properties hold for every solver. *)
Definition plainGain (a : XirrArgs) : Q :=
  let flows := fold_left (fun s e => s + snd e) (x_capitalChanges a) 0 in
  if x_startingCapital a =? 0 then 0%Q
  else Qred ((inject_Z (x_endingCapital a - x_startingCapital a - flows)
              / inject_Z (x_startingCapital a)) * 100)%Q.

(** A hook that holds no monthly record. *)
Definition noRecords (_ : list Trade) (_ : Z) (_ : list CapitalChange)
    : list MonthlyCapital := [].

Definition env : Env :=
  mkEnv englishMonth plainGain (mkDate 2026 10 1) noRecords portfolioSize.

Definition jan15 : Date := mkDate 2024 0 15.
Definition jan1 : Date := mkDate 2024 0 1.
Definition mar1 : Date := mkDate 2024 2 1.

(** The boundary scenario of the spec: one closed trade in January 2024
    with a profit of 500 on a starting capital of 10000. *)
Definition oneTrade : list Trade :=
  [mkTrade (Some jan15) Closed 500 (5 # 1) (2 # 1) (3 # 1)].

Definition januaryRecord : MonthlyCapital :=
  mkMonthlyCapital "Jan" 2024 10000 0 0 500 10500.

Definition februaryRecord : MonthlyCapital :=
  mkMonthlyCapital "Feb" 2024 10000 0 0 0 10000.

Definition anchor10000 : Portfolio := mkPortfolio [] 10000.

Definition boundaryScenario : Inputs :=
  mkInputs oneTrade [januaryRecord; februaryRecord] [] anchor10000 2024 10000.

(** No trade, no record, no capital change: only the anchor. *)
Definition quietYear : Inputs := mkInputs [] [] [] anchor10000 2024 10000.

(** A deposit of 100 on the first of March. *)
Definition marchDeposit : CapitalChange :=
  mkChange 1 mar1 100 deposit "top-up".

Definition withMarchDeposit : Inputs :=
  mkInputs oneTrade [januaryRecord; februaryRecord] [marchDeposit]
           anchor10000 2024 10000.

Definition quietState : AppState := mkAppState [] [] anchor10000 2024.

(** A year whose anchor is 0: starting capital was never set. *)
Definition unsetState : AppState := mkAppState [] [] (mkPortfolio [] 0) 2024.
End Sample.

(* ------------------------------------------------------------------ *)
(** ** The rest of the page *)

(** [getYearOptions()]: the loop pushes 2000, 2001, ... while
    [y <= currentYear + 1], where [currentYear] is the clock's year. *)
Definition getYearOptions (E : Env) : list Z :=
  let currentYear := getFullYear (now E) in
  map (fun k => 2000 + Z.of_nat k) (seq 0 (Z.to_nat (currentYear + 1 - 2000 + 1))).

(** [arr.findIndex(p)], -1 when no element passes. *)
Fixpoint findIndexFrom {A} (p : A -> bool) (l : list A) (i : Z) : Z :=
  match l with
  | [] => -1
  | a :: rest => if p a then i else findIndexFrom p rest (i + 1)
  end.

(** [computedData.findIndex(d => d.month === item.month)], the row index
    every cell of [item] hands to the handlers. *)
Definition rowIndexOf (E : Env) (I : Inputs) (item : MonthlyData) : Z :=
  findIndexFrom (fun d => String.eqb (MRow.month d) (MRow.month item))
                (computedData E I) 0.

(** The trade count of a row as a number, 0 under the marker. *)
Definition tradeCount (row : MonthlyData) : nat :=
  match MRow.trades row with Val n => n | Dash => 0%nat end.

(** Saving the Starting Capital cell (the same body on blur, on Enter and
    on the check button): [val = Number(editingValue)], [None] for NaN;
    [if (!isNaN(val) && val >= 0) setPortfolioSize(val, item.month,
    selectedYear)]. *)
Definition saveStartingCapital (I : Inputs) (value : option Z) (month : string)
    : Portfolio :=
  match value with
  | Some val =>
      if 0 <=? val then setPortfolioSize val month (selectedYear I) (portfolio I)
      else portfolio I
  | None => portfolio I
  end.

(** The same on the state that survives the render. *)
Definition setStartingCapital (E : Env) (st : AppState) (month : string) (val : Z)
    : AppState :=
  mkAppState (a_trades st) (a_capitalChanges st)
             (saveStartingCapital (render E st) (Some val) month)
             (a_selectedYear st).

(** The year the Added/Withdrawn cell works with:
    [monthlyCapital.find(mc => mc.month === month)] over the records of
    every year, then [monthCapital ? monthCapital.year
    : new Date().getFullYear()]. *)
Definition editingYear (E : Env) (I : Inputs) (month : string) : Z :=
  match find (fun mc => String.eqb (mc_month mc) month) (monthlyCapital I) with
  | Some mc => mc_year mc
  | None => getFullYear (now E)
  end.

(** The effect that fills [editingValue] when the Added/Withdrawn cell of
    row [rowIndex] starts being edited.  The result is
    [Number(editingValue)] after the effect, which is all the save handler
    reads of the text: the signed amount of the change found, or 0 for the
    empty text; [None] when [computedData[rowIndex]] is undefined and the
    effect returns early. *)
Definition prefillAddedWithdrawn (E : Env) (I : Inputs) (rowIndex : nat)
    : option Z :=
  match nth_error (computedData E I) rowIndex with
  | None => None
  | Some item =>
      let month := MRow.month item in
      let year := editingYear E I month in
      match find (changeInMonth year (indexOf month)) (capitalChanges I) with
      | Some existingChange =>
          let sign := match c_type existingChange with
                      | deposit => 1
                      | withdrawal => -1
                      end in
          Some (c_amount existingChange * sign)
      | None => Some 0
      end
  end.

(** The signed amount of the change the handler would find for a month,
    0 when there is none. *)
Definition recordedNet (year : Z) (month : string) (changes : list CapitalChange) : Z :=
  match find (changeInMonth year (indexOf month)) changes with
  | Some c => signedAmount c
  | None => 0
  end.

(* ------------------------------------------------------------------ *)
(** ** Sorting with a comparator *)

(** [arr.sort(cmp)] is stable; [before x y] stands for [cmp(x, y) < 0].
    An element is put in front of the first element it must precede, so
    elements that compare equal keep their order. *)
Fixpoint insertBefore {A} (before : A -> A -> bool) (x : A) (l : list A) : list A :=
  match l with
  | [] => [x]
  | y :: rest => if before x y then x :: l else y :: insertBefore before x rest
  end.

Definition stableSort {A} (before : A -> A -> bool) (l : list A) : list A :=
  fold_left (fun acc x => insertBefore before x acc) l [].

Definition Qltb (a b : Q) : bool := negb (Qle_bool b a).

(* ------------------------------------------------------------------ *)
(** ** The allocations page *)

Module Allocations.

(** The [Trade] interface the page declares for itself. *)
Record Trade := mkTrade {
  id : string;
  name : string;
  positionStatus : PositionStatus;
  positionSize : Z
}.

(** [{...trade, calculatedAllocation}] *)
Record Allocated := mkAllocated {
  trade : Trade;
  calculatedAllocation : Q
}.

Definition openOrPartial (t : Trade) : bool :=
  match positionStatus t with
  | Open | Partial => true
  | Closed => false
  end.

(** [trade.positionSize && portfolioSize > 0
      ? (trade.positionSize / portfolioSize) * 100 : 0] *)
Definition allocationOf (portfolioSize : Z) (t : Trade) : Q :=
  if negb (positionSize t =? 0) && (0 <? portfolioSize)
  then ((inject_Z (positionSize t) / inject_Z portfolioSize) * 100)%Q
  else 0%Q.

(** [b.calculatedAllocation - a.calculatedAllocation < 0] *)
Definition largerFirst (a b : Allocated) : bool :=
  Qltb (calculatedAllocation b) (calculatedAllocation a).

(** The [useMemo] of [topAllocations].  A missing trade list is the empty
    list; a missing portfolio size is 0. *)
Definition topAllocations (trades : list Trade) (portfolioSize : Z) : list Allocated :=
  if (List.length trades =? 0)%nat || (portfolioSize =? 0) || (portfolioSize <=? 0)
  then []
  else
    let openAndPartialTrades := filter openOrPartial trades in
    let tradesWithAllocation :=
      map (fun t => mkAllocated t (allocationOf portfolioSize t)) openAndPartialTrades in
    stableSort largerFirst tradesWithAllocation.

End Allocations.

(* ------------------------------------------------------------------ *)
(** ** The statistics card *)

Module Stats.

Record TradeStatistics := mkTradeStatistics {
  totalTrades : nat;
  winRate : Q;
  avgGain : Q;
  avgLoss : Q;
  avgPositionSize : Q;
  avgHoldingDays : Q;
  avgR : Q
}.

(** The body of the [TradeStatistics] component before rendering.  The
    [allocation] field of a trade is read through [x || 0] and is taken as
    a function of the trade; [calcWeightedRewardRisk] is imported from
    [utils/tradeCalculations] and is a parameter. *)
Definition tradeStatistics (allocation calcWeightedRewardRisk : Trade -> Q)
    (trades : list Trade) : TradeStatistics :=
  let totalTrades := List.length trades in
  let winTrades := filter (fun t => 0 <? plRs t) trades in
  let lossTrades := filter (fun t => plRs t <? 0) trades in
  let winRate :=
    if (0 <? totalTrades)%nat
    then ((lengthQ winTrades / lengthQ trades) * 100)%Q else 0%Q in
  let avgGain :=
    if (0 <? List.length winTrades)%nat
    then (sumQ stockMove winTrades / lengthQ winTrades)%Q else 0%Q in
  let avgLoss :=
    if (0 <? List.length lossTrades)%nat
    then (sumQ stockMove lossTrades / lengthQ lossTrades)%Q else 0%Q in
  let avgPositionSize :=
    if (0 <? totalTrades)%nat
    then (sumQ allocation trades / lengthQ trades)%Q else 0%Q in
  let avgHoldingDays :=
    if (0 <? totalTrades)%nat
    then (sumQ holdingDays trades / lengthQ trades)%Q else 0%Q in
  let avgR :=
    if (0 <? totalTrades)%nat
    then (sumQ calcWeightedRewardRisk trades / lengthQ trades)%Q else 0%Q in
  mkTradeStatistics totalTrades winRate avgGain avgLoss avgPositionSize
                    avgHoldingDays avgR.

End Stats.

(* ------------------------------------------------------------------ *)
(** ** P/L by day of the week *)

Module DayChart.

Definition days : list string :=
  ["Sunday"; "Monday"; "Tuesday"; "Wednesday"; "Thursday"; "Friday"; "Saturday"]%string.

(** Days from 1 January 1970 to a calendar date (proleptic Gregorian). *)
Definition daysFromCivil (d : Date) : Z :=
  let m := getMonth d + 1 in
  let y := if m <=? 2 then getFullYear d - 1 else getFullYear d in
  let era := y / 400 in
  let yoe := y - era * 400 in
  let mp := (m + 9) mod 12 in
  let doy := (153 * mp + 2) / 5 + getDate d - 1 in
  let doe := yoe * 365 + yoe / 4 - yoe / 100 + doy in
  era * 146097 + doe - 719468.

(** [date.getDay()]: 0 for Sunday; 1 January 1970 was a Thursday. *)
Definition getDay (d : Date) : Z := (daysFromCivil d + 4) mod 7.

(** The accumulator object of the [reduce], keyed by day name. *)
Definition PnlByDay := list (string * Z).

Fixpoint lookupDay (acc : PnlByDay) (day : string) : option Z :=
  match acc with
  | [] => None
  | (k, v) :: rest => if String.eqb k day then Some v else lookupDay rest day
  end.

(** [acc[day] = v] *)
Fixpoint storeDay (day : string) (v : Z) (acc : PnlByDay) : PnlByDay :=
  match acc with
  | [] => [(day, v)]
  | (k, w) :: rest =>
      if String.eqb k day then (k, v) :: rest else (k, w) :: storeDay day v rest
  end.

(** [acc[day] || 0] *)
Definition orZero (o : option Z) : Z :=
  match o with Some v => v | None => 0 end.

Definition realized (t : Trade) : bool :=
  match positionStatus t with
  | Closed | Partial => true
  | Open => false
  end.

(** One step of the [reduce]: a closed or partial trade with a date adds
    its [plRs] under the name of its week day.  (A date that does not
    parse would be filed under the name "undefined", which the chart never
    reads; it is [None] here and adds nothing.) *)
Definition addTrade (acc : PnlByDay) (t : Trade) : PnlByDay :=
  match t_date t with
  | Some d =>
      if realized t then
        let day := nth (Z.to_nat (getDay d)) days "undefined"%string in
        storeDay day (orZero (lookupDay acc day) + plRs t) acc
      else acc
  | None => acc
  end.

Definition pnlByDay (trades : list Trade) : PnlByDay := fold_left addTrade trades [].

(** [days.map(day => ({day, pnl: pnlByDay[day] || 0}))] *)
Definition dayPnLData (trades : list Trade) : list (string * Z) :=
  map (fun day => (day, orZero (lookupDay (pnlByDay trades) day))) days.

End DayChart.

(* ------------------------------------------------------------------ *)
(** ** Vocabulary of the further properties *)

Definition sumZ (l : list Z) : Z := fold_right Z.add 0 l.

(** The P/L a trade brings to the day chart: its [plRs] when it is closed
    or partial and carries a date, nothing otherwise. *)
Definition chartedPnl (t : Trade) : Z :=
  if DayChart.realized t && isSome (t_date t) then plRs t else 0.

(** Larger allocation first. *)
Definition byAllocation (a b : Allocations.Allocated) : Prop :=
  (Allocations.calculatedAllocation b <= Allocations.calculatedAllocation a)%Q.

(** A rational shown in a cell, 0 under the marker. *)
Definition shown (c : cell Q) : Q :=
  match c with Val q => q | Dash => 0%Q end.

(* ------------------------------------------------------------------ *)
(** ** More sample data *)

Module Scenario.

(** January 2024 holds one deposit of 500, recorded under id 7. *)
Definition januaryDeposit : CapitalChange :=
  mkChange 7 (mkDate 2024 0 20) 500 deposit "bonus".

Definition withJanuaryDeposit : Inputs :=
  mkInputs Sample.oneTrade [Sample.januaryRecord; Sample.februaryRecord]
           [januaryDeposit] Sample.anchor10000 2024 10000.

Definition depositState : AppState :=
  mkAppState [] [januaryDeposit] Sample.anchor10000 2024.

(** Two trades in January 2024, one in March, one in 2023, one undated. *)
Definition fiveTrades : list Trade :=
  [mkTrade (Some (mkDate 2024 0 15)) Closed 500 (5 # 1) (2 # 1) (3 # 1);
   mkTrade (Some (mkDate 2024 0 3)) Open (-200) (-2 # 1) (1 # 1) (1 # 1);
   mkTrade (Some (mkDate 2024 2 9)) Partial 50 (1 # 1) (1 # 1) (7 # 1);
   mkTrade (Some (mkDate 2023 11 30)) Closed 75 (1 # 1) (1 # 1) (2 # 1);
   mkTrade None Closed 10 (1 # 1) (1 # 1) (1 # 1)].

Definition fiveTradeYear : Inputs :=
  mkInputs fiveTrades [] [] Sample.anchor10000 2024 10000.

Definition positions : list Allocations.Trade :=
  [Allocations.mkTrade "a" "ALPHA" Open 1000;
   Allocations.mkTrade "b" "BETA" Closed 9000;
   Allocations.mkTrade "c" "GAMMA" Partial 4000;
   Allocations.mkTrade "d" "DELTA" Open 0].

(** Short month names of a Spanish locale, and the page run under it. *)
Definition spanishMonth (d : Date) : string :=
  nth (Z.to_nat (getMonth d))
      ["ene"; "feb"; "mar"; "abr"; "may"; "jun";
       "jul"; "ago"; "sept"; "oct"; "nov"; "dic"]%string ""%string.

Definition spanishEnv : Env :=
  mkEnv spanishMonth Sample.plainGain (mkDate 2026 10 1) Sample.noRecords portfolioSize.

(** The hook holds a January record of 2023 in front of the one of 2024,
    and January 2024 holds the deposit. *)
Definition january2023Record : MonthlyCapital :=
  mkMonthlyCapital "Jan" 2023 8000 0 0 0 8000.

Definition twoYearsOfRecords : Inputs :=
  mkInputs Sample.oneTrade [january2023Record; Sample.januaryRecord]
           [januaryDeposit] Sample.anchor10000 2024 10000.

End Scenario.

(* ------------------------------------------------------------------ *)
(** ** Instants *)

(** A well-formed instant: a month of 0..11, a day of 1..31 and a time of
    day under 24 hours. *)
Definition wellFormed (d : Date) : Prop :=
  0 <= getMonth d < 12 /\ 1 <= getDate d <= 31 /\ 0 <= msOfDay d < msPerDay.

(** Earlier in the calendar, then earlier in the day. *)
Definition earlier (a b : Date) : Prop :=
  getFullYear a < getFullYear b
  \/ (getFullYear a = getFullYear b
      /\ (getMonth a < getMonth b
          \/ (getMonth a = getMonth b
              /\ (getDate a < getDate b
                  \/ (getDate a = getDate b /\ msOfDay a < msOfDay b))))).

(* ------------------------------------------------------------------ *)
(** ** The monthly ledger of the hook *)

Module Ledger.


(** Modelled from the spec: the trades that count towards the realized
    P/L of the ledger of [useCapitalChanges] (not among the sources), those
    whose status is Closed or Partial. *)
Definition realized (t : Trade) : bool :=
  match positionStatus t with
  | Closed | Partial => true
  | Open => false
  end.








End Ledger.

(* ------------------------------------------------------------------ *)
(** ** Vocabulary of the year-to-date series *)

(** The capital anchor that opens the selected year: the portfolio size of
    its January. *)
Definition openingAnchor (I : Inputs) : Z :=
  getPortfolioSize (portfolio I) "Jan" (selectedYear I).

(** The year-to-date series as the spec words it: it starts on 1 January
    at the year's opening capital anchor. *)
Definition anchoredYtdArgs (I : Inputs) (i : nat) (row : MonthlyData) : XirrArgs :=
  let stop := mkDate (selectedYear I) (Z.of_nat i) 1 in
  mkXirrArgs (mkDate (selectedYear I) 0 1) (openingAnchor I)
             stop (MRow.finalCapital row)
             (map signedEvent
                  (filter (fun c => date_leb (c_date c) stop) (capitalChanges I))).

(** The year-to-date series as the page builds it from the state: it
    starts on 1 January of the selected year at the latest portfolio
    size, [getLatestPortfolioSize()], which is asked without a year. *)
Definition latestYtdArgs (E : Env) (st : AppState) (i : nat) (row : MonthlyData)
    : XirrArgs :=
  let stop := mkDate (a_selectedYear st) (Z.of_nat i) 1 in
  mkXirrArgs (mkDate (a_selectedYear st) 0 1)
             (getLatestPortfolioSize E (a_portfolio st))
             stop (MRow.finalCapital row)
             (map signedEvent
                  (filter (fun c => date_leb (c_date c) stop) (a_capitalChanges st))).

(* ------------------------------------------------------------------ *)
(** ** Sample data with times of day and with two years *)

Module Intraday.

(** A withdrawal of 50 at 00:00 on 1 February 2024 and a deposit of 250 at
    12:00 on the same day. *)
Definition midnightWithdrawal : CapitalChange :=
  mkChange 2 (mkDate 2024 1 1) 50 withdrawal "fee".

Definition noonDeposit : CapitalChange :=
  mkChange 3 (mkInstant 2024 1 1 43200000) 250 deposit "transfer".

Definition firstOfFebruary : Inputs :=
  mkInputs Sample.oneTrade [Sample.januaryRecord; Sample.februaryRecord]
           [midnightWithdrawal; noonDeposit] Sample.anchor10000 2024 10000.

(** January opens at 8000 in 2023 and at 10000 in 2024; the size outside
    these two months, which the sample hook reports as the latest, is
    12000. *)
Definition twoAnchors : Portfolio :=
  mkPortfolio [mkSize "Jan" 2023 8000; mkSize "Jan" 2024 10000] 12000.

Definition in2024 : AppState := mkAppState Sample.oneTrade [] twoAnchors 2024.
Definition in2023 : AppState := mkAppState Sample.oneTrade [] twoAnchors 2023.

(** The two capital changes of 1 February 2024 on the two anchors. *)
Definition februaryState : AppState :=
  mkAppState Sample.oneTrade [midnightWithdrawal; noonDeposit] twoAnchors 2024.





End Intraday.

(* ------------------------------------------------------------------ *)
(** * Properties *)

(** ** Lists, months and dates *)

(** The time stamp orders well-formed instants as the calendar and the
    clock do: two instants of one day are told apart by their time of
    day. *)
Lemma getTime_orders_instants :
  forall a b,
    wellFormed a -> wellFormed b ->
    (getTime a < getTime b <-> earlier a b).
Proof.
  intros [ya ma da ta] [yb mb db tb].
  unfold wellFormed, earlier, getTime, msPerDay. simpl. lia.
Qed.

Lemma date_leb_not_earlier :
  forall a b,
    wellFormed a -> wellFormed b ->
    (date_leb a b = true <-> ~ earlier b a).
Proof.
  intros a b Ha Hb. rewrite <- (getTime_orders_instants Hb Ha).
  unfold date_leb. rewrite Z.leb_le. lia.
Qed.

(** Noon of a day is after its midnight and before the next midnight. *)
Example noon_between_midnights :
  date_leb (mkDate 2024 1 1) (mkInstant 2024 1 1 43200000) = true
  /\ date_leb (mkInstant 2024 1 1 43200000) (mkDate 2024 1 1) = false
  /\ date_leb (mkInstant 2024 1 1 43200000) (mkDate 2024 1 2) = true.
Proof. repeat split. Qed.

Lemma nth_error_mapi :
  forall (A B : Type) (f : nat -> A -> B) (l : list A) (k i : nat),
    nth_error (mapi f k l) i = option_map (f (k + i)%nat) (nth_error l i).
Proof.
  intros A B f l; induction l as [|a l IH]; intros k i.
  - destruct i; reflexivity.
  - destruct i as [|i]; simpl.
    + now rewrite Nat.add_0_r.
    + rewrite IH. now rewrite Nat.add_succ_r.
Qed.

Lemma computedData_nth :
  forall E I i,
    nth_error (computedData E I) i
    = option_map (fun m => computedRow E I i (initialRow E I m)) (nth_error monthOrder i).
Proof.
  intros E I i. unfold computedData, initialMonthlyData.
  rewrite nth_error_mapi, nth_error_map. simpl.
  destruct (nth_error monthOrder i); reflexivity.
Qed.

Lemma initialMonthlyData_nth :
  forall E I i,
    nth_error (initialMonthlyData E I) i
    = option_map (initialRow E I) (nth_error monthOrder i).
Proof. intros. unfold initialMonthlyData. apply nth_error_map. Qed.

Lemma monthOrder_nth_lt :
  forall i m, nth_error monthOrder i = Some m -> (i < 12)%nat.
Proof.
  intros i m H.
  assert (K : nth_error monthOrder i <> None) by (rewrite H; discriminate).
  apply nth_error_Some in K. exact K.
Qed.

Lemma indexOf_monthOrder :
  forall i m, nth_error monthOrder i = Some m -> indexOf m = Z.of_nat i.
Proof.
  intros i m H.
  do 12 (destruct i as [|i]; [injection H as <-; reflexivity|]).
  destruct i; discriminate.
Qed.

Lemma indexOf_range :
  forall m, indexOf m = -1 \/ 0 <= indexOf m < 12.
Proof.
  intros m. unfold indexOf, monthOrder. cbn [indexOfFrom].
  repeat match goal with
         | |- context [String.eqb ?a m] => destruct (String.eqb a m)
         end; lia.
Qed.

Lemma firstOfMonth_in_year :
  forall y mi, 0 <= mi < 12 -> firstOfMonth y mi = mkDate y mi 1.
Proof.
  intros y mi H. unfold firstOfMonth.
  rewrite Z.div_small, Z.mod_small by lia. now rewrite Z.add_0_r.
Qed.

Lemma changeInMonth_firstOfMonth :
  forall y mi id a t d,
    0 <= mi < 12 ->
    changeInMonth y mi (mkChange id (firstOfMonth y mi) a t d) = true.
Proof.
  intros. rewrite firstOfMonth_in_year by assumption.
  unfold changeInMonth; simpl. now rewrite !Z.eqb_refl.
Qed.

(** ** The month buckets *)

Lemma bucketTrades_push :
  forall m k d t key,
    bucketTrades (pushTrade k d t m) key
    = if String.eqb k key then bucketTrades m key ++ [t] else bucketTrades m key.
Proof.
  unfold bucketTrades.
  induction m as [|[k' b] m IH]; intros k d t key; simpl.
  - destruct (String.eqb k key); reflexivity.
  - destruct (String.eqb_spec k' k) as [->|Hk]; simpl.
    + destruct (String.eqb k key); reflexivity.
    + destruct (String.eqb_spec k' key) as [->|Hk'].
      * destruct (String.eqb_spec k key) as [->|_]; [contradiction|reflexivity].
      * apply IH.
Qed.

Lemma bucketTrades_fold :
  forall (key : string) (f : Trade -> string) (g : Trade -> option Date) l m,
    bucketTrades (fold_left (fun acc t => pushTrade (f t) (g t) t acc) l m) key
    = bucketTrades m key ++ filter (fun t => String.eqb (f t) key) l.
Proof.
  intros key f g l. induction l as [|t l IH]; intros m; simpl.
  - now rewrite app_nil_r.
  - rewrite IH, bucketTrades_push.
    destruct (String.eqb (f t) key); [|reflexivity].
    now rewrite <- app_assoc.
Qed.

Lemma insertByDate_length :
  forall t l, List.length (insertByDate t l) = S (List.length l).
Proof.
  intros t l. induction l as [|u l IH]; simpl; [reflexivity|].
  destruct (tradeTime t <? tradeTime u); simpl; [reflexivity|].
  now rewrite IH.
Qed.

Lemma sortByDate_length :
  forall l, List.length (sortByDate l) = List.length l.
Proof.
  unfold sortByDate. intros l.
  assert (G : forall acc,
             List.length (fold_left (fun a t => insertByDate t a) l acc)
             = (List.length l + List.length acc)%nat).
  { induction l as [|t l IH]; intros acc; simpl; [reflexivity|].
    rewrite IH, insertByDate_length. lia. }
  rewrite G. simpl. lia.
Qed.

Lemma lookupBucket_sorted :
  forall m key,
    lookupBucket
      (map (fun kb => (fst kb, mkBucket (sortByDate (b_trades (snd kb))) (b_date (snd kb)))) m)
      key
    = option_map (fun b => mkBucket (sortByDate (b_trades b)) (b_date b))
                 (lookupBucket m key).
Proof.
  induction m as [|[k b] m IH]; intros key; simpl; [reflexivity|].
  destruct (String.eqb k key); [reflexivity|apply IH].
Qed.

(** The trades a row is computed from are the sorted trades of its month. *)
Lemma monthTrades_sorted :
  forall E I month,
    b_trades (match lookupBucket (monthlyMap E I) month with
              | Some b => b
              | None => mkBucket [] (Some (now E))
              end)
    = sortByDate (tradesOfMonth E I month).
Proof.
  intros E I month. unfold monthlyMap. rewrite lookupBucket_sorted.
  pose proof (bucketTrades_fold month (monthKey E) t_date (filteredTrades I) []) as H.
  fold (groupedTrades E I) in H. unfold bucketTrades in H. simpl in H.
  unfold tradesOfMonth. rewrite <- H.
  destruct (lookupBucket (groupedTrades E I) month); reflexivity.
Qed.

Lemma monthTrades_count :
  forall E I month,
    List.length (b_trades (match lookupBucket (monthlyMap E I) month with
                           | Some b => b
                           | None => mkBucket [] (Some (now E))
                           end))
    = List.length (tradesOfMonth E I month).
Proof. intros. now rewrite monthTrades_sorted, sortByDate_length. Qed.

(** Every row of the table is the computed row of its month. *)
Lemma computedData_row :
  forall E I i row,
    nth_error (computedData E I) i = Some row ->
    exists month,
      nth_error monthOrder i = Some month
      /\ row = computedRow E I i (initialRow E I month).
Proof.
  intros E I i row H. rewrite computedData_nth in H.
  destruct (nth_error monthOrder i) as [m|]; [|discriminate].
  injection H as <-. now exists m.
Qed.

(** ** The two stores *)

Lemma sizeKeyb_same : forall m y v, sizeKeyb m y (mkSize m y v) = true.
Proof.
  intros. unfold sizeKeyb; simpl. now rewrite String.eqb_refl, Z.eqb_refl.
Qed.

Lemma getPortfolioSize_set :
  forall p m y v, getPortfolioSize (setPortfolioSize v m y p) m y = v.
Proof.
  intros [l d] m y v. unfold getPortfolioSize, setPortfolioSize; simpl.
  induction l as [|e l IH]; simpl.
  - now rewrite sizeKeyb_same.
  - destruct (sizeKeyb m y e) eqn:K; simpl.
    + now rewrite sizeKeyb_same.
    + now rewrite K.
Qed.

Lemma setPortfolioSize_twice :
  forall p m y v w,
    setPortfolioSize v m y (setPortfolioSize w m y p) = setPortfolioSize v m y p.
Proof.
  intros [l d] m y v w. unfold setPortfolioSize; simpl. f_equal.
  induction l as [|e l IH]; simpl.
  - now rewrite sizeKeyb_same.
  - destruct (sizeKeyb m y e) eqn:K; simpl.
    + now rewrite sizeKeyb_same.
    + now rewrite K, IH.
Qed.

Lemma freshId_above :
  forall l x, In x l -> (c_id x < freshId l)%nat.
Proof.
  unfold freshId. induction l as [|a l IH]; intros x Hx; [contradiction|].
  simpl in *. destruct Hx as [->|Hx]; [lia|].
  specialize (IH x Hx). lia.
Qed.

Lemma update_twice :
  forall c l, updateCapitalChange c (updateCapitalChange c l) = updateCapitalChange c l.
Proof.
  intros c l. unfold updateCapitalChange. rewrite map_map.
  apply map_ext. intros x.
  destruct (Nat.eqb (c_id x) (c_id c)) eqn:K.
  - now rewrite Nat.eqb_refl.
  - now rewrite K.
Qed.

Lemma update_absent :
  forall c l, (forall x, In x l -> c_id x <> c_id c) -> updateCapitalChange c l = l.
Proof.
  intros c l H. unfold updateCapitalChange.
  rewrite <- (map_id l) at 2. apply map_ext_in. intros x Hx.
  destruct (Nat.eqb_spec (c_id x) (c_id c)) as [K|K]; [|reflexivity].
  now elim (H x Hx).
Qed.

Lemma find_update :
  forall (P : CapitalChange -> bool) c ex l,
    find P l = Some ex -> P c = true -> c_id c = c_id ex ->
    find P (updateCapitalChange c l) = Some c.
Proof.
  intros P c ex l Hf Hc Hid. induction l as [|a l IH]; [discriminate|].
  simpl in *. destruct (P a) eqn:Pa.
  - injection Hf as ->. rewrite Hid, Nat.eqb_refl. simpl. now rewrite Hc.
  - destruct (Nat.eqb (c_id a) (c_id c)); simpl.
    + now rewrite Hc.
    + rewrite Pa. now apply IH.
Qed.

Lemma find_snoc_none :
  forall (A : Type) (P : A -> bool) l x,
    find P l = None -> P x = true -> find P (l ++ [x]) = Some x.
Proof.
  intros A P l x Hf Hx. induction l as [|a l IH]; simpl in *.
  - now rewrite Hx.
  - destruct (P a); [discriminate|]. now apply IH.
Qed.

Lemma signedAmount_of_value :
  forall id d v s,
    signedAmount (mkChange id d (Z.abs v) (if 0 <=? v then deposit else withdrawal) s) = v.
Proof.
  intros. unfold signedAmount; simpl.
  destruct (Z.leb_spec 0 v); simpl; lia.
Qed.

(** ** The edit handler *)

(** The [year] argument is overwritten by [selectedYear] on entry. *)
Lemma handleSave_year_ignored :
  forall E I cell value i month yr yr',
    handleSaveAddedWithdrawn E I cell value i month yr
    = handleSaveAddedWithdrawn E I cell value i month yr'.
Proof. reflexivity. Qed.

(** A call either leaves both stores as they were or performs
    [acceptedEdit] on them. *)
Lemma handleSave_store :
  forall E I cell value i month yr,
    let r := handleSaveAddedWithdrawn E I cell value i month yr in
    (newCapitalChanges r = capitalChanges I /\ newPortfolio r = portfolio I)
    \/ (exists v,
           value = Some v /\ indexOf month <> -1 /\ outcome r = Saved
           /\ (newCapitalChanges r, newPortfolio r)
              = acceptedEdit (selectedYear I) month v (capitalChanges I) (portfolio I)).
Proof.
  intros E I cell value i month yr r. subst r.
  unfold handleSaveAddedWithdrawn, acceptedEdit.
  destruct value as [v|]; [|left; split; reflexivity].
  destruct (Z.eqb_spec (indexOf month) (-1)) as [Hm|Hm]; [left; split; reflexivity|].
  destruct (nth_error (computedData E I) i) as [row|]; [|left; split; reflexivity].
  destruct (MRow.startingCapital row <=? 0); [left; split; reflexivity|].
  cbv beta zeta.
  destruct (find (changeInMonth (selectedYear I) (indexOf month)) (capitalChanges I))
    as [ex|] eqn:F; cbn [isSome andb negb].
  - right. exists v. split; [reflexivity|split; [assumption|split; reflexivity]].
  - destruct (v =? 0) eqn:V; cbn [negb andb].
    + left; split; reflexivity.
    + right. exists v. rewrite V.
      split; [reflexivity|split; [assumption|split; reflexivity]].
Qed.

(** No path through the handler removes a record. *)
Lemma handleSave_never_deletes :
  forall E I cell value i month yr,
    (List.length (capitalChanges I)
     <= List.length (newCapitalChanges (handleSaveAddedWithdrawn E I cell value i month yr)))%nat.
Proof.
  intros E I cell value i month yr.
  destruct (handleSave_store E I cell value i month yr) as [[-> _]|(v & _ & _ & _ & H)];
    [lia|].
  unfold acceptedEdit in H.
  destruct (find _ (capitalChanges I)).
  - injection H as -> _. unfold updateCapitalChange. rewrite length_map. lia.
  - destruct (v =? 0); injection H as -> _; [lia|].
    unfold addCapitalChange. rewrite length_app. simpl. lia.
Qed.

Lemma acceptedEdit_twice :
  forall y m v ch p,
    indexOf m <> -1 ->
    acceptedEdit y m v (fst (acceptedEdit y m v ch p)) (snd (acceptedEdit y m v ch p))
    = acceptedEdit y m v ch p.
Proof.
  intros y m v ch p Hm.
  assert (R : 0 <= indexOf m < 12) by (destruct (indexOf_range m); [contradiction|lia]).
  destruct (acceptedEdit y m v ch p) as [ch1 p1] eqn:A. cbn [fst snd].
  unfold acceptedEdit in A.
  destruct (find (changeInMonth y (indexOf m)) ch) as [ex|] eqn:F.
  - set (c := mkChange (c_id ex) (firstOfMonth y (indexOf m)) (Z.abs v)
                       (if 0 <=? v then deposit else withdrawal) manualEdit) in *.
    assert (F' : find (changeInMonth y (indexOf m)) (updateCapitalChange c ch) = Some c).
    { apply find_update with (ex := ex); [exact F| |reflexivity].
      apply changeInMonth_firstOfMonth; exact R. }
    injection A as <- <-.
    unfold acceptedEdit. rewrite F'.
    change (mkChange (c_id c) (firstOfMonth y (indexOf m)) (Z.abs v)
                     (if 0 <=? v then deposit else withdrawal) manualEdit) with c.
    rewrite update_twice. f_equal.
    unfold c at 1. rewrite signedAmount_of_value.
    rewrite getPortfolioSize_set, setPortfolioSize_twice.
    f_equal. lia.
  - destruct (v =? 0) eqn:V.
    + injection A as <- <-. unfold acceptedEdit. now rewrite F, V.
    + set (c := mkChange (freshId ch) (firstOfMonth y (indexOf m)) (Z.abs v)
                         (if 0 <=? v then deposit else withdrawal) manualEdit).
      assert (A1 : ch1 = ch ++ [c]) by (injection A as <- _; reflexivity).
      assert (F' : find (changeInMonth y (indexOf m)) ch1 = Some c).
      { rewrite A1. apply find_snoc_none; [exact F|].
        apply changeInMonth_firstOfMonth; exact R. }
      injection A as _ <-.
      unfold acceptedEdit. rewrite F'.
      change (mkChange (c_id c) (firstOfMonth y (indexOf m)) (Z.abs v)
                       (if 0 <=? v then deposit else withdrawal) manualEdit) with c.
      f_equal.
      * rewrite A1. unfold updateCapitalChange. rewrite map_app. simpl.
        rewrite Nat.eqb_refl. f_equal.
        apply (update_absent c). intros x Hx K.
        apply freshId_above in Hx. simpl in K. lia.
      * unfold c at 1. rewrite signedAmount_of_value.
        rewrite getPortfolioSize_set, setPortfolioSize_twice.
        f_equal. lia.
Qed.

(** A call that runs to the end has performed [acceptedEdit]. *)
Lemma handleSave_saved :
  forall E I cell value i month yr,
    let r := handleSaveAddedWithdrawn E I cell value i month yr in
    outcome r = Saved ->
    exists v,
      value = Some v /\ indexOf month <> -1
      /\ (newCapitalChanges r, newPortfolio r)
         = acceptedEdit (selectedYear I) month v (capitalChanges I) (portfolio I).
Proof.
  intros E I cell value i month yr r. subst r.
  unfold handleSaveAddedWithdrawn, acceptedEdit.
  destruct value as [v|]; [|discriminate].
  destruct (Z.eqb_spec (indexOf month) (-1)) as [Hm|Hm]; [discriminate|].
  destruct (nth_error (computedData E I) i) as [row|]; [|discriminate].
  destruct (MRow.startingCapital row <=? 0); [discriminate|].
  cbv beta zeta. intros _. exists v.
  destruct (find (changeInMonth (selectedYear I) (indexOf month)) (capitalChanges I))
    as [ex|] eqn:F; cbn [isSome andb negb].
  - split; [reflexivity|split; [assumption|reflexivity]].
  - destruct (v =? 0) eqn:V; cbn [negb andb];
      (split; [reflexivity|split; [assumption|reflexivity]]).
Qed.

(** After an accepted edit that updates or creates a record, the record
    found for the month is dated the first of the month and carries the
    new value. *)
Lemma acceptedEdit_record :
  forall y m v ch p,
    indexOf m <> -1 ->
    v <> 0 \/ find (changeInMonth y (indexOf m)) ch <> None ->
    exists c,
      find (changeInMonth y (indexOf m)) (fst (acceptedEdit y m v ch p)) = Some c
      /\ c_date c = mkDate y (indexOf m) 1
      /\ signedAmount c = v.
Proof.
  intros y m v ch p Hm Hor.
  assert (R : 0 <= indexOf m < 12) by (destruct (indexOf_range m); [contradiction|lia]).
  unfold acceptedEdit.
  destruct (find (changeInMonth y (indexOf m)) ch) as [ex|] eqn:F; cbn [fst].
  - eexists. split; [|split].
    + apply find_update with (ex := ex); [exact F| |reflexivity].
      apply changeInMonth_firstOfMonth; exact R.
    + cbn [c_date]. now apply firstOfMonth_in_year.
    + apply signedAmount_of_value.
  - destruct (Z.eqb_spec v 0) as [V|V]; [destruct Hor as [K|K]; now elim K|].
    cbn [fst]. eexists. split; [|split].
    + unfold addCapitalChange. apply find_snoc_none; [exact F|].
      apply changeInMonth_firstOfMonth; exact R.
    + cbn [c_date]. now apply firstOfMonth_in_year.
    + apply signedAmount_of_value.
Qed.

(** Saving [v] on a month without a record and then saving 0: both edits
    accepted, the record of the month is still found, now with amount 0,
    and the portfolio size of the month is what it was. *)
Lemma acceptedEdit_then_zero :
  forall y m v ch p,
    indexOf m <> -1 ->
    v <> 0 ->
    find (changeInMonth y (indexOf m)) ch = None ->
    let s1 := acceptedEdit y m v ch p in
    let s2 := acceptedEdit y m 0 (fst s1) (snd s1) in
    (exists c, find (changeInMonth y (indexOf m)) (fst s2) = Some c /\ c_amount c = 0)
    /\ List.length (fst s2) = S (List.length ch)
    /\ getPortfolioSize (snd s2) m y = getPortfolioSize p m y.
Proof.
  intros y m v ch p Hm Hv F s1 s2.
  assert (R : 0 <= indexOf m < 12) by (destruct (indexOf_range m); [contradiction|lia]).
  destruct (@acceptedEdit_record y m v ch p Hm (or_introl Hv)) as (c1 & F1 & _ & S1).
  fold s1 in F1.
  assert (L1 : List.length (fst s1) = S (List.length ch)).
  { unfold s1, acceptedEdit. rewrite F.
    destruct (Z.eqb_spec v 0); [contradiction|]. cbn [fst].
    unfold addCapitalChange. rewrite length_app. simpl. lia. }
  assert (P1 : getPortfolioSize (snd s1) m y = getPortfolioSize p m y + v).
  { unfold s1, acceptedEdit. rewrite F.
    destruct (Z.eqb_spec v 0); [contradiction|]. cbn [snd].
    apply getPortfolioSize_set. }
  unfold s2, acceptedEdit. rewrite F1. cbn [fst snd].
  split; [|split].
  - eexists. split.
    + apply find_update with (ex := c1); [exact F1| |reflexivity].
      apply changeInMonth_firstOfMonth; exact R.
    + reflexivity.
  - unfold updateCapitalChange. rewrite length_map. exact L1.
  - rewrite getPortfolioSize_set, P1, S1. lia.
Qed.

(** C2.  An edit of a month's net change is rejected whenever the
    starting capital shown in the month's row is not positive: the handler
    raises the alert that asks for the Starting Capital to be set first, and
    neither the capital-change list nor the portfolio sizes are touched.
    This holds for every month of the table and every numeric new value. *)
Theorem net_change_rejected_without_starting_capital :
  forall E I cell v rowIndex month year row,
    indexOf month <> -1 ->
    nth_error (computedData E I) rowIndex = Some row ->
    MRow.startingCapital row <= 0 ->
    let r := handleSaveAddedWithdrawn E I cell (Some v) rowIndex month year in
    outcome r = Alerted startingCapitalAlert
    /\ startingCapitalAlert <> ""%string
    /\ newCapitalChanges r = capitalChanges I
    /\ newPortfolio r = portfolio I.
Proof.
  intros E I cell v rowIndex month year row Hm Hrow Hcap r. subst r.
  unfold handleSaveAddedWithdrawn.
  destruct (Z.eqb_spec (indexOf month) (-1)) as [K|_]; [contradiction|].
  rewrite Hrow.
  destruct (Z.leb_spec (MRow.startingCapital row) 0) as [_|K]; [|lia].
  cbn [outcome newCapitalChanges newPortfolio].
  repeat split. discriminate.
Qed.

Lemma net_change_rejected_witness :
  let r := handleSaveAddedWithdrawn Sample.env (render Sample.env Sample.unsetState)
             None (Some 500) 0 "Jan" 2024 in
  outcome r = Alerted startingCapitalAlert
  /\ startingCapitalAlert <> ""%string
  /\ newCapitalChanges r = []
  /\ newPortfolio r = mkPortfolio [] 0.
Proof.
  eapply (net_change_rejected_without_starting_capital
            Sample.env (render Sample.env Sample.unsetState) None 500 0 "Jan" 2024).
  - vm_compute. discriminate.
  - vm_compute. reflexivity.
  - vm_compute. discriminate.
Defined.

(** C4.  Saving the same net change twice in a row for the same month
    leaves the application state (capital changes and portfolio sizes) as
    one save leaves it. *)
Theorem setNetChange_idempotent :
  forall E st rowIndex month year v,
    setNetChange E (setNetChange E st rowIndex month year v) rowIndex month year v
    = setNetChange E st rowIndex month year v.
Proof.
  intros E st i month yr v.
  set (st1 := setNetChange E st i month yr v).
  assert (S1 : a_trades st1 = a_trades st /\ a_selectedYear st1 = a_selectedYear st)
    by (split; reflexivity).
  destruct S1 as [T1 Y1].
  pose proof (handleSave_store E (render E st)
                (Some (i, "addedWithdrawn"%string)) (Some v) i month yr) as H1.
  cbv zeta in H1. fold (setNetChangeResult E st i month yr v) in H1.
  destruct H1 as [[C1 P1]|(v1 & V1 & Hm & _ & A1)].
  - (* the first save changed nothing: the second sees the same state *)
    assert (E1 : st1 = st).
    { unfold st1, setNetChange. rewrite C1, P1. destruct st; reflexivity. }
    rewrite E1. exact E1.
  - injection V1 as <-.
    pose proof (handleSave_store E (render E st1)
                  (Some (i, "addedWithdrawn"%string)) (Some v) i month yr) as H2.
    cbv zeta in H2. fold (setNetChangeResult E st1 i month yr v) in H2.
    unfold setNetChange at 1. fold st1.
    destruct H2 as [[C2 P2]|(v2 & V2 & _ & _ & A2)].
    + rewrite C2, P2. reflexivity.
    + injection V2 as <-.
      assert (A3 : acceptedEdit (a_selectedYear st) month v
                     (a_capitalChanges st1) (a_portfolio st1)
                   = (a_capitalChanges st1, a_portfolio st1)).
      { change (a_capitalChanges st1) with (newCapitalChanges (setNetChangeResult E st i month yr v)).
        change (a_portfolio st1) with (newPortfolio (setNetChangeResult E st i month yr v)).
        simpl in A1.
        apply (f_equal fst) in A1 as C1. apply (f_equal snd) in A1 as P1.
        cbn [fst snd] in C1, P1. rewrite C1, P1.
        rewrite acceptedEdit_twice by exact Hm.
        now destruct (acceptedEdit _ _ _ _ _). }
      change (acceptedEdit (selectedYear (render E st1)) month v
                (capitalChanges (render E st1)) (portfolio (render E st1)))
        with (acceptedEdit (a_selectedYear st) month v
                (a_capitalChanges st1) (a_portfolio st1)) in A2.
      rewrite A3 in A2. injection A2 as -> ->.
      reflexivity.
Qed.

(** C10.  Whatever the handler is called with, a capital change that is in
    the list after the call and was not there before is dated the first day
    of the edited month of the selected year; and after a call that ran to
    the end with a value other than 0, or on a month that had a record, the
    record found for the month is dated that day and carries the value. *)
Theorem edited_change_dated_first_of_month :
  forall E I cell value rowIndex month year,
    let r := handleSaveAddedWithdrawn E I cell value rowIndex month year in
    let existingChange :=
      find (changeInMonth (selectedYear I) (indexOf month)) (capitalChanges I) in
    (forall c,
        In c (newCapitalChanges r) ->
        In c (capitalChanges I)
        \/ c_date c = mkDate (selectedYear I) (indexOf month) 1)
    /\ (forall v,
           value = Some v ->
           outcome r = Saved ->
           v <> 0 \/ existingChange <> None ->
           exists c,
             find (changeInMonth (selectedYear I) (indexOf month)) (newCapitalChanges r)
             = Some c
             /\ c_date c = mkDate (selectedYear I) (indexOf month) 1
             /\ signedAmount c = v).
Proof.
  intros E I cell value i month yr r existingChange. split.
  - intros c Hin.
    destruct (handleSave_store E I cell value i month yr)
      as [[C _]|(v & _ & Hm & _ & A)].
    + left. fold r in C. now rewrite <- C.
    + fold r in A.
      assert (R : 0 <= indexOf month < 12)
        by (destruct (indexOf_range month); [contradiction|lia]).
      unfold acceptedEdit in A. rewrite (firstOfMonth_in_year _ R) in A.
      destruct (find _ (capitalChanges I)) as [ex|].
      * injection A as A _. rewrite A in Hin.
        unfold updateCapitalChange in Hin. apply in_map_iff in Hin.
        destruct Hin as (x & Hx & Hl).
        destruct (Nat.eqb (c_id x) _); subst c; [right; reflexivity|left; exact Hl].
      * destruct (v =? 0); injection A as A _; rewrite A in Hin; [left; exact Hin|].
        unfold addCapitalChange in Hin. apply in_app_or in Hin.
        destruct Hin as [Hl|[<-|[]]]; [left; exact Hl|right; reflexivity].
  - intros v Hv Hsaved Hor.
    destruct (handleSave_saved E I cell value i month yr Hsaved) as (v' & Hv' & Hm & A).
    fold r in A. rewrite Hv in Hv'. injection Hv' as <-.
    apply (f_equal fst) in A. cbn [fst] in A. rewrite A.
    now apply acceptedEdit_record.
Qed.

Lemma edited_change_dated_witness :
  let r := setNetChangeResult Sample.env Sample.quietState 0 "Jan" 2024 500 in
  newCapitalChanges r = [mkChange 1 Sample.jan1 500 deposit manualEdit]
  /\ (In (mkChange 1 Sample.jan1 500 deposit manualEdit) []
      \/ Sample.jan1 = mkDate 2024 (indexOf "Jan") 1)
  /\ (exists c,
         find (changeInMonth 2024 (indexOf "Jan")) (newCapitalChanges r) = Some c
         /\ c_date c = mkDate 2024 (indexOf "Jan") 1
         /\ signedAmount c = 500).
Proof.
  pose proof (edited_change_dated_first_of_month
                Sample.env (render Sample.env Sample.quietState)
                (Some (0%nat, "addedWithdrawn"%string)) (Some 500) 0 "Jan" 2024)
    as [H1 H2].
  split; [vm_compute; reflexivity|].
  split.
  - apply (H1 (mkChange 1 Sample.jan1 500 deposit manualEdit)).
    vm_compute. left. reflexivity.
  - apply (H2 500).
    + reflexivity.
    + vm_compute. reflexivity.
    + left. discriminate.
Defined.

(** C3.  On a year whose January starts from an anchor of 10000 with no
    capital change, saving a net change of 500 and then of 0 leaves a
    capital-change record for January in the list, a deposit of amount 0;
    the anchor is back at 10000. *)
Theorem net_change_to_zero_keeps_record :
  let st1 := setNetChange Sample.env Sample.quietState 0 "Jan" 2024 500 in
  let st2 := setNetChange Sample.env st1 0 "Jan" 2024 0 in
  a_capitalChanges Sample.quietState = []
  /\ a_capitalChanges st1 = [mkChange 1 Sample.jan1 500 deposit manualEdit]
  /\ outcome (setNetChangeResult Sample.env st1 0 "Jan" 2024 0) = Saved
  /\ a_capitalChanges st2 = [mkChange 1 Sample.jan1 0 deposit manualEdit]
  /\ getPortfolioSize (a_portfolio st1) "Jan" 2024 = 10500
  /\ getPortfolioSize (a_portfolio st2) "Jan" 2024
     = getPortfolioSize (a_portfolio Sample.quietState) "Jan" 2024.
Proof. vm_compute. repeat split. Qed.

(** The same in general: saving 0 never shortens the list of capital
    changes, whatever the state. *)
Lemma zero_edit_removes_nothing :
  forall E st rowIndex month year,
    (List.length (a_capitalChanges st)
     <= List.length (a_capitalChanges (setNetChange E st rowIndex month year 0)))%nat.
Proof.
  intros.
  exact (handleSave_never_deletes E (render E st)
           (Some (rowIndex, "addedWithdrawn"%string)) (Some 0) rowIndex month year).
Qed.

(** ** The rows of the table *)

Section RowFields.
Variables (E : Env) (I : Inputs) (month : string).

Let count := List.length (tradesOfMonth E I month).
Let mc := monthCapitalOf I month.

Lemma initialRow_month : MRow.month (initialRow E I month) = month.
Proof. reflexivity. Qed.

Lemma initialRow_finalCapital :
  MRow.finalCapital (initialRow E I month)
  = if (0 <? count)%nat then mc_finalCapital mc else 0.
Proof.
  unfold initialRow. cbv zeta. cbn [MRow.finalCapital].
  now rewrite monthTrades_count.
Qed.


Lemma initialRow_startingCapital :
  MRow.startingCapital (initialRow E I month)
  = if mc_startingCapital mc =? 0
    then getPortfolioSize (portfolio I) month (selectedYear I)
    else mc_startingCapital mc.
Proof. reflexivity. Qed.

Lemma initialRow_addedWithdrawn :
  MRow.addedWithdrawn (initialRow E I month)
  = if (List.length (changesOfMonth I month) =? 0)%nat
    then mc_deposits mc - mc_withdrawals mc
    else netOfChanges (changesOfMonth I month).
Proof. reflexivity. Qed.

Lemma initialRow_no_trades :
  tradesOfMonth E I month = [] ->
  MRow.pl (initialRow E I month) = Dash
  /\ MRow.trades (initialRow E I month) = Dash
  /\ MRow.winPercentage (initialRow E I month) = Dash
  /\ MRow.avgGain (initialRow E I month) = Dash
  /\ MRow.avgLoss (initialRow E I month) = Dash
  /\ MRow.avgRR (initialRow E I month) = Dash
  /\ MRow.avgHoldingDays (initialRow E I month) = Dash.
Proof.
  intros H.
  unfold initialRow. cbv zeta.
  cbn [MRow.pl MRow.trades MRow.winPercentage MRow.avgGain MRow.avgLoss MRow.avgRR
       MRow.avgHoldingDays].
  rewrite monthTrades_count, H. simpl. repeat split.
Qed.
End RowFields.


(** *** The ledger behind the rows *)









(** C7 (as the page has it).  The row of a month with no trade of the
    selected year carries the month's starting capital (the hook's value
    or, when that is 0, the portfolio size of the month), shows a final
    capital of 0, and shows the marker '-' for P/L, trade count, win
    percentage, average gain, average loss, average R:R and average holding
    days. *)
Theorem zero_trade_month_row :
  forall E I i month row,
    nth_error monthOrder i = Some month ->
    nth_error (computedData E I) i = Some row ->
    tradesOfMonth E I month = [] ->
    MRow.startingCapital row
    = (if mc_startingCapital (monthCapitalOf I month) =? 0
       then getPortfolioSize (portfolio I) month (selectedYear I)
       else mc_startingCapital (monthCapitalOf I month))
    /\ MRow.finalCapital row = 0
    /\ MRow.pl row = Dash
    /\ MRow.trades row = Dash
    /\ MRow.winPercentage row = Dash
    /\ MRow.avgGain row = Dash
    /\ MRow.avgLoss row = Dash
    /\ MRow.avgRR row = Dash
    /\ MRow.avgHoldingDays row = Dash.
Proof.
  intros E I i month row Hm Hrow Hnone.
  destruct (computedData_row E I i Hrow) as (m' & Hm' & ->).
  rewrite Hm in Hm'. injection Hm' as <-.
  split; [reflexivity|].
  split.
  - change (MRow.finalCapital (computedRow E I i (initialRow E I month)))
      with (MRow.finalCapital (initialRow E I month)).
    rewrite initialRow_finalCapital, Hnone. reflexivity.
  - exact (initialRow_no_trades E I month Hnone).
Qed.

Lemma zero_trade_month_witness :
  exists row,
    nth_error (computedData Sample.env Sample.quietYear) 1 = Some row
    /\ MRow.startingCapital row = 10000
    /\ MRow.finalCapital row = 0
    /\ MRow.trades row = Dash
    /\ MRow.winPercentage row = Dash.
Proof.
  eexists. split; [vm_compute; reflexivity|].
  pose proof (zero_trade_month_row Sample.env Sample.quietYear 1 (month := "Feb")
                eq_refl eq_refl eq_refl) as (H1 & H2 & _ & H4 & H5 & _).
  repeat split; assumption.
Defined.

(** C7, as stated, fails on the final capital: in the boundary scenario
    February has no trade, the hook's record for it carries a final capital
    of 10000, and the row shows 0. *)
Lemma zero_trade_month_counterexample :
  exists row,
    nth_error (computedData Sample.env Sample.boundaryScenario) 1 = Some row
    /\ tradesOfMonth Sample.env Sample.boundaryScenario "Feb" = []
    /\ mc_finalCapital (monthCapitalOf Sample.boundaryScenario "Feb") = 10000
    /\ MRow.startingCapital row = 10000
    /\ MRow.finalCapital row = 0
    /\ MRow.finalCapital row <> mc_finalCapital (monthCapitalOf Sample.boundaryScenario "Feb").
Proof.
  eexists. split; [vm_compute; reflexivity|].
  repeat split; try (vm_compute; reflexivity).
  vm_compute. discriminate.
Qed.

(** ** Year-to-date and rolling returns *)

Lemma at_index_computedData :
  forall E I z,
    at_index (computedData E I) z
    = option_map (computedRow E I (Z.to_nat z)) (at_index (initialMonthlyData E I) z).
Proof.
  intros E I z. unfold at_index. destruct (z <? 0); [reflexivity|].
  unfold computedData. now rewrite nth_error_mapi.
Qed.

Lemma filter_events :
  forall (P Q : Date -> bool) (l : list CapitalChange),
    filter (fun e : Date * Z => P (fst e))
           (map (fun c => (c_date c, signedAmount c))
                (filter (fun c => Q (c_date c)) l))
    = map signedEvent (filter (fun c => P (c_date c) && Q (c_date c)) l).
Proof.
  intros P Q l. induction l as [|c l IH]; simpl; [reflexivity|].
  destruct (Q (c_date c)); simpl.
  - destruct (P (c_date c)); simpl; now rewrite IH.
  - rewrite andb_false_r. exact IH.
Qed.

(** One rolling block against the window series, for any first test that
    fails only when [i - k] is negative. *)
Lemma rollingArgs_window :
  forall E I (guard : bool) k i month,
    nth_error monthOrder i = Some month ->
    0 < k ->
    (guard = false -> Z.of_nat i - k < 0) ->
    rollingArgs E I guard k i (initialRow E I month) = windowRollingArgs E I k i.
Proof.
  intros E I guard k i month Hm Hk Hg.
  pose proof (monthOrder_nth_lt _ Hm) as Hi.
  unfold rollingArgs, windowRollingArgs.
  rewrite initialRow_month, (indexOf_monthOrder _ Hm).
  rewrite at_index_computedData, computedData_nth, Hm. cbn [option_map].
  destruct (Z.ltb_spec (Z.of_nat i - k) 0) as [Hneg|Hpos].
  - destruct guard; [|reflexivity].
    unfold at_index. destruct (Z.ltb_spec (Z.of_nat i - k) 0); [reflexivity|lia].
  - destruct guard; [|specialize (Hg eq_refl); lia].
    destruct (at_index (initialMonthlyData E I) (Z.of_nat i - k)) as [prev|];
      [|reflexivity].
    cbn [option_map].
    rewrite !firstOfMonth_in_year by lia.
    unfold relevantChanges.
    rewrite (filter_events (fun d => date_leb (mkDate (selectedYear I) (Z.of_nat i - k) 1) d)
                           (fun d => date_leb d (mkDate (selectedYear I) (Z.of_nat i) 1))).
    reflexivity.
Qed.

(** C5 (as the page has it).  For a window of 1, 3, 6 or 12 months and a
    row at index [i] of the year's table: when [i - k < 0] the rolling
    return is 0; otherwise it is the solver's result on the series that
    starts on the first day of month [i-k] at the final capital of row
    [i-k], ends on the first day of month [i] at the final capital of row
    [i], and has as interim events the capital changes whose instant is at
    or after local midnight of that first day and at or before local
    midnight of that last day. *)
Theorem rolling_return_window :
  forall E I k i row,
    In k [1; 3; 6; 12] ->
    nth_error (computedData E I) i = Some row ->
    rollingReturn k row = xirrOf E (windowRollingArgs E I k i)
    /\ (Z.of_nat i - k < 0 -> rollingReturn k row = 0%Q).
Proof.
  intros E I k i row Hk Hrow.
  destruct (computedData_row E I i Hrow) as (month & Hm & ->).
  assert (Hmain : rollingReturn k (computedRow E I i (initialRow E I month))
                  = xirrOf E (windowRollingArgs E I k i)).
  { simpl in Hk.
    destruct Hk as [<-|[<-|[<-|[<-|[]]]]]; unfold rollingReturn; simpl (_ =? _);
      cbv iota; cbn [computedRow MRow.rollingReturn1M MRow.rollingReturn3M
                     MRow.rollingReturn6M MRow.rollingReturn12M];
      f_equal.
    - unfold args1M. apply rollingArgs_window; [exact Hm|lia|].
      intros G. apply Nat.ltb_ge in G. lia.
    - unfold args3M. apply rollingArgs_window; [exact Hm|lia|].
      intros G. apply Nat.leb_gt in G. lia.
    - unfold args6M. apply rollingArgs_window; [exact Hm|lia|].
      intros G. apply Nat.leb_gt in G. lia.
    - unfold args12M. apply rollingArgs_window; [exact Hm|lia|].
      intros G. apply Nat.leb_gt in G. lia. }
  split; [exact Hmain|].
  intros Hneg. rewrite Hmain. unfold windowRollingArgs.
  destruct (Z.ltb_spec (Z.of_nat i - k) 0); [reflexivity|lia].
Qed.

Lemma rolling_return_witness :
  exists row,
    nth_error (computedData Sample.env Sample.withMarchDeposit) 5 = Some row
    /\ rollingReturn 12 row = 0%Q
    /\ rollingReturn 3 row
       = xirrOf Sample.env (windowRollingArgs Sample.env Sample.withMarchDeposit 3 5).
Proof.
  eexists. split; [vm_compute; reflexivity|].
  split.
  - refine (proj2 (@rolling_return_window Sample.env Sample.withMarchDeposit
                     12 5 _ _ eq_refl) _).
    + simpl. tauto.
    + vm_compute. reflexivity.
  - refine (proj1 (@rolling_return_window Sample.env Sample.withMarchDeposit
                     3 5 _ _ eq_refl)).
    simpl. tauto.
Defined.

(** C5, as stated, fails on the interim events.  With a deposit of 100
    dated 1 March, the one-month series of February built by the page has
    no interim event, while the series of the spec's wording contains the
    March deposit.  With a withdrawal of 50 at 00:00 and a deposit of 250
    at 12:00 on 1 February, the page's series of February contains the
    withdrawal and leaves the deposit out, although both are dated on or
    after the boundary start.  A solver that looks at the events, such as
    the sample one, returns different values on the page's series and on
    the spec's. *)
Lemma rolling_return_counterexample :
  (exists row a s,
      nth_error (computedData Sample.env Sample.withMarchDeposit) 1 = Some row
      /\ args1M Sample.env Sample.withMarchDeposit 1
           (initialRow Sample.env Sample.withMarchDeposit "Feb") = Some a
      /\ specRollingArgs Sample.env Sample.withMarchDeposit 1 1 = Some s
      /\ x_capitalChanges a = []
      /\ x_capitalChanges s = [(Sample.mar1, 100)]
      /\ a <> s
      /\ rollingReturn 1 row = calcXIRR Sample.env a
      /\ ~ (calcXIRR Sample.env a == calcXIRR Sample.env s)%Q)
  /\ (exists row a s,
         nth_error (computedData Sample.env Intraday.firstOfFebruary) 1 = Some row
         /\ args1M Sample.env Intraday.firstOfFebruary 1
              (initialRow Sample.env Intraday.firstOfFebruary "Feb") = Some a
         /\ specRollingArgs Sample.env Intraday.firstOfFebruary 1 1 = Some s
         /\ x_capitalChanges a = [(mkDate 2024 1 1, -50)]
         /\ x_capitalChanges s
            = [(mkDate 2024 1 1, -50); (mkInstant 2024 1 1 43200000, 250)]
         /\ a <> s
         /\ rollingReturn 1 row = calcXIRR Sample.env a).
Proof.
  split.
  - eexists. eexists. eexists.
    split; [vm_compute; reflexivity|].
    split; [vm_compute; reflexivity|].
    split; [vm_compute; reflexivity|].
    split; [reflexivity|].
    split; [reflexivity|].
    split; [intros K; apply (f_equal x_capitalChanges) in K; discriminate K|].
    split; [vm_compute; reflexivity|].
    vm_compute. discriminate.
  - eexists. eexists. eexists.
    split; [vm_compute; reflexivity|].
    split; [vm_compute; reflexivity|].
    split; [vm_compute; reflexivity|].
    split; [reflexivity|].
    split; [reflexivity|].
    split; [intros K; apply (f_equal x_capitalChanges) in K; discriminate K|].
    vm_compute. reflexivity.
Qed.

(** The instants of a window: a change at 12:00 on the last day of the
    window is after its end, and the same change is inside the window that
    starts on that day. *)
Example window_ends_at_midnight :
  (exists a,
      windowRollingArgs Sample.env Intraday.firstOfFebruary 1 1 = Some a
      /\ x_capitalChanges a = [(mkDate 2024 1 1, -50)])
  /\ (exists a,
         windowRollingArgs Sample.env Intraday.firstOfFebruary 1 2 = Some a
         /\ x_capitalChanges a
            = [(mkDate 2024 1 1, -50); (mkInstant 2024 1 1 43200000, 250)]).
Proof.
  split; eexists; (split; [vm_compute; reflexivity|reflexivity]).
Qed.

(** The year-to-date call of one render pass, on whatever values the pass
    works on. *)
Lemma ytd_return_of_pass :
  forall E I i row,
    nth_error (computedData E I) i = Some row ->
    MRow.startingCapital row <> 0 ->
    MRow.cagr row = calcXIRR E (passYtdArgs I i row).
Proof.
  intros E I i row Hrow Hcap.
  destruct (computedData_row E I i Hrow) as (month & Hm & ->).
  pose proof (monthOrder_nth_lt _ Hm) as Hi.
  change (MRow.startingCapital (computedRow E I i (initialRow E I month)))
    with (MRow.startingCapital (initialRow E I month)) in Hcap.
  cbn [computedRow MRow.cagr]. unfold ytdArgs, passYtdArgs.
  rewrite initialRow_month, (indexOf_monthOrder _ Hm).
  destruct (Z.eqb_spec (MRow.startingCapital (initialRow E I month)) 0) as [K|_];
    [contradiction|].
  cbn [negb xirrOf].
  rewrite !firstOfMonth_in_year by lia.
  reflexivity.
Qed.

(** C6 (as the page has it).  For a row at index [i] whose starting
    capital is not 0, the year-to-date return is the solver's result on
    the series that starts on 1 January of the selected year at the latest
    portfolio size, [getLatestPortfolioSize()], ends on the first day of
    month [i] at the row's final capital, and has as interim events every
    capital change, of whatever year, whose instant is at or before local
    midnight of that day. *)
Theorem ytd_return_series :
  forall E st i row,
    nth_error (computedData E (render E st)) i = Some row ->
    MRow.startingCapital row <> 0 ->
    MRow.cagr row = calcXIRR E (latestYtdArgs E st i row).
Proof.
  intros E st i row Hrow Hcap.
  rewrite (ytd_return_of_pass E (render E st) i Hrow Hcap).
  reflexivity.
Qed.

Lemma ytd_return_witness :
  exists row,
    nth_error (computedData Sample.env (render Sample.env Intraday.februaryState)) 1
    = Some row
    /\ x_startingCapital (latestYtdArgs Sample.env Intraday.februaryState 1 row) = 12000
    /\ x_capitalChanges (latestYtdArgs Sample.env Intraday.februaryState 1 row)
       = [(mkDate 2024 1 1, -50)]
    /\ MRow.cagr row
       = calcXIRR Sample.env (latestYtdArgs Sample.env Intraday.februaryState 1 row).
Proof.
  eexists. split; [vm_compute; reflexivity|].
  split; [reflexivity|].
  split; [reflexivity|].
  apply (@ytd_return_series Sample.env Intraday.februaryState 1).
  - vm_compute. reflexivity.
  - vm_compute. discriminate.
Defined.

(** C6, as stated, fails on the start value and on the end day.  On a
    portfolio whose January opens at 8000 in 2023 and at 10000 in 2024 and
    whose latest size is 12000, the series of January starts at 12000 in
    both years, not at the year's opening anchor.  With a withdrawal of 50
    at 00:00 and a deposit of 250 at 12:00 on 1 February, the series of
    February contains the withdrawal and leaves out the deposit, which is
    dated on the end date. *)
Lemma ytd_return_counterexample :
  (exists row,
      nth_error (computedData Sample.env (render Sample.env Intraday.in2024)) 0
      = Some row
      /\ MRow.startingCapital row = 10000
      /\ openingAnchor (render Sample.env Intraday.in2024) = 10000
      /\ ytdArgs (render Sample.env Intraday.in2024) row
         = Some (latestYtdArgs Sample.env Intraday.in2024 0 row)
      /\ x_startingCapital (latestYtdArgs Sample.env Intraday.in2024 0 row) = 12000
      /\ latestYtdArgs Sample.env Intraday.in2024 0 row
         <> anchoredYtdArgs (render Sample.env Intraday.in2024) 0 row)
  /\ (exists row,
         nth_error (computedData Sample.env (render Sample.env Intraday.in2023)) 0
         = Some row
         /\ MRow.startingCapital row = 8000
         /\ openingAnchor (render Sample.env Intraday.in2023) = 8000
         /\ ytdArgs (render Sample.env Intraday.in2023) row
            = Some (latestYtdArgs Sample.env Intraday.in2023 0 row)
         /\ x_startingCapital (latestYtdArgs Sample.env Intraday.in2023 0 row) = 12000)
  /\ (exists row,
         nth_error (computedData Sample.env (render Sample.env Intraday.februaryState)) 1
         = Some row
         /\ MRow.startingCapital row <> 0
         /\ ytdArgs (render Sample.env Intraday.februaryState) row
            = Some (latestYtdArgs Sample.env Intraday.februaryState 1 row)
         /\ c_date Intraday.noonDeposit = mkInstant 2024 1 1 43200000
         /\ In Intraday.noonDeposit (a_capitalChanges Intraday.februaryState)
         /\ x_endDate (latestYtdArgs Sample.env Intraday.februaryState 1 row)
            = mkDate 2024 1 1
         /\ x_capitalChanges (latestYtdArgs Sample.env Intraday.februaryState 1 row)
            = [(mkDate 2024 1 1, -50)]).
Proof.
  split; [|split].
  - eexists. split; [vm_compute; reflexivity|].
    split; [reflexivity|].
    split; [reflexivity|].
    split; [vm_compute; reflexivity|].
    split; [reflexivity|].
    intros K. apply (f_equal x_startingCapital) in K. discriminate K.
  - eexists. split; [vm_compute; reflexivity|].
    split; [reflexivity|].
    split; [reflexivity|].
    split; [vm_compute; reflexivity|].
    reflexivity.
  - eexists. split; [vm_compute; reflexivity|].
    split; [vm_compute; discriminate|].
    split; [vm_compute; reflexivity|].
    split; [reflexivity|].
    split; [right; left; reflexivity|].
    split; reflexivity.
Qed.

(** ** Determinism of a render pass *)



Lemma mapi_ext :
  forall (A B : Type) (f g : nat -> A -> B) (l : list A) (k : nat),
    (forall i a, f i a = g i a) -> mapi f k l = mapi g k l.
Proof.
  intros A B f g l. induction l as [|a l IH]; intros k H; simpl; [reflexivity|].
  now rewrite H, IH.
Qed.



(** ** The solver *)

Section SolverProperties.
Import XIRRSolver.
Local Open Scope R_scope.

Ltac decide_order :=
  unfold Rltb, Rleb, Reqb;
  repeat match goal with
         | |- context [Rlt_dec ?a ?b] => destruct (Rlt_dec a b); try lra
         | |- context [Rle_dec ?a ?b] => destruct (Rle_dec a b); try lra
         | |- context [Req_dec_T ?a ?b] => destruct (Req_dec_T a b); try lra
         end.

Lemma Rltb_true : forall a b, a < b -> Rltb a b = true.
Proof. intros a b H. decide_order; reflexivity. Qed.

Lemma Rltb_lt : forall a b, Rltb a b = true -> a < b.
Proof. intros a b. unfold Rltb. destruct (Rlt_dec a b); [trivial|discriminate]. Qed.

Lemma npv_two_event : npv twoEventSeries (1 / 10) = 0.
Proof.
  unfold npv, twoEventSeries, amount, days. simpl.
  replace (0 / 365) with 0 by lra.
  replace (365 / 365) with 1 by lra.
  rewrite Rpower_O, Rpower_1 by lra. lra.
Qed.

Lemma npv_all_positive : npv allPositiveSeries 0 = 2100.
Proof.
  unfold npv, allPositiveSeries, amount, days. simpl.
  replace (0 / 365) with 0 by lra.
  replace (365 / 365) with 1 by lra.
  rewrite Rpower_O, Rpower_1 by lra. lra.
Qed.

Variables relaxedTolerance derivativeFloor : R.

(** A rate whose residual is under the tolerance is returned at once. *)
Lemma newton_converged :
  forall rounds cf r,
    Rabs (npv cf r) < tolerance ->
    newton relaxedTolerance derivativeFloor rounds cf r = r.
Proof.
  intros rounds cf r H. destruct rounds; simpl; now rewrite (Rltb_true H).
Qed.

(** Whatever the iteration returns is 0, or has a residual under the
    tolerance, or is the estimate reached when the rounds are used up,
    with a residual under the relaxed tolerance. *)
Lemma newton_residual :
  forall rounds cf r,
    newton relaxedTolerance derivativeFloor rounds cf r <> 0 ->
    Rabs (npv cf (newton relaxedTolerance derivativeFloor rounds cf r)) < tolerance
    \/ (newton relaxedTolerance derivativeFloor rounds cf r
        = estimateAfter rounds cf r
        /\ Rabs (npv cf (newton relaxedTolerance derivativeFloor rounds cf r))
           < relaxedTolerance).
Proof.
  intros rounds cf. induction rounds as [|n IH]; intros r; simpl.
  - destruct (Rltb (Rabs (npv cf r)) tolerance) eqn:T.
    + intros _. left. now apply Rltb_lt.
    + destruct (Rltb (Rabs (npv cf r)) relaxedTolerance) eqn:T'.
      * intros _. right. split; [reflexivity|now apply Rltb_lt].
      * intros K. now elim K.
  - destruct (Rltb (Rabs (npv cf r)) tolerance) eqn:T.
    + intros _. left. now apply Rltb_lt.
    + destruct (Rltb (Rabs (dnpv cf r)) derivativeFloor); [intros K; now elim K|].
      destruct (Rleb (r - npv cf r / dnpv cf r) (-1)); [intros K; now elim K|].
      intros K. destruct (IH _ K) as [H|[H1 H2]]; [left; exact H|right].
      split; [|exact H2].
      rewrite H1. unfold estimateAfter.
      change (newtonStep cf (Nat.iter n (newtonStep cf) r))
        with (Nat.iter (S n) (newtonStep cf) r).
      now rewrite Nat.iter_succ_r.
Qed.

Lemma calcXIRR_two_event :
  calcXIRR relaxedTolerance derivativeFloor twoEventSeries = 1 / 10.
Proof.
  unfold calcXIRR.
  assert (S : hasSignChange twoEventSeries = true).
  { unfold hasSignChange, twoEventSeries, amount. simpl. decide_order; reflexivity. }
  assert (Z : zeroBoundary twoEventSeries = false).
  { unfold zeroBoundary, twoEventSeries, amount. simpl. decide_order; reflexivity. }
  rewrite S, Z. simpl negb. cbv iota.
  apply newton_converged. unfold initialGuess. rewrite npv_two_event, Rabs_R0.
  unfold tolerance. lra.
Qed.

Lemma calcXIRR_all_positive :
  calcXIRR relaxedTolerance derivativeFloor allPositiveSeries = 0.
Proof.
  unfold calcXIRR.
  assert (S : hasSignChange allPositiveSeries = false).
  { unfold hasSignChange, allPositiveSeries, amount. simpl. decide_order; reflexivity. }
  now rewrite S.
Qed.


(** *** Two events a year apart *)

Lemma Rltb_false : forall a b, b <= a -> Rltb a b = false.
Proof. intros a b H. decide_order; reflexivity. Qed.

Lemma Rleb_false : forall a b, b < a -> Rleb a b = false.
Proof. intros a b H. decide_order; reflexivity. Qed.

Lemma Rpower_two : forall x, 0 < x -> Rpower x (1 + 1) = x * x.
Proof. intros x H. now rewrite Rpower_plus, Rpower_1. Qed.

Lemma npv_outflowInflow :
  forall P Q r, 0 < 1 + r -> npv (outflowInflow P Q) r = - P + Q / (1 + r).
Proof.
  intros P Q r Hr. unfold npv, outflowInflow, amount, days. simpl.
  replace (0 / 365) with 0 by lra.
  replace (365 / 365) with 1 by lra.
  rewrite Rpower_O, Rpower_1 by lra. field. lra.
Qed.

Lemma dnpv_outflowInflow :
  forall P Q r,
    0 < 1 + r -> dnpv (outflowInflow P Q) r = - Q / ((1 + r) * (1 + r)).
Proof.
  intros P Q r Hr. unfold dnpv, outflowInflow, amount, days. simpl.
  replace (0 / 365) with 0 by lra.
  replace (365 / 365) with 1 by lra.
  replace (0 + 1) with 1 by lra.
  rewrite Rpower_two, Rpower_1 by lra. field. lra.
Qed.

(** One round that neither stops nor gives up moves to the Newton
    iterate. *)
Lemma newton_step :
  forall n cf r,
    tolerance <= Rabs (npv cf r) ->
    derivativeFloor <= Rabs (dnpv cf r) ->
    -1 < r - npv cf r / dnpv cf r ->
    newton relaxedTolerance derivativeFloor (S n) cf r
    = newton relaxedTolerance derivativeFloor n cf (r - npv cf r / dnpv cf r).
Proof.
  intros n cf r H1 H2 H3. simpl.
  now rewrite (Rltb_false H1), (Rltb_false H2), (Rleb_false H3).
Qed.

(** On an outflow [P] and an inflow [Q] a year later, write [d] for the
    relative distance [1 - (1 + r) * P / Q] of an estimate [r] from the
    rate [Q / P - 1].  The residual at [r] is [P * d / (1 - d)], and one
    Newton round squares [d]. *)
Lemma residual_outflowInflow :
  forall P Q r,
    0 < P -> 0 < Q -> 0 < 1 + r ->
    npv (outflowInflow P Q) r * ((1 + r) * P / Q)
    = P * (1 - (1 + r) * P / Q).
Proof.
  intros P Q r HP HQ Hr. rewrite npv_outflowInflow by exact Hr. field. lra.
Qed.

Lemma iterate_outflowInflow :
  forall P Q r,
    0 < P -> 0 < Q -> 0 < 1 + r ->
    1 + (r - npv (outflowInflow P Q) r / dnpv (outflowInflow P Q) r)
    = (1 + r) * (2 - (1 + r) * P / Q).
Proof.
  intros P Q r HP HQ Hr.
  rewrite npv_outflowInflow, dnpv_outflowInflow by exact Hr. field. lra.
Qed.

Lemma derivative_outflowInflow :
  forall P Q r,
    0 < P -> 0 < Q -> 0 < 1 + r ->
    (1 + r) * P / Q <= 1 ->
    P * P / Q <= Rabs (dnpv (outflowInflow P Q) r).
Proof.
  intros P Q r HP HQ Hr Ht.
  rewrite dnpv_outflowInflow by exact Hr.
  replace (- Q / ((1 + r) * (1 + r))) with (- (Q / ((1 + r) * (1 + r))))
    by (field; lra).
  assert (Hsq : 0 < (1 + r) * (1 + r)) by (apply Rmult_lt_0_compat; lra).
  rewrite Rabs_Ropp, Rabs_pos_eq
    by (apply Rlt_le, Rdiv_lt_0_compat; lra).
  assert (Hu : (1 + r) * P <= Q).
  { apply (Rmult_le_compat_r Q) in Ht; [|lra].
    replace ((1 + r) * P / Q * Q) with ((1 + r) * P) in Ht by (field; lra). lra. }
  apply (Rmult_le_reg_r (Q * ((1 + r) * (1 + r)))).
  - apply Rmult_lt_0_compat; lra.
  - replace (P * P / Q * (Q * ((1 + r) * (1 + r))))
      with (((1 + r) * P) * ((1 + r) * P)) by (field; lra).
    replace (Q / ((1 + r) * (1 + r)) * (Q * ((1 + r) * (1 + r))))
      with (Q * Q) by (field; lra).
    assert (0 <= (1 + r) * P) by (apply Rmult_le_pos; lra).
    apply Rmult_le_compat; lra.
Qed.

(** From an estimate at or below the rate and within half of it, [k]
    rounds are enough when squaring the distance [k] times brings the
    residual under the tolerance; the rate returned is again at or below
    the exact one. *)
Lemma newton_outflowInflow :
  forall P Q,
    0 < P -> 0 < Q -> derivativeFloor * Q <= P * P ->
    forall k n r,
      (k <= n)%nat ->
      0 <= 1 - (1 + r) * P / Q <= 1 / 2 ->
      2 * P * (1 - (1 + r) * P / Q) ^ (2 ^ k) < tolerance ->
      Rabs (npv (outflowInflow P Q)
              (newton relaxedTolerance derivativeFloor n (outflowInflow P Q) r))
      < tolerance
      /\ 0 < 1 + newton relaxedTolerance derivativeFloor n (outflowInflow P Q) r
         <= Q / P.
Proof.
  intros P Q HP HQ Hfloor.
  assert (Hbase : forall r,
             0 <= 1 - (1 + r) * P / Q <= 1 / 2 ->
             0 < 1 + r <= Q / P
             /\ 0 <= npv (outflowInflow P Q) r
                <= 2 * P * (1 - (1 + r) * P / Q)).
  { intros r Hd.
    assert (Hr : 0 < 1 + r).
    { replace (1 + r) with (((1 + r) * P / Q) * (Q / P)) by (field; lra).
      apply Rmult_lt_0_compat; [lra|apply Rdiv_lt_0_compat; lra]. }
    split.
    - split; [exact Hr|].
      replace (1 + r) with (((1 + r) * P / Q) * (Q / P)) at 1 by (field; lra).
      rewrite <- (Rmult_1_l (Q / P)) at 2.
      apply Rmult_le_compat_r; [apply Rlt_le, Rdiv_lt_0_compat; lra|lra].
    - pose proof (residual_outflowInflow HP HQ Hr) as Hres.
      set (t := (1 + r) * P / Q) in *.
      set (f := npv (outflowInflow P Q) r) in *.
      assert (Hpos : 0 <= P * (1 - t)) by (apply Rmult_le_pos; lra).
      assert (Hf : 0 <= f).
      { destruct (Rle_dec 0 f) as [K|K]; [exact K|].
        assert (f * t < 0); [|lra].
        replace (f * t) with (- ((- f) * t)) by ring.
        assert (0 < (- f) * t) by (apply Rmult_lt_0_compat; lra). lra. }
      split; [exact Hf|].
      assert (f * (1 / 2) <= f * t) by (apply Rmult_le_compat_l; lra).
      lra. }
  induction k as [|k IH]; intros n r Hn Hd Hk;
    destruct (Hbase r Hd) as (Hr & Hf0 & Hf);
    destruct (Rlt_dec (Rabs (npv (outflowInflow P Q) r)) tolerance) as [Hc|Hc].
  - rewrite (newton_converged n _ _ Hc). split; assumption.
  - exfalso. apply Hc. rewrite Rabs_pos_eq by exact Hf0.
    simpl in Hk. lra.
  - rewrite (newton_converged n _ _ Hc). split; assumption.
  - destruct n as [|n]; [lia|].
    assert (Hone : 1 + (r - npv (outflowInflow P Q) r / dnpv (outflowInflow P Q) r)
                   = (1 + r) * (2 - (1 + r) * P / Q))
      by (apply iterate_outflowInflow; lra).
    rewrite newton_step.
    + apply IH; [lia| |].
      * rewrite Hone.
        replace (1 - (1 + r) * (2 - (1 + r) * P / Q) * P / Q)
          with ((1 - (1 + r) * P / Q) * (1 - (1 + r) * P / Q)) by (field; lra).
        split; [apply Rmult_le_pos; lra|].
        replace (1 / 2) with (1 * (1 / 2)) by lra.
        apply Rmult_le_compat; lra.
      * rewrite Hone.
        replace (1 - (1 + r) * (2 - (1 + r) * P / Q) * P / Q)
          with ((1 - (1 + r) * P / Q) ^ 2) by (field; lra).
        rewrite <- pow_mult. exact Hk.
    + lra.
    + apply Rle_trans with (P * P / Q).
      * apply (Rmult_le_reg_r Q); [lra|].
        replace (P * P / Q * Q) with (P * P) by (field; lra). exact Hfloor.
      * apply derivative_outflowInflow; lra.
    + assert (0 < (1 + r) * (2 - (1 + r) * P / Q))
        by (apply Rmult_lt_0_compat; lra).
      lra.
Qed.

Lemma hasSignChange_outflowInflow :
  forall P Q, 0 < P -> 0 < Q -> hasSignChange (outflowInflow P Q) = true.
Proof.
  intros P Q HP HQ. unfold hasSignChange, outflowInflow, amount. simpl.
  decide_order; reflexivity.
Qed.

Lemma zeroBoundary_outflowInflow :
  forall P Q, 0 < P -> 0 < Q -> zeroBoundary (outflowInflow P Q) = false.
Proof.
  intros P Q HP HQ. unfold zeroBoundary, outflowInflow, amount. simpl.
  decide_order; reflexivity.
Qed.

(** A rate at or below the exact one whose residual is under the
    tolerance is close to it. *)
Lemma close_outflowInflow :
  forall P Q x,
    1 <= P -> 0 < Q <= 11 / 5 * P ->
    0 < 1 + x <= Q / P ->
    Rabs (npv (outflowInflow P Q) x) < tolerance ->
    Rabs (x - (Q / P - 1)) <= 1 / 10000.
Proof.
  intros P Q x HP HQ Hx Hres.
  rewrite npv_outflowInflow in Hres by lra.
  apply Rabs_def2 in Hres. destruct Hres as [Hup _]. unfold tolerance in Hup.
  assert (Hq : Q / P <= 11 / 5).
  { apply (Rmult_le_reg_r P); [lra|].
    replace (Q / P * P) with Q by (field; lra). lra. }
  assert (Hgap : Q / P - (1 + x) = (- P + Q / (1 + x)) * (1 + x) / P)
    by (field; lra).
  assert (Hf : 0 <= - P + Q / (1 + x)).
  { assert (P <= Q / (1 + x)); [|lra].
    apply (Rmult_le_reg_r (1 + x)); [lra|].
    replace (Q / (1 + x) * (1 + x)) with Q by (field; lra).
    destruct Hx as [Hx0 Hx1].
    apply (Rmult_le_compat_l P) in Hx1; [|lra].
    replace (P * (Q / P)) with Q in Hx1 by (field; lra). lra. }
  assert (Hbound : (- P + Q / (1 + x)) * (1 + x) / P <= 1 / 1000000 * (11 / 5)).
  { apply (Rmult_le_reg_r P); [lra|].
    replace ((- P + Q / (1 + x)) * (1 + x) / P * P)
      with ((- P + Q / (1 + x)) * (1 + x)) by (field; lra).
    apply Rle_trans with (1 / 1000000 * (11 / 5)); [|].
    - apply Rmult_le_compat; lra.
    - rewrite <- (Rmult_1_r (1 / 1000000 * (11 / 5))) at 1.
      apply Rmult_le_compat_l; lra. }
  apply Rabs_le. lra.
Qed.

(** Every series of an outflow [P] and an inflow [Q] a year later, with
    [P] between 1 and 10^12 and [Q / P] between 11/15 and 11/5, is solved:
    the rate returned has a residual under the tolerance and is within
    1e-4 of [Q / P - 1]. *)
Lemma calcXIRR_outflowInflow :
  derivativeFloor <= 1 / 10 ->
  forall P Q,
    1 <= P <= 1000000000000 ->
    11 / 15 * P <= Q <= 11 / 5 * P ->
    Rabs (npv (outflowInflow P Q)
            (calcXIRR relaxedTolerance derivativeFloor (outflowInflow P Q)))
    < tolerance
    /\ Rabs (calcXIRR relaxedTolerance derivativeFloor (outflowInflow P Q)
             - (Q / P - 1)) <= 1 / 10000.
Proof.
  intros Hfloor P Q HP HQ.
  assert (HP0 : 0 < P) by lra.
  assert (HQ0 : 0 < Q) by lra.
  unfold calcXIRR.
  rewrite hasSignChange_outflowInflow, zeroBoundary_outflowInflow by assumption.
  cbn [negb]. unfold maxIterations, initialGuess.
  assert (Ht : 1 / 2 <= (1 + 1 / 10) * P / Q <= 3 / 2).
  { split.
    - apply (Rmult_le_reg_r Q); [lra|].
      replace ((1 + 1 / 10) * P / Q * Q) with ((1 + 1 / 10) * P) by (field; lra).
      lra.
    - apply (Rmult_le_reg_r Q); [lra|].
      replace ((1 + 1 / 10) * P / Q * Q) with ((1 + 1 / 10) * P) by (field; lra).
      lra. }
  destruct (Rlt_dec (Rabs (npv (outflowInflow P Q) (1 / 10))) tolerance) as [Hc|Hc].
  - rewrite (newton_converged 100 _ _ Hc). split; [exact Hc|].
    rewrite npv_outflowInflow in Hc by lra.
    apply Rabs_def2 in Hc. unfold tolerance in Hc. destruct Hc as [Hu Hl].
    assert (Hgap : Q / P - (1 + 1 / 10)
                   = (- P + Q / (1 + 1 / 10)) * ((1 + 1 / 10) / P)) by (field; lra).
    assert (Hs : 0 < (1 + 1 / 10) / P <= 11 / 10).
    { split; [apply Rdiv_lt_0_compat; lra|].
      apply (Rmult_le_reg_r P); [lra|].
      replace ((1 + 1 / 10) / P * P) with (1 + 1 / 10) by (field; lra).
      assert (11 / 10 * 1 <= 11 / 10 * P) by (apply Rmult_le_compat_l; lra). lra. }
    set (f := - P + Q / (1 + 1 / 10)) in *.
    set (s := (1 + 1 / 10) / P) in *.
    assert (Hfs : - (1 / 1000000 * (11 / 10)) <= f * s <= 1 / 1000000 * (11 / 10)).
    { destruct (Rle_dec 0 f) as [K|K].
      - split.
        + assert (0 <= f * s) by (apply Rmult_le_pos; lra). lra.
        + apply Rmult_le_compat; lra.
      - split.
        + replace (f * s) with (- ((- f) * s)) by ring.
          assert ((- f) * s <= 1 / 1000000 * (11 / 10))
            by (apply Rmult_le_compat; lra).
          lra.
        + replace (f * s) with (- ((- f) * s)) by ring.
          assert (0 <= (- f) * s) by (apply Rmult_le_pos; lra). lra. }
    apply Rabs_le. lra.
  - assert (Hone : 1 + (1 / 10 - npv (outflowInflow P Q) (1 / 10)
                                 / dnpv (outflowInflow P Q) (1 / 10))
                   = (1 + 1 / 10) * (2 - (1 + 1 / 10) * P / Q))
      by (apply iterate_outflowInflow; lra).
    rewrite newton_step.
    + assert (Hd : 1 - (1 + (1 / 10 - npv (outflowInflow P Q) (1 / 10)
                                      / dnpv (outflowInflow P Q) (1 / 10))) * P / Q
                   = (1 - (1 + 1 / 10) * P / Q) ^ 2).
      { rewrite Hone. field. lra. }
      assert (Hsq : 0 <= (1 - (1 + 1 / 10) * P / Q) ^ 2 <= 1 / 4).
      { simpl. rewrite Rmult_1_r.
        assert (Hd0 : - (1 / 2) <= 1 - (1 + 1 / 10) * P / Q <= 1 / 2) by lra.
        set (d := 1 - (1 + 1 / 10) * P / Q) in *.
        assert (Hdd : d * d = Rabs d * Rabs d).
        { unfold Rabs. destruct (Rcase_abs d); ring. }
        rewrite Hdd.
        assert (0 <= Rabs d <= 1 / 2).
        { split; [apply Rabs_pos|apply Rabs_le; lra]. }
        split; [apply Rmult_le_pos; lra|].
        replace (1 / 4) with (1 / 2 * (1 / 2)) by lra.
        apply Rmult_le_compat; lra. }
      destruct (@newton_outflowInflow P Q HP0 HQ0) with
        (k := 5%nat) (n := 99%nat)
        (r := 1 / 10 - npv (outflowInflow P Q) (1 / 10)
                       / dnpv (outflowInflow P Q) (1 / 10))
        as (Hres & Hx).
      * assert (derivativeFloor * Q <= 1 / 10 * Q) by (apply Rmult_le_compat_r; lra).
        assert (P * 1 <= P * P) by (apply Rmult_le_compat_l; lra).
        lra.
      * lia.
      * rewrite Hd. lra.
      * rewrite Hd.
        assert (Hpow : ((1 - (1 + 1 / 10) * P / Q) ^ 2) ^ (2 ^ 5) <= (1 / 4) ^ (2 ^ 5))
          by (apply pow_incr; exact Hsq).
        assert (Hnn : 0 <= ((1 - (1 + 1 / 10) * P / Q) ^ 2) ^ (2 ^ 5))
          by (apply pow_le; lra).
        assert (Hconst : 2 * 1000000000000 * (1 / 4) ^ (2 ^ 5) < tolerance)
          by (unfold tolerance; simpl; lra).
        apply Rle_lt_trans with (2 * 1000000000000 * (1 / 4) ^ (2 ^ 5)); [|exact Hconst].
        apply Rmult_le_compat; lra.
      * split; [exact Hres|].
        apply close_outflowInflow; [lra|lra|exact Hx|exact Hres].
    + lra.
    + apply Rle_trans with (1 / 10); [exact Hfloor|].
      rewrite dnpv_outflowInflow by lra.
      replace (- Q / ((1 + 1 / 10) * (1 + 1 / 10)))
        with (- (Q * (100 / 121))) by (field; lra).
      rewrite Rabs_Ropp, Rabs_pos_eq by lra. lra.
    + assert (0 < (1 + 1 / 10) * (2 - (1 + 1 / 10) * P / Q))
        by (apply Rmult_lt_0_compat; lra).
      lra.
Qed.

Lemma twoEventSeries_outflowInflow : twoEventSeries = outflowInflow 1000 1100.
Proof.
  reflexivity.
Qed.

(** *** Series on which the solver gives up *)

(** A round whose next rate is at or below -1 gives up. *)
Lemma newton_diverged :
  forall n cf r,
    tolerance <= Rabs (npv cf r) ->
    derivativeFloor <= Rabs (dnpv cf r) ->
    r - npv cf r / dnpv cf r <= -1 ->
    newton relaxedTolerance derivativeFloor (S n) cf r = 0.
Proof.
  intros n cf r H1 H2 H3. simpl.
  rewrite (Rltb_false H1), (Rltb_false H2).
  unfold Rleb. destruct (Rle_dec (r - npv cf r / dnpv cf r) (-1)); [reflexivity|contradiction].
Qed.

Lemma calcXIRR_halved :
  derivativeFloor <= 1 / 10 ->
  calcXIRR relaxedTolerance derivativeFloor halvedSeries = 0.
Proof.
  intros Hfloor. unfold calcXIRR, halvedSeries.
  rewrite hasSignChange_outflowInflow, zeroBoundary_outflowInflow by lra.
  cbn [negb]. unfold maxIterations, initialGuess.
  assert (Hf : npv (outflowInflow 1000 500) (1 / 10) = - (6000 / 11))
    by (rewrite npv_outflowInflow by lra; field).
  assert (Hd : dnpv (outflowInflow 1000 500) (1 / 10) = - (50000 / 121))
    by (rewrite dnpv_outflowInflow by lra; field).
  apply newton_diverged; rewrite ?Hf, ?Hd.
  - rewrite Rabs_Ropp, Rabs_pos_eq by lra. unfold tolerance. lra.
  - rewrite Rabs_Ropp, Rabs_pos_eq by lra. lra.
  - replace (1 / 10 - - (6000 / 11) / - (50000 / 121)) with (- (122 / 100))
      by (field; lra).
    lra.
Qed.

Lemma npv_halved : npv halvedSeries 0 = - 500.
Proof.
  unfold halvedSeries. rewrite npv_outflowInflow by lra. field.
Qed.

Lemma Rpower_base_1 : forall x, Rpower 1 x = 1.
Proof.
  intros x. unfold Rpower. now rewrite ln_1, Rmult_0_r, exp_0.
Qed.

Lemma calcXIRR_zeroStart :
  calcXIRR relaxedTolerance derivativeFloor zeroStartSeries = 0.
Proof.
  unfold calcXIRR.
  assert (S : hasSignChange zeroStartSeries = true).
  { unfold hasSignChange, zeroStartSeries, amount. simpl. decide_order; reflexivity. }
  assert (Z : zeroBoundary zeroStartSeries = true).
  { unfold zeroBoundary, zeroStartSeries, amount. simpl. decide_order; reflexivity. }
  now rewrite S, Z.
Qed.

Lemma npv_zeroStart : npv zeroStartSeries 0 = 100.
Proof.
  unfold npv, zeroStartSeries, amount, days. simpl.
  replace (1 + 0) with 1 by lra. rewrite !Rpower_base_1. lra.
Qed.

(** *** A series on which the iteration cycles *)

Lemma Rpower_three : forall x, 0 < x -> Rpower x (1 + 1 + 1) = x * x * x.
Proof. intros x H. now rewrite Rpower_plus, Rpower_two, Rpower_1. Qed.

Lemma npv_cycling :
  forall r,
    0 < 1 + r ->
    npv cyclingSeries r
    = - 380 / 10000 + 784 / 10000 / (1 + r) - 407 / 10000 / ((1 + r) * (1 + r)).
Proof.
  intros r Hr. unfold npv, cyclingSeries, amount, days. simpl.
  replace (0 / 365) with 0 by lra.
  replace (365 / 365) with 1 by lra.
  replace (730 / 365) with (1 + 1) by lra.
  rewrite Rpower_O, Rpower_1, Rpower_two by lra. field. lra.
Qed.

Lemma dnpv_cycling :
  forall r,
    0 < 1 + r ->
    dnpv cyclingSeries r
    = - (784 / 10000) / ((1 + r) * (1 + r))
      + 2 * (407 / 10000) / ((1 + r) * (1 + r) * (1 + r)).
Proof.
  intros r Hr. unfold dnpv, cyclingSeries, amount, days. simpl.
  replace (0 / 365) with 0 by lra.
  replace (365 / 365) with 1 by lra.
  replace (730 / 365) with (1 + 1) by lra.
  replace (0 + 1) with 1 by lra.
  rewrite Rpower_1, Rpower_two, Rpower_three by lra. field. lra.
Qed.

Lemma npv_cycling_at_guess : npv cyclingSeries (1 / 10) = - (1 / 2750).
Proof. rewrite npv_cycling by lra. field. Qed.

Lemma dnpv_cycling_at_guess : dnpv cyclingSeries (1 / 10) = - (1 / 275).
Proof. rewrite dnpv_cycling by lra. field. Qed.

Lemma npv_cycling_at_0 : npv cyclingSeries 0 = - (3 / 10000).
Proof. rewrite npv_cycling by lra. field. Qed.

Lemma dnpv_cycling_at_0 : dnpv cyclingSeries 0 = 3 / 1000.
Proof. rewrite dnpv_cycling by lra. field. Qed.

(** From 10% the iteration moves to 0%, and from 0% back to 10%. *)
Lemma newton_cycle :
  derivativeFloor <= 1 / 1000 ->
  forall n,
    newton relaxedTolerance derivativeFloor (S (S n)) cyclingSeries (1 / 10)
    = newton relaxedTolerance derivativeFloor n cyclingSeries (1 / 10).
Proof.
  intros Hfloor n.
  rewrite newton_step; rewrite ?npv_cycling_at_guess, ?dnpv_cycling_at_guess.
  - replace (1 / 10 - - (1 / 2750) / - (1 / 275)) with 0 by (field; lra).
    rewrite newton_step; rewrite ?npv_cycling_at_0, ?dnpv_cycling_at_0.
    + replace (0 - - (3 / 10000) / (3 / 1000)) with (1 / 10) by (field; lra).
      reflexivity.
    + rewrite Rabs_Ropp, Rabs_pos_eq by lra. unfold tolerance. lra.
    + rewrite Rabs_pos_eq by lra. lra.
    + replace (0 - - (3 / 10000) / (3 / 1000)) with (1 / 10) by (field; lra). lra.
  - rewrite Rabs_Ropp, Rabs_pos_eq by lra. unfold tolerance. lra.
  - rewrite Rabs_Ropp, Rabs_pos_eq by lra. lra.
  - replace (1 / 10 - - (1 / 2750) / - (1 / 275)) with 0 by (field; lra). lra.
Qed.

Lemma newton_cycle_even :
  derivativeFloor <= 1 / 1000 ->
  forall k,
    newton relaxedTolerance derivativeFloor (k + k) cyclingSeries (1 / 10)
    = newton relaxedTolerance derivativeFloor 0 cyclingSeries (1 / 10).
Proof.
  intros Hfloor. induction k as [|k IH]; [reflexivity|].
  replace (S k + S k)%nat with (S (S (k + k))) by lia.
  now rewrite newton_cycle.
Qed.

(** At the iteration cap the solver is back at 10%, which it returns under
    the relaxed tolerance although its residual is not under the
    tolerance. *)
Lemma calcXIRR_cycling :
  derivativeFloor <= 1 / 1000 ->
  1 / 2750 < relaxedTolerance ->
  calcXIRR relaxedTolerance derivativeFloor cyclingSeries = 1 / 10.
Proof.
  intros Hfloor Hrelaxed. unfold calcXIRR.
  assert (S : hasSignChange cyclingSeries = true).
  { unfold hasSignChange, cyclingSeries, amount. simpl. decide_order; reflexivity. }
  assert (Z : zeroBoundary cyclingSeries = false).
  { unfold zeroBoundary, cyclingSeries, amount. simpl. decide_order; reflexivity. }
  rewrite S, Z. cbn [negb]. unfold maxIterations, initialGuess.
  change 100%nat with (50 + 50)%nat.
  rewrite newton_cycle_even by exact Hfloor.
  cbn [newton]. rewrite npv_cycling_at_guess, Rabs_Ropp, Rabs_pos_eq by lra.
  rewrite Rltb_false by (unfold tolerance; lra).
  now rewrite Rltb_true.
Qed.

(** *** The claim *)

(** C9 (as the spec's solver has it).  On the series of an outflow of
    1000 on day 0 and an inflow of 1100 on day 365 the solver returns a
    decimal rate within 1e-4 of 0.10 whose residual is under the
    tolerance.  The same holds around [Q / P - 1] for every outflow [P]
    between 1 and 10^12 followed a year later by an inflow [Q] with
    [Q / P] between 11/15 and 11/5, where the iteration has to move off its
    initial guess.  On every series, a returned rate other than the
    no-result value 0 has a residual under the tolerance or is the
    estimate reached when the iteration cap is used up, with a residual
    under the relaxed tolerance. *)
Theorem xirr_two_event_and_residual :
  (Rabs (calcXIRR relaxedTolerance derivativeFloor twoEventSeries - 1 / 10)
   <= 1 / 10000
   /\ Rabs (npv twoEventSeries
              (calcXIRR relaxedTolerance derivativeFloor twoEventSeries))
      < tolerance)
  /\ (derivativeFloor <= 1 / 10 ->
      forall P Q,
        1 <= P <= 1000000000000 ->
        11 / 15 * P <= Q <= 11 / 5 * P ->
        Rabs (calcXIRR relaxedTolerance derivativeFloor (outflowInflow P Q)
              - (Q / P - 1)) <= 1 / 10000
        /\ Rabs (npv (outflowInflow P Q)
                   (calcXIRR relaxedTolerance derivativeFloor (outflowInflow P Q)))
           < tolerance)
  /\ (forall cf,
         calcXIRR relaxedTolerance derivativeFloor cf <> 0 ->
         Rabs (npv cf (calcXIRR relaxedTolerance derivativeFloor cf)) < tolerance
         \/ (calcXIRR relaxedTolerance derivativeFloor cf
             = estimateAfter maxIterations cf initialGuess
             /\ Rabs (npv cf (calcXIRR relaxedTolerance derivativeFloor cf))
                < relaxedTolerance)).
Proof.
  split; [|split].
  - rewrite calcXIRR_two_event. split.
    + replace (1 / 10 - 1 / 10) with 0 by lra. rewrite Rabs_R0. lra.
    + rewrite npv_two_event, Rabs_R0. unfold tolerance. lra.
  - intros Hfloor P Q HP HQ.
    destruct (calcXIRR_outflowInflow Hfloor HP HQ) as [Hres Hclose].
    split; assumption.
  - intros cf. unfold calcXIRR.
    destruct (negb (hasSignChange cf)); [intros K; now elim K|].
    destruct (zeroBoundary cf); [intros K; now elim K|].
    apply newton_residual.
Qed.
End SolverProperties.

Lemma xirr_two_event_witness :
  (Rabs (XIRRSolver.calcXIRR (1 / 1000) (1 / 1000000000)
           (XIRRSolver.outflowInflow 1000 1200) - 2 / 10)
   <= 1 / 10000)%R
  /\ (Rabs (XIRRSolver.npv (XIRRSolver.outflowInflow 1000 1200)
              (XIRRSolver.calcXIRR (1 / 1000) (1 / 1000000000)
                 (XIRRSolver.outflowInflow 1000 1200)))
      < 1 / 1000000)%R
  /\ (Rabs (XIRRSolver.npv XIRRSolver.cyclingSeries
              (XIRRSolver.calcXIRR (1 / 1000) (1 / 1000000000)
                 XIRRSolver.cyclingSeries))
      < 1 / 1000)%R.
Proof.
  destruct (@xirr_two_event_and_residual (1 / 1000)%R (1 / 1000000000)%R)
    as (_ & Hfamily & Hany).
  assert (Hfloor : (1 / 1000000000 <= 1 / 10)%R) by lra.
  assert (HP : (1 <= 1000 <= 1000000000000)%R) by lra.
  assert (HQ : (11 / 15 * 1000 <= 1200 <= 11 / 5 * 1000)%R) by lra.
  destruct (Hfamily Hfloor 1000%R 1200%R HP HQ) as [Hclose Hres].
  split; [|split].
  - replace (2 / 10)%R with (1200 / 1000 - 1)%R by lra. exact Hclose.
  - exact Hres.
  - assert (Hfloor' : (1 / 1000000000 <= 1 / 1000)%R) by lra.
    assert (Hrelaxed : (1 / 2750 < 1 / 1000)%R) by lra.
    assert (Hne : XIRRSolver.calcXIRR (1 / 1000) (1 / 1000000000)
                    XIRRSolver.cyclingSeries <> 0%R).
    { rewrite (calcXIRR_cycling Hfloor' Hrelaxed). lra. }
    destruct (Hany XIRRSolver.cyclingSeries Hne) as [K|[_ K]]; [|exact K].
    unfold XIRRSolver.tolerance in K. lra.
Defined.

(** C9, as stated, fails in four ways, here with a relaxed tolerance of
    1e-3 and a derivative floor of 1e-9.  On two inflows of 1000 and 1100
    (no sign change) the solver returns 0, where the net present value is
    2100.  On a starting value of 0 followed by an outflow of 1000 and an
    inflow of 1100 it returns 0, where the net present value is 100.  On
    an outflow of 1000 and an inflow of 500 a year later the first round
    leads to a rate below -1 and the solver returns 0, where the net
    present value is -500.  On the cycling series the iteration is back at
    10% when the cap is reached and the solver returns 10%, whose residual
    of 1/2750 is under the relaxed tolerance and not under the
    tolerance. *)
Lemma xirr_residual_counterexample :
  (XIRRSolver.calcXIRR (1 / 1000) (1 / 1000000000) XIRRSolver.allPositiveSeries = 0
   /\ XIRRSolver.npv XIRRSolver.allPositiveSeries 0 = 2100)%R
  /\ (XIRRSolver.calcXIRR (1 / 1000) (1 / 1000000000) XIRRSolver.zeroStartSeries = 0
      /\ XIRRSolver.npv XIRRSolver.zeroStartSeries 0 = 100)%R
  /\ (XIRRSolver.calcXIRR (1 / 1000) (1 / 1000000000) XIRRSolver.halvedSeries = 0
      /\ XIRRSolver.npv XIRRSolver.halvedSeries 0 = - 500)%R
  /\ (XIRRSolver.calcXIRR (1 / 1000) (1 / 1000000000) XIRRSolver.cyclingSeries = 1 / 10
      /\ XIRRSolver.npv XIRRSolver.cyclingSeries (1 / 10) = - (1 / 2750)
      /\ ~ (Rabs (XIRRSolver.npv XIRRSolver.cyclingSeries
                    (XIRRSolver.calcXIRR (1 / 1000) (1 / 1000000000)
                       XIRRSolver.cyclingSeries))
            < XIRRSolver.tolerance))%R.
Proof.
  assert (Hfloor : (1 / 1000000000 <= 1 / 10)%R) by lra.
  assert (Hfloor' : (1 / 1000000000 <= 1 / 1000)%R) by lra.
  assert (Hrelaxed : (1 / 2750 < 1 / 1000)%R) by lra.
  split; [|split; [|split]].
  - split; [apply calcXIRR_all_positive|apply npv_all_positive].
  - split; [apply calcXIRR_zeroStart|apply npv_zeroStart].
  - split; [apply (calcXIRR_halved _ Hfloor)|apply npv_halved].
  - rewrite (calcXIRR_cycling Hfloor' Hrelaxed), npv_cycling_at_guess.
    split; [reflexivity|split; [reflexivity|]].
    rewrite Rabs_Ropp, Rabs_pos_eq by lra. unfold XIRRSolver.tolerance. lra.
Qed.

(* ------------------------------------------------------------------ *)
(** * Further properties of the page *)

(** ** Shape of the table *)

Lemma map_mapi :
  forall (A B C : Type) (g : B -> C) (f : nat -> A -> B) (l : list A) (k : nat),
    map g (mapi f k l) = mapi (fun i a => g (f i a)) k l.
Proof.
  intros A B C g f l. induction l as [|a l IH]; intros k; simpl; [reflexivity|].
  now rewrite IH.
Qed.

Lemma mapi_constant_index :
  forall (A B : Type) (h : A -> B) (l : list A) (k : nat),
    mapi (fun _ a => h a) k l = map h l.
Proof.
  intros A B h l. induction l as [|a l IH]; intros k; simpl; [reflexivity|].
  now rewrite IH.
Qed.

(** Any function of a row that only looks at its initial part can be read
    off the month names. *)
Lemma map_computedData :
  forall (C : Type) (g : MonthlyData -> C) E I,
    (forall i row, g (computedRow E I i row) = g row) ->
    map g (computedData E I) = map (fun m => g (initialRow E I m)) monthOrder.
Proof.
  intros C g E I H. unfold computedData, initialMonthlyData.
  rewrite map_mapi.
  rewrite (mapi_ext _ (fun _ row => g row)) by exact H.
  rewrite mapi_constant_index. now rewrite map_map.
Qed.

Lemma computedData_months :
  forall E I, map MRow.month (computedData E I) = monthOrder.
Proof.
  intros E I. rewrite map_computedData by reflexivity. reflexivity.
Qed.

(** The table has twelve rows whatever the trades are, row [i] being the
    row of month [i]: the "No data available" exit of the component is
    never taken. *)
Theorem computedData_twelve_months :
  forall E I,
    map MRow.month (computedData E I) = monthOrder
    /\ List.length (computedData E I) = 12%nat
    /\ computedData E I <> [].
Proof.
  intros E I.
  pose proof (computedData_months E I) as M.
  assert (L : List.length (computedData E I) = 12%nat).
  { rewrite <- (length_map MRow.month), M. reflexivity. }
  split; [exact M|split; [exact L|]].
  intros K. rewrite K in L. discriminate.
Qed.

Lemma findIndexFrom_months :
  forall (l : list MonthlyData) (m : string) (k : Z),
    findIndexFrom (fun d => String.eqb (MRow.month d) m) l k
    = indexOfFrom (map MRow.month l) m k.
Proof.
  induction l as [|a l IH]; intros m k; simpl; [reflexivity|].
  destruct (String.eqb (MRow.month a) m); [reflexivity|apply IH].
Qed.

Lemma rowIndexOf_position :
  forall E I i item,
    nth_error (computedData E I) i = Some item ->
    rowIndexOf E I item = Z.of_nat i.
Proof.
  intros E I i item H.
  destruct (computedData_row E I i H) as (m & Hm & ->).
  unfold rowIndexOf.
  change (MRow.month (computedRow E I i (initialRow E I m))) with m.
  rewrite findIndexFrom_months, computedData_months.
  fold (indexOf m). exact (indexOf_monthOrder _ Hm).
Qed.

(** The row index a cell computes with [findIndex] is the position of its
    own row, and it is also the month index of the row's month: the
    handlers are always called with a row and a month that belong
    together. *)
Theorem rowIndexOf_own_row :
  forall E I i item,
    nth_error (computedData E I) i = Some item ->
    rowIndexOf E I item = Z.of_nat i
    /\ indexOf (MRow.month item) = Z.of_nat i
    /\ nth_error monthOrder i = Some (MRow.month item).
Proof.
  intros E I i item H.
  destruct (computedData_row E I i H) as (m & Hm & ->).
  change (MRow.month (computedRow E I i (initialRow E I m))) with m.
  unfold rowIndexOf.
  change (MRow.month (computedRow E I i (initialRow E I m))) with m.
  rewrite findIndexFrom_months.
  rewrite computedData_months.
  fold (indexOf m). rewrite (indexOf_monthOrder _ Hm).
  repeat split. exact Hm.
Qed.

Lemma rowIndexOf_witness :
  exists item,
    nth_error (computedData Sample.env Sample.boundaryScenario) 4 = Some item
    /\ rowIndexOf Sample.env Sample.boundaryScenario item = 4
    /\ MRow.month item = "May"%string.
Proof.
  eexists. split; [vm_compute; reflexivity|].
  destruct (@rowIndexOf_own_row Sample.env Sample.boundaryScenario 4 _ eq_refl)
    as (H1 & _ & _).
  split; [exact H1|reflexivity].
Defined.

(** The year picker offers exactly the years from 2000 to the year after
    the clock's year; in particular it offers the year the page starts on
    only when the clock is not before 2000. *)
Theorem getYearOptions_range :
  forall E y,
    In y (getYearOptions E) <-> 2000 <= y <= getFullYear (now E) + 1.
Proof.
  intros E y. unfold getYearOptions. rewrite in_map_iff. split.
  - intros (k & <- & Hk). apply in_seq in Hk. lia.
  - intros H. exists (Z.to_nat (y - 2000)). split; [lia|].
    apply in_seq. lia.
Qed.

(** ** Every trade of the year is counted once *)

Lemma one_key_matches :
  forall (keys : list string) (k : string),
    NoDup keys -> In k keys ->
    list_sum (map (fun key => if String.eqb k key then 1%nat else 0%nat) keys) = 1%nat.
Proof.
  induction keys as [|a keys IH]; intros k Hnd Hin; [contradiction|].
  inversion Hnd as [|? ? Hna Hnd']; subst. simpl.
  destruct (String.eqb_spec k a) as [->|Hka].
  - assert (Z0 : list_sum (map (fun key => if String.eqb a key then 1%nat else 0%nat) keys)
                 = 0%nat).
    { clear IH Hnd Hnd' Hin. induction keys as [|b keys IH]; [reflexivity|].
      simpl. destruct (String.eqb_spec a b) as [->|_].
      - elim Hna. now left.
      - apply IH. intros K. apply Hna. now right. }
    rewrite Z0. reflexivity.
  - destruct Hin as [->|Hin]; [contradiction|]. now rewrite IH.
Qed.

Lemma no_key_matches :
  forall (keys : list string) (k : string),
    ~ In k keys ->
    list_sum (map (fun key => if String.eqb k key then 1%nat else 0%nat) keys) = 0%nat.
Proof.
  induction keys as [|a keys IH]; intros k Hin; [reflexivity|].
  simpl. destruct (String.eqb_spec k a) as [->|_].
  - elim Hin. now left.
  - apply IH. intros K. apply Hin. now right.
Qed.

Lemma list_sum_pointwise :
  forall (A : Type) (f g : A -> nat) (l : list A),
    list_sum (map (fun a => (f a + g a)%nat) l)
    = (list_sum (map f l) + list_sum (map g l))%nat.
Proof.
  intros A f g l. induction l as [|a l IH]; simpl; [reflexivity|].
  rewrite IH. lia.
Qed.

(** Bucket sizes over a list of distinct keys add up to the number of
    elements whose key is in the list. *)
Lemma bucket_sizes_add_up :
  forall (A : Type) (key : A -> string) (keys : list string) (l : list A),
    NoDup keys ->
    list_sum (map (fun k => List.length (filter (fun a => String.eqb (key a) k) l)) keys)
    = List.length (filter (fun a => existsb (String.eqb (key a)) keys) l).
Proof.
  intros A key keys l Hnd. induction l as [|a l IH]; simpl.
  - induction keys as [|k keys IHk]; [reflexivity|].
    simpl. apply IHk. now inversion Hnd.
  - rewrite (map_ext
               (fun k => List.length (if String.eqb (key a) k
                                      then a :: filter (fun a0 => String.eqb (key a0) k) l
                                      else filter (fun a0 => String.eqb (key a0) k) l))
               (fun k => ((if String.eqb (key a) k then 1 else 0)
                          + List.length (filter (fun a0 => String.eqb (key a0) k) l))%nat))
      by (intros k; destruct (String.eqb (key a) k); reflexivity).
    rewrite list_sum_pointwise, IH.
    destruct (existsb (String.eqb (key a)) keys) eqn:X.
    + apply existsb_exists in X. destruct X as (k & Hk & Heq).
      apply String.eqb_eq in Heq. subst k.
      rewrite one_key_matches by assumption. reflexivity.
    + rewrite no_key_matches; [reflexivity|].
      intros K. assert (T : existsb (String.eqb (key a)) keys = true).
      { apply existsb_exists. exists (key a). split; [exact K|apply String.eqb_refl]. }
      congruence.
Qed.

Lemma monthOrder_NoDup : NoDup monthOrder.
Proof.
  unfold monthOrder.
  repeat (constructor; [simpl; intuition discriminate|]). constructor.
Qed.

Lemma tradeCount_initialRow :
  forall E I m,
    tradeCount (initialRow E I m) = List.length (tradesOfMonth E I m).
Proof.
  intros E I m. unfold tradeCount, initialRow. cbv zeta. cbn [MRow.trades].
  rewrite monthTrades_count.
  destruct (tradesOfMonth E I m); reflexivity.
Qed.

(** The trade counts of the twelve rows add up to the number of trades of
    the selected year whose month name, as the locale prints it, is one of
    the twelve names of the table; trades of other years and trades
    without a date are counted nowhere. *)
Lemma trade_counts_add_up :
  forall E I,
    list_sum (map tradeCount (computedData E I))
    = List.length (filter (fun t => existsb (String.eqb (monthKey E t)) monthOrder)
                          (filteredTrades I)).
Proof.
  intros E I.
  rewrite map_computedData by reflexivity.
  rewrite (map_ext _ (fun m => List.length (tradesOfMonth E I m)))
    by (intros m; apply tradeCount_initialRow).
  unfold tradesOfMonth.
  apply (bucket_sizes_add_up (monthKey E) (filteredTrades I) monthOrder_NoDup).
Qed.

(** With month names that are those of the table, every trade dated in the
    selected year is counted in exactly one row. *)
Theorem every_trade_of_the_year_counted :
  forall E I,
    (forall t d, In t (trades I) -> t_date t = Some d ->
                 getFullYear d = selectedYear I ->
                 In (toLocaleMonth E d) monthOrder) ->
    list_sum (map tradeCount (computedData E I)) = List.length (filteredTrades I).
Proof.
  intros E I H. rewrite trade_counts_add_up. f_equal.
  rewrite <- (filter_ext_in (fun _ => true)).
  - clear H. induction (filteredTrades I) as [|a l IH]; simpl; [reflexivity|].
    now rewrite IH.
  - intros t Ht. symmetry. apply existsb_exists.
    unfold filteredTrades in Ht. apply filter_In in Ht. destruct Ht as [Hin Hy].
    unfold inSelectedYear in Hy. unfold monthKey.
    destruct (t_date t) as [d|] eqn:D; [|discriminate].
    apply Z.eqb_eq in Hy.
    exists (toLocaleMonth E d). split; [now apply (H t d)|apply String.eqb_refl].
Qed.

Lemma every_trade_counted_witness :
  list_sum (map tradeCount (computedData Sample.env Scenario.fiveTradeYear)) = 3%nat
  /\ List.length (filteredTrades Scenario.fiveTradeYear) = 3%nat.
Proof.
  assert (H : list_sum (map tradeCount (computedData Sample.env Scenario.fiveTradeYear))
              = List.length (filteredTrades Scenario.fiveTradeYear)).
  { apply every_trade_of_the_year_counted.
    intros t d Hin Hd Hy. simpl in Hin.
    repeat (destruct Hin as [<-|Hin];
            [simpl in Hd; try discriminate; injection Hd as <-;
             vm_compute in Hy; try discriminate; vm_compute; tauto|]).
    contradiction. }
  split; [rewrite H|]; reflexivity.
Defined.

(** When the locale prints none of the year's trades under a name of the
    table, no row counts any trade: every row shows the marker for its
    trade count and a final capital of 0. *)
Theorem foreign_month_names_hide_trades :
  forall E I row,
    (forall t d, In t (trades I) -> t_date t = Some d ->
                 getFullYear d = selectedYear I ->
                 ~ In (toLocaleMonth E d) monthOrder) ->
    In row (computedData E I) ->
    MRow.trades row = Dash /\ MRow.pl row = Dash /\ MRow.finalCapital row = 0.
Proof.
  intros E I row H Hin.
  apply In_nth_error in Hin. destruct Hin as (i & Hi).
  destruct (computedData_row E I i Hi) as (m & Hm & ->).
  assert (Hnone : tradesOfMonth E I m = []).
  { unfold tradesOfMonth.
    rewrite (filter_ext_in _ (fun _ => false)).
    - induction (filteredTrades I) as [|a l IH]; simpl; auto.
    - intros t Ht. unfold filteredTrades in Ht. apply filter_In in Ht.
      destruct Ht as [Hin Hy]. unfold inSelectedYear in Hy. unfold monthKey.
      destruct (t_date t) as [d|] eqn:D; [|discriminate].
      apply Z.eqb_eq in Hy.
      destruct (String.eqb_spec (toLocaleMonth E d) m) as [K|_]; [|reflexivity].
      elim (H t d Hin D Hy). rewrite K.
      apply nth_error_In with (n := i). exact Hm. }
  destruct (initialRow_no_trades E I m Hnone) as (Hpl & Htr & _).
  split; [exact Htr|split; [exact Hpl|]].
  change (MRow.finalCapital (computedRow E I i (initialRow E I m)))
    with (MRow.finalCapital (initialRow E I m)).
  rewrite initialRow_finalCapital, Hnone. reflexivity.
Qed.

Lemma foreign_month_names_witness :
  Forall (fun row => MRow.trades row = Dash /\ MRow.pl row = Dash
                     /\ MRow.finalCapital row = 0)
         (computedData Scenario.spanishEnv Scenario.fiveTradeYear).
Proof.
  apply Forall_forall. intros row.
  apply (@foreign_month_names_hide_trades Scenario.spanishEnv Scenario.fiveTradeYear row).
  intros t d Hin Hd Hy. simpl in Hin.
  repeat (destruct Hin as [<-|Hin];
          [simpl in Hd; try discriminate; injection Hd as <-;
           vm_compute in Hy; try discriminate;
           vm_compute; intuition discriminate|]).
  contradiction.
Defined.

(** ** What an edit of the net change does to the two stores *)

Lemma find_none_filter :
  forall (A : Type) (P : A -> bool) (l : list A),
    find P l = None -> filter P l = [].
Proof.
  intros A P l. induction l as [|a l IH]; simpl; [reflexivity|].
  destruct (P a); [discriminate|exact IH].
Qed.

Lemma find_some_filter :
  forall (A : Type) (P : A -> bool) (l : list A) (x : A),
    find P l = Some x -> exists rest, filter P l = x :: rest.
Proof.
  intros A P l x. induction l as [|a l IH]; simpl; [discriminate|].
  destruct (P a).
  - intros H. injection H as ->. now eexists.
  - exact IH.
Qed.

(** The effect of [acceptedEdit] in terms of what the page shows: the
    record found for the month carries the value, the portfolio size of
    the month moves by the difference, and no record is lost. *)
Lemma acceptedEdit_effect :
  forall y m v ch p,
    indexOf m <> -1 ->
    recordedNet y m (fst (acceptedEdit y m v ch p)) = v
    /\ getPortfolioSize (snd (acceptedEdit y m v ch p)) m y
       = getPortfolioSize p m y + (v - recordedNet y m ch)
    /\ (List.length ch <= List.length (fst (acceptedEdit y m v ch p)))%nat
    /\ (recordedNet y m ch = v ->
        List.length (fst (acceptedEdit y m v ch p)) = List.length ch).
Proof.
  intros y m v ch p Hm.
  assert (R : 0 <= indexOf m < 12) by (destruct (indexOf_range m); [contradiction|lia]).
  unfold recordedNet at 2 3. unfold acceptedEdit.
  destruct (find (changeInMonth y (indexOf m)) ch) as [ex|] eqn:F; cbn [fst snd].
  - unfold recordedNet.
    rewrite (@find_update (changeInMonth y (indexOf m)) _ ex ch F
               (changeInMonth_firstOfMonth y (c_id ex) _ _ _ R) eq_refl).
    rewrite signedAmount_of_value, getPortfolioSize_set.
    unfold updateCapitalChange. rewrite length_map.
    repeat split; lia.
  - destruct (Z.eqb_spec v 0) as [->|V]; cbn [fst snd].
    + unfold recordedNet. rewrite F. repeat split; lia.
    + unfold recordedNet, addCapitalChange.
      rewrite (find_snoc_none _ _ _ F
                 (changeInMonth_firstOfMonth y (freshId ch) _ _ _ R)).
      rewrite signedAmount_of_value, getPortfolioSize_set, length_app.
      simpl. repeat split; try lia.
Qed.

(** On whole amounts, the numbers of this development, the portfolio size
    of the edited month net of the change recorded for it is the same after
    any call of the handler as before.  On decimal amounts the page adds
    doubles, and the two sides can differ by a rounding error (a size of
    0.1 and a value of 0.2 store 0.30000000000000004). *)
Lemma anchor_net_on_whole_amounts :
  forall E I cell value rowIndex month year,
    let r := handleSaveAddedWithdrawn E I cell value rowIndex month year in
    getPortfolioSize (newPortfolio r) month (selectedYear I)
      - recordedNet (selectedYear I) month (newCapitalChanges r)
    = getPortfolioSize (portfolio I) month (selectedYear I)
      - recordedNet (selectedYear I) month (capitalChanges I).
Proof.
  intros E I cell value i month yr r. subst r.
  destruct (handleSave_store E I cell value i month yr)
    as [[C P]|(v & _ & Hm & _ & A)].
  - now rewrite C, P.
  - apply (f_equal fst) in A as A1. apply (f_equal snd) in A as A2.
    cbn [fst snd] in A1, A2. rewrite A1, A2.
    destruct (@acceptedEdit_effect (selectedYear I) month v (capitalChanges I)
                (portfolio I) Hm) as (H1 & H2 & _).
    rewrite H1, H2. lia.
Qed.

(** A call of the handler adds at most one capital change and removes
    none: every identifier in the list before the call is in the list
    after it. *)
Theorem handleSave_keeps_every_id :
  forall E I cell value rowIndex month year,
    let r := handleSaveAddedWithdrawn E I cell value rowIndex month year in
    (forall id, In id (map c_id (capitalChanges I)) ->
                In id (map c_id (newCapitalChanges r)))
    /\ (List.length (capitalChanges I) <= List.length (newCapitalChanges r)
        <= S (List.length (capitalChanges I)))%nat.
Proof.
  intros E I cell value i month yr r. subst r.
  destruct (handleSave_store E I cell value i month yr)
    as [[C _]|(v & _ & _ & _ & A)].
  - rewrite C. split; [trivial|lia].
  - apply (f_equal fst) in A. cbn [fst] in A. rewrite A. unfold acceptedEdit.
    destruct (find _ (capitalChanges I)) as [ex|] eqn:F; cbn [fst].
    + split.
      * intros id Hid. unfold updateCapitalChange. rewrite map_map.
        rewrite (map_ext _ c_id); [exact Hid|].
        intros x. simpl.
        destruct (Nat.eqb_spec (c_id x) (c_id ex)) as [K|_]; simpl; congruence.
      * unfold updateCapitalChange. rewrite length_map. lia.
    + destruct (v =? 0); cbn [fst].
      * split; [trivial|lia].
      * unfold addCapitalChange. split.
        -- intros id Hid. rewrite map_app. apply in_or_app. now left.
        -- rewrite length_app. simpl. lia.
Qed.

(** The handler runs to the end whenever it is given a number, a month of
    the table and a row whose starting capital is positive. *)
Lemma handleSave_accepts :
  forall E I cell v i month yr row,
    indexOf month <> -1 ->
    nth_error (computedData E I) i = Some row ->
    0 < MRow.startingCapital row ->
    outcome (handleSaveAddedWithdrawn E I cell (Some v) i month yr) = Saved.
Proof.
  intros E I cell v i month yr row Hm Hrow Hcap.
  unfold handleSaveAddedWithdrawn.
  destruct (Z.eqb_spec (indexOf month) (-1)) as [K|_]; [contradiction|].
  rewrite Hrow.
  destruct (Z.leb_spec (MRow.startingCapital row) 0) as [K|_]; [lia|].
  cbv beta zeta.
  destruct (find _ (capitalChanges I)); cbn [isSome andb negb]; [reflexivity|].
  destruct (v =? 0); reflexivity.
Qed.

Lemma update_unique_in_month :
  forall (P : CapitalChange -> bool) c ex l,
    NoDup (map c_id l) -> In ex l -> P c = true -> c_id c = c_id ex ->
    filter P l = [ex] ->
    filter P (updateCapitalChange c l) = [c].
Proof.
  intros P c ex l. induction l as [|a l IH]; intros Hnd Hin Hc Hid Hf; [contradiction|].
  inversion Hnd as [|? ? Hna Hnd']; subst.
  assert (Pex : P ex = true).
  { assert (K : In ex (filter P (a :: l))) by (rewrite Hf; now left).
    apply filter_In in K. tauto. }
  simpl. destruct (Nat.eqb_spec (c_id a) (c_id c)) as [K|K].
  - assert (Ea : a = ex).
    { destruct Hin as [E|Hin]; [exact E|].
      elim Hna. rewrite K, Hid. now apply in_map. }
    subst a. simpl in Hf. rewrite Pex in Hf. injection Hf as Hf.
    simpl. rewrite Hc. f_equal.
    rewrite update_absent; [exact Hf|].
    intros x Hx Kx. apply Hna. rewrite <- Hid, <- Kx. now apply in_map.
  - assert (Na : a <> ex) by (intros ->; now rewrite Hid in K).
    destruct Hin as [E|Hin]; [contradiction|].
    simpl in Hf. simpl. destruct (P a).
    + injection Hf as E _. contradiction.
    + now apply IH.
Qed.

Lemma netOfChanges_single : forall c, netOfChanges [c] = signedAmount c.
Proof. intros c. unfold netOfChanges. simpl. lia. Qed.

(** What is typed is what is shown.  When the capital changes have
    distinct identifiers and the month holds at most one of them, an edit
    that runs to the end with a value other than 0, or on a month that
    holds a change, makes the month's row show that value as its net
    added/withdrawn figure on the next render. *)
Theorem saved_net_change_is_displayed :
  forall E st i month yr v row,
    nth_error monthOrder i = Some month ->
    NoDup (map c_id (a_capitalChanges st)) ->
    (List.length (filter (changeInMonth (a_selectedYear st) (indexOf month))
                         (a_capitalChanges st)) <= 1)%nat ->
    outcome (setNetChangeResult E st i month yr v) = Saved ->
    v <> 0 \/ recordedNet (a_selectedYear st) month (a_capitalChanges st) <> 0 ->
    nth_error (computedData E (render E (setNetChange E st i month yr v))) i = Some row ->
    MRow.addedWithdrawn row = v.
Proof.
  intros E st i month yr v row Hm Hnd Hone Hsaved Hor Hrow.
  set (y := a_selectedYear st) in *. set (mi := indexOf month) in *.
  set (ch := a_capitalChanges st) in *.
  assert (R : 0 <= mi < 12).
  { unfold mi. rewrite (indexOf_monthOrder _ Hm).
    pose proof (monthOrder_nth_lt _ Hm). lia. }
  destruct (handleSave_saved E (render E st) _ (Some v) i month yr Hsaved)
    as (v' & Hv' & Hvalid & A).
  injection Hv' as <-.
  apply (f_equal fst) in A. cbn [fst] in A.
  change (selectedYear (render E st)) with y in A.
  change (capitalChanges (render E st)) with ch in A.
  change (portfolio (render E st)) with (a_portfolio st) in A.
  fold (setNetChangeResult E st i month yr v) in A.
  assert (F : exists c,
             filter (changeInMonth y mi) (newCapitalChanges (setNetChangeResult E st i month yr v))
             = [c] /\ signedAmount c = v).
  { rewrite A. unfold acceptedEdit. fold mi.
    destruct (find (changeInMonth y mi) ch) as [ex|] eqn:Fx; cbn [fst].
    - destruct (find_some_filter _ _ Fx) as (rest & Hf).
      assert (Hrest : rest = []).
      { rewrite Hf in Hone. simpl in Hone. destruct rest; [reflexivity|simpl in Hone; lia]. }
      subst rest.
      eexists. split; [|apply signedAmount_of_value].
      apply update_unique_in_month with (ex := ex); try assumption.
      + apply find_some in Fx. tauto.
      + apply changeInMonth_firstOfMonth; exact R.
      + reflexivity.
    - assert (V : v <> 0).
      { destruct Hor as [K|K]; [exact K|].
        elim K. unfold recordedNet. fold mi. fold y. now rewrite Fx. }
      destruct (Z.eqb_spec v 0) as [K|_]; [contradiction|]. cbn [fst].
      eexists. split; [|apply signedAmount_of_value].
      unfold addCapitalChange. rewrite filter_app, (find_none_filter _ _ Fx).
      simpl. now rewrite (changeInMonth_firstOfMonth y _ _ _ _ R). }
  destruct F as (c & Fc & Sc).
  destruct (computedData_row _ _ i Hrow) as (m' & Hm' & ->).
  rewrite Hm in Hm'. injection Hm' as <-.
  change (MRow.addedWithdrawn (computedRow E (render E (setNetChange E st i month yr v)) i
            (initialRow E (render E (setNetChange E st i month yr v)) month)))
    with (MRow.addedWithdrawn (initialRow E (render E (setNetChange E st i month yr v)) month)).
  rewrite initialRow_addedWithdrawn.
  unfold changesOfMonth.
  change (selectedYear (render E (setNetChange E st i month yr v))) with y.
  change (capitalChanges (render E (setNetChange E st i month yr v)))
    with (newCapitalChanges (setNetChangeResult E st i month yr v)).
  fold mi. rewrite Fc. simpl (List.length _). cbv iota beta.
  simpl (_ =? _)%nat. cbv iota.
  now rewrite netOfChanges_single.
Qed.

Lemma saved_net_change_witness :
  exists row,
    nth_error
      (computedData Sample.env
         (render Sample.env (setNetChange Sample.env Scenario.depositState 0 "Jan" 2024 (-300))))
      0 = Some row
    /\ MRow.addedWithdrawn row = -300.
Proof.
  eexists. split; [vm_compute; reflexivity|].
  apply (@saved_net_change_is_displayed Sample.env Scenario.depositState
           0 "Jan" 2024 (-300)).
  - reflexivity.
  - simpl. constructor; [simpl; tauto|constructor].
  - vm_compute. lia.
  - vm_compute. reflexivity.
  - left. discriminate.
  - vm_compute. reflexivity.
Defined.

(** ** Setting the starting capital *)

(** Saving the Starting Capital cell: a negative value is dropped and the
    state stays as it was; a value of 0 or more becomes the portfolio size
    of the month.  On the next render, when the hook's record for the
    month has no starting capital of its own, the row shows the saved
    value, and an edit of the month's net change then runs to the end if
    the value is positive and is turned down with the alert if it is 0. *)
Theorem starting_capital_unlocks_net_change :
  forall E st i month s,
    nth_error monthOrder i = Some month ->
    let st' := setStartingCapital E st month s in
    (s < 0 -> st' = st)
    /\ (0 <= s ->
        getPortfolioSize (a_portfolio st') month (a_selectedYear st) = s
        /\ (mc_startingCapital (monthCapitalOf (render E st') month) = 0 ->
            forall yr v,
              (exists row, nth_error (computedData E (render E st')) i = Some row
                           /\ MRow.startingCapital row = s)
              /\ (0 < s -> outcome (setNetChangeResult E st' i month yr v) = Saved)
              /\ (s = 0 -> outcome (setNetChangeResult E st' i month yr v)
                           = Alerted startingCapitalAlert))).
Proof.
  intros E st i month s Hm st'.
  assert (Hvalid : indexOf month <> -1).
  { rewrite (indexOf_monthOrder _ Hm). lia. }
  split.
  - intros Hneg. unfold st', setStartingCapital, saveStartingCapital.
    destruct (Z.leb_spec 0 s); [lia|]. destruct st; reflexivity.
  - intros Hpos.
    assert (G : getPortfolioSize (a_portfolio st') month (a_selectedYear st) = s).
    { unfold st', setStartingCapital, saveStartingCapital. cbn [a_portfolio].
      destruct (Z.leb_spec 0 s); [|lia]. apply getPortfolioSize_set. }
    split; [exact G|].
    intros Hmc yr v.
    assert (Hrow : nth_error (computedData E (render E st')) i
                   = Some (computedRow E (render E st') i (initialRow E (render E st') month))).
    { rewrite computedData_nth, Hm. reflexivity. }
    assert (Hstart : MRow.startingCapital
                       (computedRow E (render E st') i (initialRow E (render E st') month)) = s).
    { change (MRow.startingCapital
                (computedRow E (render E st') i (initialRow E (render E st') month)))
        with (MRow.startingCapital (initialRow E (render E st') month)).
      rewrite initialRow_startingCapital, Hmc. simpl (0 =? 0). cbv iota. exact G. }
    split; [eexists; split; [exact Hrow|exact Hstart]|].
    split.
    + intros Hs. unfold setNetChangeResult.
      apply handleSave_accepts with (row := computedRow E (render E st') i
                                              (initialRow E (render E st') month));
        [exact Hvalid|exact Hrow|lia].
    + intros Hs. unfold setNetChangeResult, handleSaveAddedWithdrawn.
      destruct (Z.eqb_spec (indexOf month) (-1)) as [K|_]; [contradiction|].
      rewrite Hrow, Hstart.
      destruct (Z.leb_spec s 0); [reflexivity|lia].
Qed.

Lemma starting_capital_witness :
  let st' := setStartingCapital Sample.env Sample.unsetState "Mar" 2500 in
  getPortfolioSize (a_portfolio st') "Mar" 2024 = 2500
  /\ outcome (setNetChangeResult Sample.env Sample.unsetState 2 "Mar" 2024 100)
     = Alerted startingCapitalAlert
  /\ outcome (setNetChangeResult Sample.env st' 2 "Mar" 2024 100) = Saved.
Proof.
  destruct (@starting_capital_unlocks_net_change Sample.env Sample.unsetState
              2 "Mar" 2500 eq_refl) as [_ H].
  assert (Hpos : 0 <= 2500) by lia.
  destruct (H Hpos) as [G K].
  split; [exact G|].
  split; [vm_compute; reflexivity|].
  assert (Hmc : mc_startingCapital
                  (monthCapitalOf
                     (render Sample.env
                        (setStartingCapital Sample.env Sample.unsetState "Mar" 2500))
                     "Mar") = 0) by (vm_compute; reflexivity).
  destruct (K Hmc 2024 100) as (_ & Hsaved & _).
  apply Hsaved. lia.
Defined.

(** ** Opening the Added/Withdrawn cell and leaving it *)

Lemma signed_by_sign :
  forall c,
    c_amount c * match c_type c with deposit => 1 | withdrawal => -1 end
    = signedAmount c.
Proof. intros c. unfold signedAmount. destruct (c_type c); lia. Qed.

(** The value the cell is filled with is the net change recorded for the
    row's month in the year the cell works with. *)
Lemma prefill_is_recordedNet :
  forall E I i item,
    nth_error (computedData E I) i = Some item ->
    prefillAddedWithdrawn E I i
    = Some (recordedNet (editingYear E I (MRow.month item)) (MRow.month item)
                        (capitalChanges I)).
Proof.
  intros E I i item H. unfold prefillAddedWithdrawn, recordedNet. rewrite H.
  cbv zeta. destruct (find _ (capitalChanges I)) as [c|]; [|reflexivity].
  now rewrite signed_by_sign.
Qed.

(** Opening the Added/Withdrawn cell of a row and leaving it without
    typing saves the value the cell was filled with.  When the year the
    cell works with (the year of the first hook record of that month name,
    else the clock's year) is the selected year, this changes nothing that
    the page shows: the net change recorded for the month, the portfolio
    size of the month and the number of capital changes stay as they
    were. *)
Theorem open_and_leave_changes_nothing :
  forall E I cell i item yr,
    nth_error (computedData E I) i = Some item ->
    editingYear E I (MRow.month item) = selectedYear I ->
    let month := MRow.month item in
    let r := handleSaveAddedWithdrawn E I cell (prefillAddedWithdrawn E I i) i month yr in
    recordedNet (selectedYear I) month (newCapitalChanges r)
    = recordedNet (selectedYear I) month (capitalChanges I)
    /\ getPortfolioSize (newPortfolio r) month (selectedYear I)
       = getPortfolioSize (portfolio I) month (selectedYear I)
    /\ List.length (newCapitalChanges r) = List.length (capitalChanges I).
Proof.
  intros E I cell i item yr Hrow Hyear month r. subst r.
  rewrite (prefill_is_recordedNet E I i Hrow). rewrite Hyear. fold month.
  set (v := recordedNet (selectedYear I) month (capitalChanges I)).
  destruct (handleSave_store E I cell (Some v) i month yr)
    as [[C P]|(v' & Hv' & Hm & _ & A)].
  - now rewrite C, P.
  - injection Hv' as <-.
    apply (f_equal fst) in A as A1. apply (f_equal snd) in A as A2.
    cbn [fst snd] in A1, A2. rewrite A1, A2.
    destruct (@acceptedEdit_effect (selectedYear I) month v (capitalChanges I)
                (portfolio I) Hm) as (H1 & H2 & _ & H4).
    rewrite H1, H2. fold v. split; [reflexivity|split; [lia|]].
    now apply H4.
Qed.

Lemma open_and_leave_witness :
  let r := handleSaveAddedWithdrawn Sample.env Scenario.withJanuaryDeposit None
             (prefillAddedWithdrawn Sample.env Scenario.withJanuaryDeposit 0)
             0 "Jan" 2024 in
  prefillAddedWithdrawn Sample.env Scenario.withJanuaryDeposit 0 = Some 500
  /\ outcome r = Saved
  /\ recordedNet 2024 "Jan" (newCapitalChanges r) = 500
  /\ getPortfolioSize (newPortfolio r) "Jan" 2024 = 10000.
Proof.
  split; [vm_compute; reflexivity|].
  split; [vm_compute; reflexivity|].
  destruct (@open_and_leave_changes_nothing Sample.env Scenario.withJanuaryDeposit
              None 0 _ 2024 eq_refl) as (H1 & H2 & _).
  - vm_compute. reflexivity.
  - split.
    + etransitivity; [exact H1|]. vm_compute. reflexivity.
    + etransitivity; [exact H2|]. vm_compute. reflexivity.
Defined.

(** The condition on the year is needed: with a January record of 2023 in
    front of the hook's list, the cell of January 2024 is filled from 2023,
    where nothing is recorded, and leaving it saves 0 over the deposit of
    500 and takes 500 off the portfolio size. *)
Example open_and_leave_in_another_year :
  let I := Scenario.twoYearsOfRecords in
  let r := handleSaveAddedWithdrawn Sample.env I None
             (prefillAddedWithdrawn Sample.env I 0) 0 "Jan" 2023 in
  editingYear Sample.env I "Jan" = 2023
  /\ prefillAddedWithdrawn Sample.env I 0 = Some 0
  /\ recordedNet 2024 "Jan" (capitalChanges I) = 500
  /\ recordedNet 2024 "Jan" (newCapitalChanges r) = 0
  /\ getPortfolioSize (newPortfolio r) "Jan" 2024 = 9500.
Proof. vm_compute. repeat split. Qed.

(** ** The allocations page *)


Lemma insertBefore_perm :
  forall (A : Type) (before : A -> A -> bool) (x : A) (l : list A),
    Permutation (insertBefore before x l) (x :: l).
Proof.
  intros A before x l. induction l as [|y l IH]; simpl; [reflexivity|].
  destruct (before x y); [reflexivity|].
  rewrite IH. apply perm_swap.
Qed.

Lemma stableSort_perm :
  forall (A : Type) (before : A -> A -> bool) (l : list A),
    Permutation (stableSort before l) l.
Proof.
  intros A before l. unfold stableSort.
  assert (G : forall acc,
             Permutation (fold_left (fun a x => insertBefore before x a) l acc) (acc ++ l)).
  { induction l as [|x l IH]; intros acc; simpl.
    - now rewrite app_nil_r.
    - rewrite IH, insertBefore_perm. apply Permutation_middle. }
  exact (G []).
Qed.

Section SortedInsertion.
Variables (A : Type) (before : A -> A -> bool) (R : A -> A -> Prop).
Hypothesis before_true : forall x y, before x y = true -> R x y.
Hypothesis before_false : forall x y, before x y = false -> R y x.

Lemma insertBefore_HdRel :
  forall x y l, HdRel R y l -> R y x -> HdRel R y (insertBefore before x l).
Proof.
  intros x y l H Hyx. destruct l as [|z l]; simpl.
  - now constructor.
  - destruct (before x z); constructor; [exact Hyx|].
    now inversion H.
Qed.

Lemma insertBefore_Sorted :
  forall x l, Sorted R l -> Sorted R (insertBefore before x l).
Proof.
  intros x l H. induction H as [|y l Hs IH Hd]; simpl.
  - repeat constructor.
  - destruct (before x y) eqn:B.
    + constructor; [now constructor|]. constructor. now apply before_true.
    + constructor; [exact IH|].
      apply insertBefore_HdRel; [exact Hd|now apply before_false].
Qed.

Lemma stableSort_Sorted : forall l, Sorted R (stableSort before l).
Proof.
  intros l. unfold stableSort.
  assert (G : forall acc, Sorted R acc ->
                          Sorted R (fold_left (fun a x => insertBefore before x a) l acc)).
  { induction l as [|x l IH]; intros acc Hacc; simpl; [exact Hacc|].
    apply IH. now apply insertBefore_Sorted. }
  apply G. constructor.
Qed.
End SortedInsertion.

Lemma largerFirst_true :
  forall a b, Allocations.largerFirst a b = true -> byAllocation a b.
Proof.
  intros a b H. unfold Allocations.largerFirst, Qltb in H. unfold byAllocation.
  apply negb_true_iff in H.
  destruct (Qlt_le_dec (Allocations.calculatedAllocation b)
                       (Allocations.calculatedAllocation a)) as [L|L].
  - now apply Qlt_le_weak.
  - apply Qle_bool_iff in L. congruence.
Qed.

Lemma largerFirst_false :
  forall a b, Allocations.largerFirst a b = false -> byAllocation b a.
Proof.
  intros a b H. unfold Allocations.largerFirst, Qltb in H. unfold byAllocation.
  apply negb_false_iff in H. now apply Qle_bool_iff.
Qed.

(** The list of top allocations is in descending order of allocation and
    holds exactly the open and partial trades, each once, with its share of
    the portfolio; it is empty when the portfolio size is 0 or negative,
    and a closed trade is never in it. *)
Theorem topAllocations_sorted_open_positions :
  forall trades portfolioSize,
    let top := Allocations.topAllocations trades portfolioSize in
    Sorted byAllocation top
    /\ Permutation top
         (if portfolioSize <=? 0 then []
          else map (fun t => Allocations.mkAllocated
                               t (Allocations.allocationOf portfolioSize t))
                   (filter Allocations.openOrPartial trades))
    /\ (forall a, In a top ->
                  Allocations.positionStatus (Allocations.trade a) <> Closed
                  /\ In (Allocations.trade a) trades).
Proof.
  intros trades ps top.
  assert (P : Permutation top
                (if ps <=? 0 then []
                 else map (fun t => Allocations.mkAllocated t (Allocations.allocationOf ps t))
                          (filter Allocations.openOrPartial trades))).
  { unfold top, Allocations.topAllocations.
    destruct (Z.leb_spec ps 0) as [Hle|Hgt].
    - rewrite orb_true_r. reflexivity.
    - destruct (Z.eqb_spec ps 0); [lia|]. rewrite !orb_false_r.
      destruct trades as [|t trades]; [reflexivity|].
      simpl (List.length _ =? 0)%nat. cbv iota. apply stableSort_perm. }
  split; [|split; [exact P|]].
  - unfold top, Allocations.topAllocations.
    destruct (_ || _ || _); [constructor|].
    apply stableSort_Sorted with (before := Allocations.largerFirst);
      [exact largerFirst_true|exact largerFirst_false].
  - intros a Ha. apply (Permutation_in _ P) in Ha.
    destruct (ps <=? 0); [contradiction|].
    apply in_map_iff in Ha. destruct Ha as (t & <- & Ht).
    apply filter_In in Ht. destruct Ht as [Hin Hop]. cbn [Allocations.trade].
    split; [|exact Hin].
    unfold Allocations.openOrPartial in Hop.
    destruct (Allocations.positionStatus t); congruence.
Qed.

(** ** The statistics card and the % Win column *)

Lemma insertByDate_perm :
  forall t l, Permutation (insertByDate t l) (t :: l).
Proof.
  intros t l. induction l as [|u l IH]; simpl; [reflexivity|].
  destruct (tradeTime t <? tradeTime u); [reflexivity|].
  rewrite IH. apply perm_swap.
Qed.

Lemma sortByDate_perm : forall l, Permutation (sortByDate l) l.
Proof.
  intros l. unfold sortByDate.
  assert (G : forall acc,
             Permutation (fold_left (fun a t => insertByDate t a) l acc) (acc ++ l)).
  { induction l as [|t l IH]; intros acc; simpl.
    - now rewrite app_nil_r.
    - rewrite IH, insertByDate_perm. apply Permutation_middle. }
  exact (G []).
Qed.

Lemma filter_length_perm :
  forall (A : Type) (p : A -> bool) (l l' : list A),
    Permutation l l' -> List.length (filter p l) = List.length (filter p l').
Proof.
  intros A p l l' H. induction H; simpl.
  - reflexivity.
  - destruct (p x); simpl; now rewrite IHPermutation.
  - destruct (p x), (p y); reflexivity.
  - congruence.
Qed.

Lemma share_within_bounds :
  forall w n : nat,
    (w <= n)%nat -> (0 < n)%nat ->
    (0 <= (inject_Z (Z.of_nat w) / inject_Z (Z.of_nat n)) * 100
     /\ (inject_Z (Z.of_nat w) / inject_Z (Z.of_nat n)) * 100 <= 100)%Q.
Proof.
  intros w n Hwn Hn.
  destruct (Z.of_nat n) as [|p|p] eqn:N; try lia.
  assert (Hw : 0 <= Z.of_nat w <= Z.pos p) by lia.
  unfold Qle, Qdiv, Qmult, Qinv, inject_Z. simpl. lia.
Qed.

Lemma winRate_bounds_aux :
  forall allocation calcWeightedRewardRisk trades,
    (0 <= Stats.winRate (Stats.tradeStatistics allocation calcWeightedRewardRisk trades)
     /\ Stats.winRate (Stats.tradeStatistics allocation calcWeightedRewardRisk trades)
        <= 100)%Q.
Proof.
  intros allocation rr trades. unfold Stats.tradeStatistics. cbn [Stats.winRate].
  destruct (Nat.ltb_spec 0 (List.length trades)) as [Hn|_].
  - unfold lengthQ. apply share_within_bounds; [|exact Hn].
    apply filter_length_le.
  - split; unfold Qle; simpl; lia.
Qed.

(** The win rate of the statistics card lies between 0 and 100, and an
    empty trade list gives 0 for all six statistics. *)
Theorem winRate_between_0_and_100 :
  forall allocation calcWeightedRewardRisk trades,
    let s := Stats.tradeStatistics allocation calcWeightedRewardRisk trades in
    (0 <= Stats.winRate s /\ Stats.winRate s <= 100)%Q
    /\ (trades = [] ->
        s = Stats.mkTradeStatistics 0 0%Q 0%Q 0%Q 0%Q 0%Q 0%Q).
Proof.
  intros allocation rr trades s. split.
  - apply winRate_bounds_aux.
  - intros K. unfold s. rewrite K. reflexivity.
Qed.

Lemma initialRow_winPercentage :
  forall E I m,
    MRow.winPercentage (initialRow E I m)
    = if (0 <? List.length (tradesOfMonth E I m))%nat
      then Val ((lengthQ (filter (fun t => 0 <? plRs t) (tradesOfMonth E I m))
                 / lengthQ (tradesOfMonth E I m)) * 100)%Q
      else Dash.
Proof.
  intros E I m. unfold initialRow. cbv zeta. cbn [MRow.winPercentage].
  rewrite monthTrades_count, monthTrades_sorted.
  destruct (0 <? List.length (tradesOfMonth E I m))%nat; [|reflexivity].
  unfold lengthQ.
  rewrite sortByDate_length.
  rewrite (filter_length_perm _ (sortByDate_perm (tradesOfMonth E I m))).
  reflexivity.
Qed.

(** The % Win of a month's row is the win rate the statistics card
    computes on the trades of that month, and it lies between 0 and 100;
    the two differ only on a month without trades, where the row shows the
    marker and the card 0. *)
Theorem month_win_percentage_is_card_win_rate :
  forall E I i row allocation calcWeightedRewardRisk,
    nth_error (computedData E I) i = Some row ->
    let s := Stats.tradeStatistics allocation calcWeightedRewardRisk
               (tradesOfMonth E I (MRow.month row)) in
    shown (MRow.winPercentage row) = Stats.winRate s
    /\ Stats.totalTrades s = tradeCount row
    /\ (MRow.winPercentage row = Dash <-> tradesOfMonth E I (MRow.month row) = [])
    /\ (0 <= shown (MRow.winPercentage row) /\ shown (MRow.winPercentage row) <= 100)%Q.
Proof.
  intros E I i row allocation rr Hrow s.
  destruct (computedData_row E I i Hrow) as (m & Hm & ->).
  change (MRow.month (computedRow E I i (initialRow E I m))) with m in *.
  change (MRow.winPercentage (computedRow E I i (initialRow E I m)))
    with (MRow.winPercentage (initialRow E I m)).
  change (tradeCount (computedRow E I i (initialRow E I m)))
    with (tradeCount (initialRow E I m)).
  assert (H1 : shown (MRow.winPercentage (initialRow E I m)) = Stats.winRate s).
  { rewrite initialRow_winPercentage.
    unfold s, Stats.tradeStatistics. cbn [Stats.winRate].
    destruct (0 <? List.length (tradesOfMonth E I m))%nat; reflexivity. }
  split; [exact H1|].
  split; [unfold s; cbn [Stats.totalTrades]; now rewrite tradeCount_initialRow|].
  split.
  - rewrite initialRow_winPercentage.
    destruct (tradesOfMonth E I m) as [|t l]; simpl; split; intros K;
      try reflexivity; discriminate.
  - rewrite H1. apply (winRate_bounds_aux allocation rr (tradesOfMonth E I m)).
Qed.

Lemma month_win_percentage_witness :
  exists row,
    nth_error (computedData Sample.env Scenario.fiveTradeYear) 0 = Some row
    /\ (shown (MRow.winPercentage row) == 50)%Q
    /\ shown (MRow.winPercentage row)
       = Stats.winRate (Stats.tradeStatistics (fun _ => 0%Q) (fun _ => 0%Q)
                          (tradesOfMonth Sample.env Scenario.fiveTradeYear "Jan")).
Proof.
  eexists. split; [vm_compute; reflexivity|].
  split; [vm_compute; reflexivity|].
  exact (proj1 (@month_win_percentage_is_card_win_rate
                  Sample.env Scenario.fiveTradeYear 0 _
                  (fun _ => 0%Q) (fun _ => 0%Q) eq_refl)).
Defined.

(** ** P/L by day of the week *)

Lemma lookupDay_storeDay :
  forall acc day v key,
    DayChart.lookupDay (DayChart.storeDay day v acc) key
    = if String.eqb day key then Some v else DayChart.lookupDay acc key.
Proof.
  induction acc as [|[k w] acc IH]; intros day v key; simpl.
  - reflexivity.
  - destruct (String.eqb_spec k day) as [->|Hk]; simpl.
    + destruct (String.eqb day key); reflexivity.
    + destruct (String.eqb_spec k key) as [->|Hk'].
      * destruct (String.eqb_spec day key) as [->|_]; [contradiction|reflexivity].
      * apply IH.
Qed.

Lemma days_NoDup : NoDup DayChart.days.
Proof.
  unfold DayChart.days.
  repeat (constructor; [simpl; intuition discriminate|]). constructor.
Qed.

Lemma day_name_in_days :
  forall d, In (nth (Z.to_nat (DayChart.getDay d)) DayChart.days "undefined"%string)
               DayChart.days.
Proof.
  intros d. apply nth_In. unfold DayChart.getDay.
  pose proof (Z.mod_pos_bound (DayChart.daysFromCivil d + 4) 7 ltac:(lia)).
  change (List.length DayChart.days) with 7%nat. lia.
Qed.

Lemma one_key_amount :
  forall (keys : list string) (k : string) (x : Z),
    NoDup keys -> In k keys ->
    sumZ (map (fun key => if String.eqb k key then x else 0) keys) = x.
Proof.
  induction keys as [|a keys IH]; intros k x Hnd Hin; [contradiction|].
  inversion Hnd as [|? ? Hna Hnd']; subst. simpl.
  destruct (String.eqb_spec k a) as [->|Hka].
  - assert (Z0 : sumZ (map (fun key => if String.eqb a key then x else 0) keys) = 0).
    { clear IH Hnd Hnd' Hin. induction keys as [|b keys IH]; [reflexivity|].
      simpl. destruct (String.eqb_spec a b) as [->|_].
      - elim Hna. now left.
      - apply IH. intros K. apply Hna. now right. }
    rewrite Z0. lia.
  - destruct Hin as [->|Hin]; [contradiction|]. now rewrite IH.
Qed.

Lemma sumZ_pointwise :
  forall (A : Type) (f g : A -> Z) (l : list A),
    sumZ (map (fun a => f a + g a) l) = sumZ (map f l) + sumZ (map g l).
Proof.
  intros A f g l. induction l as [|a l IH]; simpl; [reflexivity|].
  rewrite IH. lia.
Qed.

(** The total over the seven days held by an accumulator. *)
Lemma addTrade_total :
  forall acc t,
    sumZ (map (fun day => DayChart.orZero (DayChart.lookupDay (DayChart.addTrade acc t) day))
              DayChart.days)
    = sumZ (map (fun day => DayChart.orZero (DayChart.lookupDay acc day)) DayChart.days)
      + chartedPnl t.
Proof.
  intros acc t. unfold DayChart.addTrade, chartedPnl.
  destruct (t_date t) as [d|]; cbn [isSome]; [|rewrite andb_false_r; lia].
  destruct (DayChart.realized t); cbn [andb]; [|lia].
  set (name := nth (Z.to_nat (DayChart.getDay d)) DayChart.days "undefined"%string).
  rewrite (map_ext _ (fun day =>
                        DayChart.orZero (DayChart.lookupDay acc day)
                        + (if String.eqb name day then plRs t else 0))).
  - rewrite sumZ_pointwise.
    rewrite (@one_key_amount DayChart.days name (plRs t) days_NoDup (day_name_in_days d)).
    reflexivity.
  - intros day. rewrite lookupDay_storeDay.
    destruct (String.eqb_spec name day) as [->|_]; simpl; lia.
Qed.

(** The day chart always has the seven days from Sunday to Saturday, in
    that order, and its seven amounts add up to the P/L of the closed and
    partial trades that carry a date: open trades and undated trades add
    nothing, and no such P/L is lost or counted twice. *)
Theorem dayPnLData_adds_up :
  forall trades,
    map fst (DayChart.dayPnLData trades) = DayChart.days
    /\ sumZ (map snd (DayChart.dayPnLData trades)) = sumZ (map chartedPnl trades).
Proof.
  intros trades. unfold DayChart.dayPnLData. split.
  - rewrite map_map. simpl. reflexivity.
  - rewrite map_map. cbn [snd]. unfold DayChart.pnlByDay.
    assert (G : forall acc,
               sumZ (map (fun day => DayChart.orZero
                                       (DayChart.lookupDay (fold_left DayChart.addTrade trades acc) day))
                         DayChart.days)
               = sumZ (map (fun day => DayChart.orZero (DayChart.lookupDay acc day))
                           DayChart.days)
                 + sumZ (map chartedPnl trades)).
    { induction trades as [|t l IH]; intros acc.
      - simpl. lia.
      - cbn [fold_left].
        change (sumZ (map chartedPnl (t :: l)))
          with (chartedPnl t + sumZ (map chartedPnl l)).
        rewrite IH, addTrade_total. lia. }
    rewrite G. reflexivity.
Qed.

(** ** Calls the table makes, and what they leave alone *)

(** What a save of the Added/Withdrawn cell of a row comes to, for the
    row index and month the table passes: nothing happens on a text that
    is not a number; otherwise the edit runs to the end when the row's
    starting capital is positive and is turned down with the alert when it
    is not.  The handler never reads a row that does not exist. *)
Theorem table_edit_outcome :
  forall E I cell i item yr value,
    nth_error (computedData E I) i = Some item ->
    outcome (handleSaveAddedWithdrawn E I cell value
               (Z.to_nat (rowIndexOf E I item)) (MRow.month item) yr)
    = match value with
      | None => Ignored
      | Some _ =>
          if 0 <? MRow.startingCapital item then Saved
          else Alerted startingCapitalAlert
      end.
Proof.
  intros E I cell i item yr value Hrow.
  rewrite (rowIndexOf_position E I i Hrow), Nat2Z.id.
  destruct value as [v|]; [|reflexivity].
  destruct (computedData_row E I i Hrow) as (m & Hm & Eq).
  assert (Hvalid : indexOf (MRow.month item) <> -1).
  { rewrite Eq. change (MRow.month (computedRow E I i (initialRow E I m))) with m.
    rewrite (indexOf_monthOrder _ Hm). lia. }
  destruct (Z.ltb_spec 0 (MRow.startingCapital item)) as [Hpos|Hneg].
  - now apply handleSave_accepts with (row := item).
  - unfold handleSaveAddedWithdrawn.
    destruct (Z.eqb_spec (indexOf (MRow.month item)) (-1)) as [K|_]; [contradiction|].
    rewrite Hrow. destruct (Z.leb_spec (MRow.startingCapital item) 0); [reflexivity|lia].
Qed.

Lemma table_edit_outcome_witness :
  exists item,
    nth_error (computedData Sample.env Sample.boundaryScenario) 1 = Some item
    /\ outcome (handleSaveAddedWithdrawn Sample.env Sample.boundaryScenario None (Some 250)
                  (Z.to_nat (rowIndexOf Sample.env Sample.boundaryScenario item))
                  (MRow.month item) 2024) = Saved.
Proof.
  eexists. split; [vm_compute; reflexivity|].
  etransitivity.
  - apply (@table_edit_outcome Sample.env Sample.boundaryScenario None 1).
    vm_compute. reflexivity.
  - vm_compute. reflexivity.
Defined.

Lemma update_leaves_other_filter :
  forall (P P' : CapitalChange -> bool) c ex l,
    NoDup (map c_id l) ->
    find P l = Some ex ->
    (forall x, P x = true -> P' x = false) ->
    P' c = false ->
    c_id c = c_id ex ->
    filter P' (updateCapitalChange c l) = filter P' l.
Proof.
  intros P P' c ex l. induction l as [|a l IH]; intros Hnd Hf Hexcl Hc Hid; [discriminate|].
  inversion Hnd as [|? ? Hna Hnd']; subst.
  pose proof (find_some _ _ Hf) as [Hin Pex].
  simpl. destruct (Nat.eqb_spec (c_id a) (c_id c)) as [K|K].
  - assert (Ea : a = ex).
    { destruct Hin as [E|Hin]; [exact E|].
      elim Hna. rewrite K, Hid. now apply in_map. }
    subst a. simpl. rewrite Hc, (Hexcl ex Pex).
    rewrite update_absent; [reflexivity|].
    intros x Hx Kx. apply Hna. rewrite <- Hid, <- Kx. now apply in_map.
  - simpl in Hf. destruct (P a) eqn:Pa.
    + injection Hf as ->. now rewrite Hid in K.
    + simpl. fold (updateCapitalChange c l).
      rewrite IH; try assumption. reflexivity.
Qed.

(** An edit of one month leaves the capital changes of every other month,
    and of every other year, as they were, provided the capital changes
    have distinct identifiers: the net figures the other rows show come
    from the same records as before. *)
Theorem edit_leaves_other_months_alone :
  forall E I cell value rowIndex month yr y' mi',
    NoDup (map c_id (capitalChanges I)) ->
    y' <> selectedYear I \/ mi' <> indexOf month ->
    filter (changeInMonth y' mi')
           (newCapitalChanges (handleSaveAddedWithdrawn E I cell value rowIndex month yr))
    = filter (changeInMonth y' mi') (capitalChanges I).
Proof.
  intros E I cell value i month yr y' mi' Hnd Hother.
  destruct (handleSave_store E I cell value i month yr)
    as [[C _]|(v & _ & Hm & _ & A)]; [now rewrite C|].
  assert (R : 0 <= indexOf month < 12)
    by (destruct (indexOf_range month); [contradiction|lia]).
  apply (f_equal fst) in A. cbn [fst] in A. rewrite A. unfold acceptedEdit.
  assert (Hexcl : forall x, changeInMonth (selectedYear I) (indexOf month) x = true ->
                            changeInMonth y' mi' x = false).
  { intros x Hx. unfold changeInMonth in *.
    apply andb_true_iff in Hx. destruct Hx as [H1 H2].
    apply Z.eqb_eq in H1. apply Z.eqb_eq in H2. rewrite H1, H2.
    destruct Hother as [K|K].
    - destruct (Z.eqb_spec (selectedYear I) y'); [congruence|apply andb_false_r].
    - destruct (Z.eqb_spec (indexOf month) mi'); [congruence|reflexivity]. }
  assert (Hnew : forall id a t d,
             changeInMonth y' mi'
               (mkChange id (firstOfMonth (selectedYear I) (indexOf month)) a t d) = false).
  { intros. apply Hexcl. now apply changeInMonth_firstOfMonth. }
  destruct (find _ (capitalChanges I)) as [ex|] eqn:F; cbn [fst].
  - apply update_leaves_other_filter
      with (P := changeInMonth (selectedYear I) (indexOf month)) (ex := ex);
      try assumption; [apply Hnew|reflexivity].
  - destruct (v =? 0); cbn [fst]; [reflexivity|].
    unfold addCapitalChange. rewrite filter_app. simpl.
    rewrite Hnew. apply app_nil_r.
Qed.

Lemma edit_leaves_other_months_witness :
  filter (changeInMonth 2024 2)
         (newCapitalChanges
            (handleSaveAddedWithdrawn Sample.env Sample.withMarchDeposit None (Some 700)
               0 "Jan" 2024))
  = [Sample.marchDeposit].
Proof.
  rewrite (@edit_leaves_other_months_alone Sample.env Sample.withMarchDeposit
             None (Some 700) 0 "Jan" 2024 2024 2).
  - reflexivity.
  - simpl. constructor; [simpl; tauto|constructor].
  - right. vm_compute. discriminate.
Defined.

(** A saved net change enters the month's own year-to-date series: after
    an edit that ran to the end, with a value other than 0 or on a month
    that held a change, the next render's year-to-date call for that month
    has the event (first day of the month, value) among its interim
    events. *)
Theorem saved_change_enters_ytd_series :
  forall E st i month yr v row,
    nth_error monthOrder i = Some month ->
    outcome (setNetChangeResult E st i month yr v) = Saved ->
    v <> 0 \/ find (changeInMonth (a_selectedYear st) (indexOf month))
                   (a_capitalChanges st) <> None ->
    nth_error (computedData E (render E (setNetChange E st i month yr v))) i = Some row ->
    MRow.startingCapital row <> 0 ->
    exists a,
      MRow.cagr row = calcXIRR E a
      /\ x_endDate a = mkDate (a_selectedYear st) (Z.of_nat i) 1
      /\ In (mkDate (a_selectedYear st) (Z.of_nat i) 1, v) (x_capitalChanges a).
Proof.
  intros E st i month yr v row Hm Hsaved Hor Hrow Hcap.
  set (st' := setNetChange E st i month yr v) in *.
  set (I' := render E st') in *.
  pose proof (monthOrder_nth_lt _ Hm) as Hi.
  pose proof (indexOf_monthOrder _ Hm) as Hidx.
  destruct (handleSave_saved E (render E st) _ (Some v) i month yr Hsaved)
    as (v' & Hv' & Hvalid & A).
  injection Hv' as <-.
  apply (f_equal fst) in A. cbn [fst] in A.
  destruct (@acceptedEdit_record (selectedYear (render E st)) month v
              (capitalChanges (render E st)) (portfolio (render E st)) Hvalid Hor)
    as (c & Fc & Dc & Sc).
  rewrite <- A in Fc. apply find_some in Fc. destruct Fc as [Hin _].
  change (newCapitalChanges (handleSaveAddedWithdrawn E (render E st)
            (Some (i, "addedWithdrawn"%string)) (Some v) i month yr))
    with (capitalChanges I') in Hin.
  change (selectedYear (render E st)) with (a_selectedYear st) in Dc.
  rewrite Hidx in Dc.
  destruct (computedData_row _ _ i Hrow) as (m' & Hm' & ->).
  rewrite Hm in Hm'. injection Hm' as <-.
  change (MRow.startingCapital (computedRow E I' i (initialRow E I' month)))
    with (MRow.startingCapital (initialRow E I' month)) in Hcap.
  cbn [computedRow MRow.cagr]. unfold ytdArgs.
  rewrite initialRow_month, Hidx.
  destruct (Z.eqb_spec (MRow.startingCapital (initialRow E I' month)) 0) as [K|_];
    [contradiction|].
  cbn [negb xirrOf]. eexists. split; [reflexivity|].
  cbn [x_endDate x_capitalChanges].
  change (selectedYear I') with (a_selectedYear st).
  rewrite !firstOfMonth_in_year by lia.
  split; [reflexivity|].
  unfold relevantChanges.
  apply in_map_iff. exists c. split.
  - now rewrite Dc, Sc.
  - apply filter_In. split; [exact Hin|].
    rewrite Dc. unfold date_leb. apply Z.leb_refl.
Qed.

Lemma saved_change_enters_ytd_witness :
  exists row a,
    nth_error
      (computedData Sample.env
         (render Sample.env (setNetChange Sample.env Sample.quietState 1 "Feb" 2024 400)))
      1 = Some row
    /\ MRow.cagr row = calcXIRR Sample.env a
    /\ In (mkDate 2024 1 1, 400) (x_capitalChanges a).
Proof.
  destruct (@saved_change_enters_ytd_series Sample.env Sample.quietState 1 "Feb" 2024 400
              (nth 1 (computedData Sample.env
                        (render Sample.env
                           (setNetChange Sample.env Sample.quietState 1 "Feb" 2024 400)))
                     (initialRow Sample.env (render Sample.env Sample.quietState) "Feb")))
    as (a & H1 & _ & H3).
  - reflexivity.
  - vm_compute. reflexivity.
  - left. discriminate.
  - vm_compute. reflexivity.
  - vm_compute. discriminate.
  - eexists. exists a. split; [vm_compute; reflexivity|].
    split; [exact H1|exact H3].
Defined.
